(** * OSPFS: a shallow embedding of [ospfsmod.c]

    The file system image is the byte array [ospfs_data].  The embedding
    keeps that array as a byte-addressed memory ([Z -> Z], little-endian
    32-bit words as on x86): the free bitmap, the indirect blocks, the
    directory entries and the file contents all live in it and may alias,
    exactly as in the C code, where [ospfs_block] only computes an
    address.  The superblock and the inode table are accessed in C through
    the struct types of [ospfs.h]; that header is not part of the sources,
    so the two are kept as typed tables ([ospfs_super_t], [ospfs_inode_t])
    next to the byte memory, and an inode pointer is the inode number.

    Integers are [Z] with the wrap-around of the C type written out
    ([u32], [s32], [u64], [s64]).  A C function that changes the image is a
    function [disk -> outcome _]; [Oops] is a kernel fault (NULL
    dereference, access outside a fixed-size array).  Loops whose trip count
    is not syntactically bounded carry a fuel that is an upper bound of the
    trip count; [Fuel] is the outcome of an exhausted fuel. *)

From Stdlib Require Import ZArith Lia List Bool String Ascii.
From stdpp Require Import base numbers functions.
Import ListNotations.
Open Scope Z_scope.

(** ** Constants *)

(** Modelled from the spec: [ospfs.h] is missing; section 3 and section 8
    give the block size of the reference image, the number of direct
    pointers and the number of pointers of an indirect block
    ([NI = BLKSIZE/4]); the bitmap starts at block 2. *)
Definition OSPFS_BLKSIZE : Z := 1024.
Definition OSPFS_NDIRECT : Z := 10.
Definition OSPFS_NINDIRECT : Z := 256.
Definition OSPFS_FREEMAP_BLK : Z := 2.

(** The remaining constants of [ospfs.h] have no value in the spec: they
    are parameters of the development. *)
Class ospfs_h : Type := {
  OSPFS_BLKINODES : Z;
  OSPFS_MAXFILEBLKS : Z;
  OSPFS_DIRENTRY_SIZE : Z;
  OSPFS_MAXNAMELEN : Z;
  OSPFS_MAXSYMLINKLEN : Z;
  OSPFS_FTYPE_REG : Z;
  OSPFS_FTYPE_DIR : Z;
  OSPFS_FTYPE_SYMLINK : Z
}.

(** Linux error numbers and [d_type] values. *)
Definition EPERM : Z := 1.
Definition ENOENT : Z := 2.
Definition EIO : Z := 5.
Definition ENOMEM : Z := 12.
Definition EFAULT : Z := 14.
Definition EEXIST : Z := 17.
Definition ENOSPC : Z := 28.
Definition ENAMETOOLONG : Z := 36.
Definition DT_DIR : Z := 4.
Definition DT_REG : Z := 8.
Definition DT_LNK : Z := 10.

(** ** Machine integers *)

Definition u32 (x : Z) : Z := x mod 2 ^ 32.
Definition s32 (x : Z) : Z :=
  let y := x mod 2 ^ 32 in if y <? 2 ^ 31 then y else y - 2 ^ 32.
Definition u64 (x : Z) : Z := x mod 2 ^ 64.
Definition s64 (x : Z) : Z :=
  let y := x mod 2 ^ 64 in if y <? 2 ^ 63 then y else y - 2 ^ 64.

(** ** The image *)

Record ospfs_super_t : Type := {
  os_magic : Z;
  os_nblocks : Z;
  os_ninodes : Z;
  os_firstinob : Z
}.

(** [oi_symlink] is the inline target of the symlink view
    ([ospfs_symlink_inode_t]); in C it shares its bytes with [oi_mode] and
    the block pointers.  Here the two views are separate fields: a store
    through [oi_symlink] changes both ([inode_with_byte]), a store to a
    word of the file view changes that word. *)
Record ospfs_inode_t : Type := {
  oi_size : Z;
  oi_ftype : Z;
  oi_nlink : Z;
  oi_mode : Z;
  oi_direct : Z -> Z;
  oi_indirect : Z;
  oi_indirect2 : Z;
  oi_symlink : Z -> Z
}.

Record disk : Type := {
  ospfs_super : ospfs_super_t;
  ospfs_inodes : Z -> ospfs_inode_t;
  ospfs_data : Z -> Z
}.

Definition with_size (v : Z) (i : ospfs_inode_t) : ospfs_inode_t :=
  {| oi_size := v; oi_ftype := oi_ftype i; oi_nlink := oi_nlink i;
     oi_mode := oi_mode i; oi_direct := oi_direct i;
     oi_indirect := oi_indirect i; oi_indirect2 := oi_indirect2 i;
     oi_symlink := oi_symlink i |}.
Definition with_ftype (v : Z) (i : ospfs_inode_t) : ospfs_inode_t :=
  {| oi_size := oi_size i; oi_ftype := v; oi_nlink := oi_nlink i;
     oi_mode := oi_mode i; oi_direct := oi_direct i;
     oi_indirect := oi_indirect i; oi_indirect2 := oi_indirect2 i;
     oi_symlink := oi_symlink i |}.
Definition with_nlink (v : Z) (i : ospfs_inode_t) : ospfs_inode_t :=
  {| oi_size := oi_size i; oi_ftype := oi_ftype i; oi_nlink := v;
     oi_mode := oi_mode i; oi_direct := oi_direct i;
     oi_indirect := oi_indirect i; oi_indirect2 := oi_indirect2 i;
     oi_symlink := oi_symlink i |}.
Definition with_mode (v : Z) (i : ospfs_inode_t) : ospfs_inode_t :=
  {| oi_size := oi_size i; oi_ftype := oi_ftype i; oi_nlink := oi_nlink i;
     oi_mode := v; oi_direct := oi_direct i;
     oi_indirect := oi_indirect i; oi_indirect2 := oi_indirect2 i;
     oi_symlink := oi_symlink i |}.
Definition with_direct (k v : Z) (i : ospfs_inode_t) : ospfs_inode_t :=
  {| oi_size := oi_size i; oi_ftype := oi_ftype i; oi_nlink := oi_nlink i;
     oi_mode := oi_mode i; oi_direct := <[k := v]> (oi_direct i);
     oi_indirect := oi_indirect i; oi_indirect2 := oi_indirect2 i;
     oi_symlink := oi_symlink i |}.
Definition with_indirect (v : Z) (i : ospfs_inode_t) : ospfs_inode_t :=
  {| oi_size := oi_size i; oi_ftype := oi_ftype i; oi_nlink := oi_nlink i;
     oi_mode := oi_mode i; oi_direct := oi_direct i;
     oi_indirect := v; oi_indirect2 := oi_indirect2 i;
     oi_symlink := oi_symlink i |}.
Definition with_indirect2 (v : Z) (i : ospfs_inode_t) : ospfs_inode_t :=
  {| oi_size := oi_size i; oi_ftype := oi_ftype i; oi_nlink := oi_nlink i;
     oi_mode := oi_mode i; oi_direct := oi_direct i;
     oi_indirect := oi_indirect i; oi_indirect2 := v;
     oi_symlink := oi_symlink i |}.
Definition with_symlink (k v : Z) (i : ospfs_inode_t) : ospfs_inode_t :=
  {| oi_size := oi_size i; oi_ftype := oi_ftype i; oi_nlink := oi_nlink i;
     oi_mode := oi_mode i; oi_direct := oi_direct i;
     oi_indirect := oi_indirect i; oi_indirect2 := oi_indirect2 i;
     oi_symlink := <[k := v]> (oi_symlink i) |}.

(** ** Byte memory with little-endian words *)

Definition load8 (m : Z -> Z) (a : Z) : Z := m a mod 256.
Definition load32 (m : Z -> Z) (a : Z) : Z :=
  load8 m a + 2 ^ 8 * load8 m (a + 1) + 2 ^ 16 * load8 m (a + 2)
  + 2 ^ 24 * load8 m (a + 3).
Definition store8 (m : Z -> Z) (a v : Z) : Z -> Z := <[a := v mod 256]> m.
Definition store32 (m : Z -> Z) (a v : Z) : Z -> Z :=
  store8 (store8 (store8 (store8 m a v) (a + 1) (v / 2 ^ 8))
            (a + 2) (v / 2 ^ 16)) (a + 3) (v / 2 ^ 24).
Definition memset (m : Z -> Z) (a c n : Z) : Z -> Z :=
  fun x => if (a <=? x) && (x <? a + n) then c mod 256 else m x.

(** ** Outcomes and the state monad of the image

    [Done a d]: the run returns [a] and leaves the image [d].  [Oops]: the
    run has no result in C: it goes through a NULL pointer, or adds two
    signed integers whose sum the type cannot hold, which the language
    leaves undefined.  [Fuel]: a loop of the model was cut short. *)

Inductive outcome (A : Type) : Type :=
| Done (a : A) (d : disk)
| Oops
| Fuel.
Arguments Done {A} a d.
Arguments Oops {A}.
Arguments Fuel {A}.

Definition M (A : Type) : Type := disk -> outcome A.

Definition ret {A : Type} (a : A) : M A := fun d => Done a d.
Definition bind {A B : Type} (c : M A) (k : A -> M B) : M B :=
  fun d => match c d with
           | Done a d' => k a d'
           | Oops => Oops
           | Fuel => Fuel
           end.
Definition oops {A : Type} : M A := fun _ => Oops.
Definition out_of_fuel {A : Type} : M A := fun _ => Fuel.

Notation "'let*' x ':=' c 'in' k" := (bind c (fun x => k))
  (at level 10, x pattern, c at level 100, k at level 200).

(** [gets f] reads the image, [oi_get f oi] reads [oi->f]. *)
Definition gets {A : Type} (f : disk -> A) : M A := fun d => Done (f d) d.
Definition oi_get {A : Type} (f : ospfs_inode_t -> A) (oi : Z) : M A :=
  gets (fun d => f (ospfs_inodes d oi)).
Definition oi_set (f : ospfs_inode_t -> ospfs_inode_t) (oi : Z) : M unit :=
  fun d => Done tt {| ospfs_super := ospfs_super d;
                      ospfs_inodes :=
                        <[oi := f (ospfs_inodes d oi)]> (ospfs_inodes d);
                      ospfs_data := ospfs_data d |}.
Definition set_data (m : Z -> Z) (d : disk) : disk :=
  {| ospfs_super := ospfs_super d; ospfs_inodes := ospfs_inodes d;
     ospfs_data := m |}.
Definition rd32 (a : Z) : M Z := gets (fun d => load32 (ospfs_data d) a).
Definition wr32 (a v : Z) : M unit :=
  fun d => Done tt (set_data (store32 (ospfs_data d) a v) d).
Definition wr8 (a v : Z) : M unit :=
  fun d => Done tt (set_data (store8 (ospfs_data d) a v) d).
Definition zero_block (a : Z) : M unit :=
  fun d => Done tt (set_data (memset (ospfs_data d) a 0 OSPFS_BLKSIZE) d).

(** [post o Q]: the run [o] returned, and its value and final image
    satisfy [Q]. *)
Definition post {A : Type} (o : outcome A) (Q : A -> disk -> Prop) : Prop :=
  match o with
  | Done a d => Q a d
  | Oops => False
  | Fuel => False
  end.

(** ** Bit vector operations *)

(** [i] is an [int]; [/] and [%] truncate towards zero. *)
Definition bitvector_set (vector i : Z) : M unit :=
  let a := vector + 4 * Z.quot i 32 in
  let* w := rd32 a in
  wr32 a (Z.lor w (u32 (Z.shiftl 1 (Z.rem i 32)))).

Definition bitvector_clear (vector i : Z) : M unit :=
  let a := vector + 4 * Z.quot i 32 in
  let* w := rd32 a in
  wr32 a (Z.land w (u32 (Z.lnot (Z.shiftl 1 (Z.rem i 32))))).

Definition bitvector_test (vector i : Z) (d : disk) : bool :=
  negb (Z.land (load32 (ospfs_data d) (vector + 4 * Z.quot i 32))
               (u32 (Z.shiftl 1 (Z.rem i 32))) =? 0).

(** ** Helper functions *)

Definition ospfs_size2nblocks (size : Z) : Z :=
  u32 (size + OSPFS_BLKSIZE - 1) / OSPFS_BLKSIZE.

(** [ospfs_block blockno] is the address [&ospfs_data[blockno * BLKSIZE]];
    the index is computed in [uint32_t]. *)
Definition ospfs_block (blockno : Z) : Z := u32 (blockno * OSPFS_BLKSIZE).

(** [ospfs_inode ino]: [None] is the NULL pointer. *)
Definition ospfs_inode (ino : Z) (d : disk) : option Z :=
  if os_ninodes (ospfs_super d) <=? ino then None else Some ino.

(** Dereferencing a possibly-NULL inode pointer. *)
Definition deref (p : option Z) : M Z :=
  match p with
  | Some oi => ret oi
  | None => oops
  end.

Section Ospfs.
Context {hdr : ospfs_h}.

(** [p[k]] for a [uint32_t *p]. *)
Definition word_at (p k : Z) (d : disk) : Z := load32 (ospfs_data d) (p + 4 * k).

Definition ospfs_inode_blockno (oi : Z) (offset : Z) (d : disk) : Z :=
  let i := ospfs_inodes d oi in
  let blockno := offset / OSPFS_BLKSIZE in
  if (oi_size i <=? offset) || (oi_ftype i =? OSPFS_FTYPE_SYMLINK) then 0
  else if OSPFS_NDIRECT + OSPFS_NINDIRECT <=? blockno then
    let blockoff := u32 (blockno - (OSPFS_NDIRECT + OSPFS_NINDIRECT)) in
    let indirect2_block := ospfs_block (oi_indirect2 i) in
    let indirect_block :=
      ospfs_block (word_at indirect2_block (blockoff / OSPFS_NINDIRECT) d) in
    word_at indirect_block (blockoff mod OSPFS_NINDIRECT) d
  else if OSPFS_NDIRECT <=? blockno then
    let indirect_block := ospfs_block (oi_indirect i) in
    word_at indirect_block (u32 (blockno - OSPFS_NDIRECT)) d
  else oi_direct i blockno.

Definition ospfs_inode_data (oi : Z) (offset : Z) (d : disk) : Z :=
  let blockno := ospfs_inode_blockno oi offset d in
  ospfs_block blockno + offset mod OSPFS_BLKSIZE.

(** The [for] loop of [find_free_inode]; [k] counts the inode numbers
    still to visit. *)
Fixpoint find_free_inode_from (k : nat) (inode_no : Z) (d : disk) : Z :=
  match k with
  | O => 0
  | S k' =>
      if oi_nlink (ospfs_inodes d inode_no) =? 0 then inode_no
      else find_free_inode_from k' (inode_no + 1) d
  end.

Definition find_free_inode (d : disk) : Z :=
  find_free_inode_from (Z.to_nat (os_ninodes (ospfs_super d) - 2)) 2 d.

(** ** Free-block bitmap *)

(** The [for] loop of [allocate_block]; [k] counts the block numbers
    still to visit. *)
Fixpoint allocate_block_from (k : nat) (freemap i : Z) : M Z :=
  match k with
  | O => ret 0
  | S k' =>
      let* t := gets (bitvector_test freemap (s32 i)) in
      if t then
        let* _ := bitvector_clear freemap (s32 i) in
        ret i
      else allocate_block_from k' freemap (i + 1)
  end.

Definition allocate_block : M Z :=
  let freemap := ospfs_block OSPFS_FREEMAP_BLK in
  let* nblocks := gets (fun d => os_nblocks (ospfs_super d)) in
  allocate_block_from (Z.to_nat (nblocks - OSPFS_FREEMAP_BLK)) freemap
    OSPFS_FREEMAP_BLK.

Definition free_block (blockno : Z) : M unit :=
  let* sb := gets ospfs_super in
  let last_inode_block := u32 (os_firstinob sb + OSPFS_BLKINODES) in
  let freemap := ospfs_block OSPFS_FREEMAP_BLK in
  if (os_ninodes sb <=? blockno) || (blockno <=? last_inode_block) then ret tt
  else bitvector_set freemap (s32 blockno).

(** ** Block index arithmetic *)

Definition indir2_index (b : Z) : Z :=
  if b <? OSPFS_NDIRECT + OSPFS_NINDIRECT then -1 else 0.

Definition indir_index (b : Z) : Z :=
  if b <? OSPFS_NDIRECT then -1
  else if indir2_index b =? -1 then 0
  else s32 (u32 (b - (OSPFS_NDIRECT + OSPFS_NINDIRECT)) / OSPFS_NINDIRECT).

Definition direct_index (b : Z) : Z :=
  if b <? OSPFS_NDIRECT then s32 b
  else s32 (u32 (b - OSPFS_NDIRECT) mod OSPFS_NINDIRECT).

(** ** The size engine *)

(** The code after the label [ERR_HANDLE] of [add_block]; [a2] and [a1] are
    [allocated[INDIR_2_CONST]] and [allocated[INDIR_1_CONST]]. *)
Definition err_handle (a2 a1 r : Z) : M Z :=
  let* _ := (if negb (a2 =? 0) then free_block a2 else ret tt) in
  let* _ := (if negb (a1 =? 0) then free_block a1 else ret tt) in
  ret r.

(** The tail shared by the two indirect branches of [add_block]:
    [indir_data[index_direct] = allocate_block()], with [indir_data]
    possibly NULL. *)
Definition store_new_block (indir_data : option Z) (index_direct : Z) : M Z :=
  let* v := allocate_block in
  match indir_data with
  | None => oops
  | Some p => let* _ := wr32 (p + 4 * index_direct) v in ret v
  end.

Definition add_block (oi : Z) : M Z :=
  let* size := oi_get oi_size oi in
  let n := ospfs_size2nblocks size in
  let r := - ENOSPC in
  if n =? OSPFS_MAXFILEBLKS then ret (- ENOSPC)
  else
    let index_indir2 := indir2_index n in
    let index_indir := indir_index n in
    let index_direct := direct_index n in
    if index_indir =? -1 then
      let* cur := oi_get (fun i => oi_direct i index_direct) oi in
      if negb (cur =? 0) then ret (- EIO)
      else
        let* a0 := allocate_block in
        if a0 =? 0 then
          let* _ := free_block a0 in
          ret (- ENOSPC)
        else
          let* _ := zero_block (ospfs_block a0) in
          let* _ := oi_set (with_direct index_direct a0) oi in
          let* _ := oi_set (with_size (u32 ((n + 1) * OSPFS_BLKSIZE))) oi in
          ret 0
    else if index_indir2 =? 0 then
      let* ind2 := oi_get oi_indirect2 oi in
      let* a2 := (if ind2 =? 0 then allocate_block else ret 0) in
      if (ind2 =? 0) && (a2 =? 0) then err_handle a2 0 r
      else
        let double_indir_block := if ind2 =? 0 then a2 else ind2 in
        let double_indir_data := ospfs_block double_indir_block in
        let* _ := (if ind2 =? 0 then zero_block double_indir_data
                   else ret tt) in
        let* slot := gets (word_at double_indir_data index_indir) in
        let* a1 := (if slot =? 0 then allocate_block else ret 0) in
        if (slot =? 0) && (a1 =? 0) then err_handle a2 a1 r
        else
          let indir_block := a1 in
          let indir_data :=
            if slot =? 0 then Some (ospfs_block indir_block) else None in
          let* _ := (if slot =? 0 then zero_block (ospfs_block indir_block)
                     else ret tt) in
          let* v := store_new_block indir_data index_direct in
          if v =? 0 then err_handle a2 a1 r
          else
            let* blk := match indir_data with
                        | Some p => gets (word_at p index_direct)
                        | None => oops
                        end in
            let* _ := zero_block (ospfs_block blk) in
            let* _ := oi_set (with_size (u32 ((n + 1) * OSPFS_BLKSIZE))) oi in
            let* ind2' := oi_get oi_indirect2 oi in
            let* _ := (if ind2' =? 0
                       then oi_set (with_indirect2 double_indir_block) oi
                       else ret tt) in
            let* slot' := gets (word_at double_indir_data index_indir) in
            let* _ := (if slot' =? 0
                       then wr32 (double_indir_data + 4 * index_indir)
                                 indir_block
                       else ret tt) in
            ret 0
    else
      let* ind := oi_get oi_indirect oi in
      let* a := (if ind =? 0 then allocate_block else ret ind) in
      let* _ := (if ind =? 0 then oi_set (with_indirect a) oi else ret tt) in
      if (ind =? 0) && (a =? 0) then err_handle 0 0 r
      else
        let* indir_block := oi_get oi_indirect oi in
        let* _ := (if ind =? 0 then zero_block (ospfs_block indir_block)
                   else ret tt) in
        let indir_data := ospfs_block indir_block in
        let* v := store_new_block (Some indir_data) index_direct in
        if v =? 0 then err_handle 0 0 r
        else
          let* blk := gets (word_at indir_data index_direct) in
          let* _ := zero_block (ospfs_block blk) in
          let* _ := oi_set (with_size (u32 ((n + 1) * OSPFS_BLKSIZE))) oi in
          ret 0.

Definition remove_block (oi : Z) : M Z :=
  let* size := oi_get oi_size oi in
  let n0 := ospfs_size2nblocks size in
  if n0 =? 0 then ret 0
  else
    let n := n0 - 1 in
    let index_indir2 := indir2_index n in
    let index_indir := indir_index n in
    let index_direct := direct_index n in
    if index_indir =? -1 then
      let* cur := oi_get (fun i => oi_direct i index_direct) oi in
      if cur =? 0 then ret (- EIO)
      else
        let* _ := free_block cur in
        let* _ := oi_set (with_direct index_direct 0) oi in
        let* _ := oi_set (with_size (u32 (n * OSPFS_BLKSIZE))) oi in
        ret 0
    else
      let* ind2 := oi_get oi_indirect2 oi in
      if (index_indir2 =? 0) && (ind2 =? 0) then ret (- EIO)
      else
        let double_indir_block := if index_indir2 =? 0 then ind2 else 0 in
        let double_indir_data := ospfs_block double_indir_block in
        let* indir_block :=
          (if index_indir2 =? 0
           then gets (word_at double_indir_data index_indir)
           else oi_get oi_indirect oi) in
        (* [ospfs_block] never returns NULL *)
        let indir_data : option Z := Some (ospfs_block indir_block) in
        match indir_data with
        | None => ret (- EIO)
        | Some p =>
            let* blk := gets (word_at p index_direct) in
            let* _ := free_block blk in
            let* _ := wr32 (p + 4 * index_direct) 0 in
            let* _ := oi_set (with_size (u32 (n * OSPFS_BLKSIZE))) oi in
            if index_direct =? 0 then
              let* _ := free_block indir_block in
              let* _ := (if index_indir2 =? -1
                         then oi_set (with_indirect 0) oi
                         else wr32 (double_indir_data + 4 * index_indir) 0) in
              if (index_indir =? 0) && (index_indir2 =? 0) then
                let* _ := free_block double_indir_block in
                let* _ := oi_set (with_indirect2 0) oi in
                ret 0
              else ret 0
            else ret 0
        end.

(** The first [while] loop of [change_size].  [inl r]: the function
    returned [r]; [inr (r, new_size)]: the loop was left. *)
Fixpoint grow_loop (fuel : nat) (oi new_size old_size r : Z)
  : M (Z + Z * Z) :=
  match fuel with
  | O => out_of_fuel
  | S fuel' =>
      let* size := oi_get oi_size oi in
      if ospfs_size2nblocks size <? ospfs_size2nblocks new_size then
        let* r' := add_block oi in
        if r' =? - ENOSPC then ret (inr (r', old_size))
        else if r' =? - EIO then ret (inl (- EIO))
        else grow_loop fuel' oi new_size old_size r'
      else ret (inr (r, new_size))
  end.

(** The second [while] loop of [change_size].  [Some r]: the function
    returned [r]. *)
Fixpoint shrink_loop (fuel : nat) (oi new_size : Z) : M (option Z) :=
  match fuel with
  | O => out_of_fuel
  | S fuel' =>
      let* size := oi_get oi_size oi in
      if ospfs_size2nblocks new_size <? ospfs_size2nblocks size then
        let* r' := remove_block oi in
        if r' =? - EIO then ret (Some (- EIO))
        else shrink_loop fuel' oi new_size
      else ret None
  end.

(** Every pass of the first loop adds one block and every pass of the
    second removes one, so the block counts bound the trip counts. *)
Definition change_size (oi new_size : Z) : M Z :=
  let* old_size := oi_get oi_size oi in
  let* g := grow_loop (S (Z.to_nat (ospfs_size2nblocks new_size)))
              oi new_size old_size 0 in
  match g with
  | inl r => ret r
  | inr (r, new_size) =>
      let* size := oi_get oi_size oi in
      let* s := shrink_loop (S (Z.to_nat (ospfs_size2nblocks size)))
                  oi new_size in
      match s with
      | Some r' => ret r'
      | None =>
          let* _ := oi_set (with_size new_size) oi in
          ret r
      end
  end.

(** ** Directory entries *)

(** Modelled from the spec: [struct ospfs_direntry] of the missing
    [ospfs.h]; section 3 describes it as the inode number followed by the
    NUL-terminated name, [OSPFS_MAXNAMELEN + 1] bytes long. *)
Definition od_ino (od : Z) (d : disk) : Z := load32 (ospfs_data d) od.
Definition od_name (od : Z) : Z := od + 4.

(** The bytes before the first NUL among the [k] bytes at [a] of the byte
    array [m]; [None] when there is no NUL. *)
Fixpoint cstring (k : nat) (m : Z -> Z) (a : Z) : option (list Z) :=
  match k with
  | O => None
  | S k' =>
      if load8 m a =? 0 then Some []
      else option_map (cons (load8 m a)) (cstring k' m (a + 1))
  end.

(** The C string in the [od_name] field; reading past the field is a
    fault. *)
Definition od_name_string (od : Z) : M (list Z) :=
  fun d => match cstring (Z.to_nat (OSPFS_MAXNAMELEN + 1)) (ospfs_data d)
                   (od_name od) with
           | Some s => Done s d
           | None => Oops
           end.

Definition strlen (s : list Z) : Z := Z.of_nat (length s).

(** [memcmp(a, name, strlen name) == 0] *)
Fixpoint memcmp_eq (m : Z -> Z) (a : Z) (name : list Z) : bool :=
  match name with
  | [] => true
  | c :: name' => (load8 m a =? c mod 256) && memcmp_eq m (a + 1) name'
  end.

(** The test shared by the directory scans:
    [od->od_ino > 0 && strlen(od->od_name) == len
     && memcmp(od->od_name, name, len) == 0]. *)
Definition direntry_matches (od : Z) (name : list Z) : M bool :=
  let* ino := gets (od_ino od) in
  if ino =? 0 then ret false
  else
    let* s := od_name_string od in
    if strlen s =? strlen name then
      gets (fun d => memcmp_eq (ospfs_data d) (od_name od) name)
    else ret false.

(** The [for] loop of [find_direntry], [off] running over the entries. *)
Fixpoint find_direntry_from (fuel : nat) (dir_oi : Z) (name : list Z)
    (off : Z) : M (option Z) :=
  match fuel with
  | O => out_of_fuel
  | S fuel' =>
      let* size := oi_get oi_size dir_oi in
      if u32 off <? size then
        let* od := gets (ospfs_inode_data dir_oi (u32 off)) in
        let* hit := direntry_matches od name in
        if hit then ret (Some od)
        else find_direntry_from fuel' dir_oi name (off + OSPFS_DIRENTRY_SIZE)
      else ret None
  end.

(** [name] stands for the pair [name], [namelen] of the C function, with
    [namelen = strlen name]. *)
Definition find_direntry (dir_oi : Z) (name : list Z) : M (option Z) :=
  let* size := oi_get oi_size dir_oi in
  find_direntry_from (S (Z.to_nat size)) dir_oi name 0.

(** ** unlink *)

(** The [for] loop of [ospfs_unlink]: it returns [entry_off] and [od] as
    the loop leaves them. *)
Fixpoint unlink_scan (fuel : nat) (dir_oi : Z) (name : list Z)
    (entry_off : Z) (od : option Z) : M (Z * option Z) :=
  match fuel with
  | O => out_of_fuel
  | S fuel' =>
      let* size := oi_get oi_size dir_oi in
      if u32 entry_off <? size then
        let* od' := gets (ospfs_inode_data dir_oi (u32 entry_off)) in
        let* hit := direntry_matches od' name in
        if hit then ret (entry_off, Some od')
        else unlink_scan fuel' dir_oi name
               (entry_off + OSPFS_DIRENTRY_SIZE) (Some od')
      else ret (entry_off, od)
  end.

(** [ino] is [dentry->d_inode->i_ino], [dir_ino] is
    [dentry->d_parent->d_inode->i_ino] and [name] is [dentry->d_name]. *)
Definition ospfs_unlink (ino dir_ino : Z) (name : list Z) : M Z :=
  let* oi := gets (ospfs_inode ino) in
  let* dir := gets (ospfs_inode dir_ino) in
  let* dir_oi := deref dir in
  let* size0 := oi_get oi_size dir_oi in
  let* found := unlink_scan (S (Z.to_nat size0)) dir_oi name 0 None in
  let (entry_off, od) := found : Z * option Z in
  let* size := oi_get oi_size dir_oi in
  if u32 entry_off =? size then ret (- ENOENT)
  else
    let* od := deref od in
    let* _ := wr32 od 0 in
    let* oi := deref oi in
    let* nlink := oi_get oi_nlink oi in
    let* _ := oi_set (with_nlink (u32 (nlink - 1))) oi in
    let* dir_nlink := oi_get oi_nlink dir_oi in
    let* _ := oi_set (with_nlink (u32 (dir_nlink - 1))) dir_oi in
    let* nlink' := oi_get oi_nlink oi in
    let* ftype := oi_get oi_ftype oi in
    let* _ := (if (nlink' =? 0) && negb (ftype =? OSPFS_FTYPE_SYMLINK)
               then change_size oi 0 else ret 0) in
    ret 0.

(** ** readdir *)

(** What one call of [filldir] receives. *)
Record emitted : Type := {
  e_name : list Z;
  e_namelen : Z;
  e_pos : Z;
  e_ino : Z;
  e_type : Z
}.

(** The [switch] on [oi_ftype]; [None] is the [default] case. *)
Definition dt_of_ftype (ftype : Z) : option Z :=
  if ftype =? OSPFS_FTYPE_REG then Some DT_REG
  else if ftype =? OSPFS_FTYPE_DIR then Some DT_DIR
  else if ftype =? OSPFS_FTYPE_SYMLINK then Some DT_LNK
  else None.

Section Readdir.
(** The consumer: [C] is the state behind [dirent], [filldir] returns its
    [int] result and the new state. *)
Context {C : Type} (filldir : C -> emitted -> Z * C).

(** The [while] loop over the actual entries.  The result is the return
    value, the value stored to [filp->f_pos] and the consumer's state. *)
Fixpoint readdir_loop (fuel : nat) (dir_oi : Z) (r ok_so_far f_pos : Z)
    (c : C) : M (Z * Z * C) :=
  match fuel with
  | O => out_of_fuel
  | S fuel' =>
      if (r =? 0) && (0 <=? ok_so_far) && (2 <=? f_pos) then
        let file_offset := u32 ((f_pos - 2) * OSPFS_DIRENTRY_SIZE) in
        let* size := oi_get oi_size dir_oi in
        if size <=? file_offset then ret (1, f_pos, c)
        else
          let* od := gets (ospfs_inode_data dir_oi file_offset) in
          let* ino := gets (od_ino od) in
          let* entry_oi := gets (ospfs_inode ino) in
          match entry_oi with
          | None => readdir_loop fuel' dir_oi r ok_so_far (u32 (f_pos + 1)) c
          | Some entry_oi =>
              if ino =? 0 then
                readdir_loop fuel' dir_oi r ok_so_far (u32 (f_pos + 1)) c
              else
                let* ftype := oi_get oi_ftype entry_oi in
                match dt_of_ftype ftype with
                | None => readdir_loop fuel' dir_oi (- EIO) ok_so_far f_pos c
                | Some file_type =>
                    let* name := od_name_string od in
                    let (ok, c') :=
                      filldir c {| e_name := name; e_namelen := strlen name;
                                   e_pos := f_pos; e_ino := ino;
                                   e_type := file_type |} in
                    readdir_loop fuel' dir_oi r ok (u32 (f_pos + 1)) c'
                end
          end
      else ret (r, f_pos, c)
  end.

(** [dir_ino] is the directory's inode number, [parent_ino] that of
    [filp->f_dentry->d_parent], [pos] is [filp->f_pos]. *)
Definition ospfs_dir_readdir (fuel : nat) (dir_ino parent_ino pos : Z)
    (c : C) : M (Z * Z * C) :=
  let* dir := gets (ospfs_inode dir_ino) in
  let f_pos := u32 pos in
  let r := 0 in
  let ok_so_far := 0 in
  let '(ok_so_far, f_pos, c) :=
    if (r =? 0) && (f_pos =? 0) then
      let (ok, c') := filldir c {| e_name := [46]; e_namelen := 1;
                                   e_pos := f_pos; e_ino := dir_ino;
                                   e_type := DT_DIR |} in
      (ok, (if 0 <=? ok then u32 (f_pos + 1) else f_pos), c')
    else (ok_so_far, f_pos, c) in
  let '(ok_so_far, f_pos, c) :=
    if (r =? 0) && (0 <=? ok_so_far) && (f_pos =? 1) then
      let (ok, c') := filldir c {| e_name := [46; 46]; e_namelen := 2;
                                   e_pos := f_pos; e_ino := parent_ino;
                                   e_type := DT_DIR |} in
      (ok, (if 0 <=? ok then u32 (f_pos + 1) else f_pos), c')
    else (ok_so_far, f_pos, c) in
  if (r =? 0) && (0 <=? ok_so_far) && (2 <=? f_pos) then
    let* dir_oi := deref dir in
    readdir_loop fuel dir_oi r ok_so_far f_pos c
  else ret (r, f_pos, c).

End Readdir.

(** ** File I/O *)

(** [loff_t] is a signed 64-bit integer in both data models of Linux;
    [size_t] has 32 bits on ILP32 (i386) and 64 bits on LP64 (x86-64). *)
Inductive data_model : Type := ILP32 | LP64.

Definition size_t (dm : data_model) (x : Z) : Z :=
  match dm with
  | ILP32 => u32 x
  | LP64 => u64 x
  end.

(** The value of an expression of type [loff_t] after conversion to the
    type of [*f_pos + count] (usual arithmetic conversions: [long long] on
    ILP32, [unsigned long] on LP64). *)
Definition to_sum_type (dm : data_model) (x : Z) : Z :=
  match dm with
  | ILP32 => s64 x
  | LP64 => u64 x
  end.

(** [*f_pos + count].  On LP64 the addition is one of [unsigned long] and
    wraps.  On ILP32 it is one of [long long] (the converted [count] is
    not negative); C leaves its overflow undefined, and the sum then has
    no value ([None]). *)
Definition pos_plus_count (dm : data_model) (f_pos count : Z) : option Z :=
  match dm with
  | ILP32 =>
      let sum := s64 f_pos + count in
      if (- 2 ^ 63 <=? sum) && (sum <=? 2 ^ 63 - 1) then Some sum else None
  | LP64 => Some (u64 (f_pos + count))
  end.

(** The value of an expression that may be undefined; without a value the
    run has no result. *)
Definition defined {A : Type} (v : option A) : M A :=
  match v with
  | Some a => ret a
  | None => oops
  end.

(** The largest values of [size_t] and of the type of [*f_pos + count]. *)
Definition size_max (dm : data_model) : Z :=
  match dm with
  | ILP32 => 2 ^ 32 - 1
  | LP64 => 2 ^ 64 - 1
  end.
Definition sum_type_max (dm : data_model) : Z :=
  match dm with
  | ILP32 => 2 ^ 63 - 1
  | LP64 => 2 ^ 64 - 1
  end.

(** The addition [*f_pos + count] overflows: the sum of the converted
    operands is beyond the largest value of its type. *)
Definition addition_overflows (dm : data_model) (f_pos count : Z) : Prop :=
  sum_type_max dm < to_sum_type dm f_pos + count.

(** The sum of a file position and a count is beyond the largest value of
    the file-position type [loff_t]. *)
Definition LOFF_T_MAX : Z := 2 ^ 63 - 1.
Definition position_overflows (f_pos count : Z) : Prop :=
  LOFF_T_MAX < f_pos + count.

(** The bytes [data[0..n-1]] of the image. *)
Fixpoint load_bytes (m : Z -> Z) (a : Z) (n : nat) : list Z :=
  match n with
  | O => []
  | S n' => load8 m a :: load_bytes m (a + 1) n'
  end.

Fixpoint store_bytes (m : Z -> Z) (a : Z) (bs : list Z) : Z -> Z :=
  match bs with
  | [] => m
  | b :: bs' => store_bytes (store8 m a b) (a + 1) bs'
  end.

Section UserSpace.
(** [user_ok amount n]: the transfer of [n] bytes at [buffer + amount]
    between the image and user space succeeds. *)
Context (dm : data_model) (user_ok : Z -> Z -> bool).

(** The copy loop of [ospfs_read]; the result is the return value, the
    final [*f_pos] and the bytes that reached the user buffer. *)
Fixpoint read_loop (fuel : nat) (oi count amount f_pos : Z) (out : list Z)
  : M (Z * Z * list Z) :=
  match fuel with
  | O => out_of_fuel
  | S fuel' =>
      if amount <? count then
        let* blockno := gets (ospfs_inode_blockno oi (u32 f_pos)) in
        let bytes_left_to_copy := u32 (count - amount) in
        if blockno =? 0 then ret (- EIO, f_pos, out)
        else
          let data := ospfs_block blockno in
          let data_offset := u32 (Z.rem f_pos OSPFS_BLKSIZE) in
          let n := u32 (OSPFS_BLKSIZE - data_offset) in
          let n := if bytes_left_to_copy <? n then bytes_left_to_copy else n in
          if negb (user_ok amount n) then ret (- EFAULT, f_pos, out)
          else
            let* bytes := gets (fun d => load_bytes (ospfs_data d)
                                           (data + data_offset) (Z.to_nat n)) in
            read_loop fuel' oi count (size_t dm (amount + n))
              (s64 (f_pos + n)) (out ++ bytes)
      else ret (amount, f_pos, out)
  end.

(** [ino] is [filp->f_dentry->d_inode->i_ino], [f_pos] is [*f_pos]. *)
Definition ospfs_read (fuel : nat) (ino count f_pos : Z)
  : M (Z * Z * list Z) :=
  let* p := gets (ospfs_inode ino) in
  let* sum := defined (pos_plus_count dm f_pos count) in
  if sum <? to_sum_type dm f_pos then
    ret (- EIO, f_pos, [])
  else
    let* oi := deref p in
    let* size := oi_get oi_size oi in
    let count :=
      if size <=? f_pos then 0
      else if size <? sum
           then size_t dm (size - f_pos)
           else count in
    read_loop fuel oi count 0 f_pos [].

(** The copy loop of [ospfs_write]; [buffer k] is the user's byte
    [buffer[k]]. *)
Fixpoint write_loop (fuel : nat) (oi count amount f_pos : Z)
    (buffer : Z -> Z) : M (Z * Z) :=
  match fuel with
  | O => out_of_fuel
  | S fuel' =>
      if amount <? count then
        let bytes_left_to_copy := u32 (count - amount) in
        let* blockno := gets (ospfs_inode_blockno oi (u32 f_pos)) in
        if blockno =? 0 then ret (- EIO, f_pos)
        else
          let data := ospfs_block blockno in
          let data_offset := u32 (Z.rem f_pos OSPFS_BLKSIZE) in
          let n := u32 (OSPFS_BLKSIZE - data_offset) in
          let n := if bytes_left_to_copy <? n then bytes_left_to_copy else n in
          let data := data + u32 (Z.rem f_pos OSPFS_BLKSIZE) in
          if negb (user_ok amount n) then ret (- EFAULT, f_pos)
          else
            let bytes := load_bytes buffer amount (Z.to_nat n) in
            let* _ := (fun d => Done tt
                         (set_data (store_bytes (ospfs_data d) data bytes) d)) in
            write_loop fuel' oi count (size_t dm (amount + n))
              (s64 (f_pos + n)) buffer
      else ret (amount, f_pos)
  end.

(** [append] is [filp->f_flags & O_APPEND]; the result is the return value
    and the final [*f_pos]. *)
Definition ospfs_write (fuel : nat) (ino : Z) (append : bool)
    (buffer : Z -> Z) (count f_pos : Z) : M (Z * Z) :=
  let* p := gets (ospfs_inode ino) in
  let* oi := deref p in
  let* size := oi_get oi_size oi in
  let f_pos := if append then size else f_pos in
  let* sum := defined (pos_plus_count dm f_pos count) in
  let newsize := size_t dm sum in
  let* retval := (if size <=? newsize then change_size oi (u32 newsize)
                  else ret 0) in
  if negb (retval =? 0) then ret (retval, f_pos)
  else write_loop fuel oi count 0 f_pos buffer.

End UserSpace.

(** ** Blank directory entries *)

(** The [for] loop of [create_blank_direntry]: [inr od] is the empty entry
    it returns, [inl offset] the offset at which the loop ends. *)
Fixpoint blank_scan (fuel : nat) (dir_oi : Z) (offset : Z) : M (Z + Z) :=
  match fuel with
  | O => out_of_fuel
  | S fuel' =>
      let* size := oi_get oi_size dir_oi in
      if u32 offset <? size then
        let* od := gets (ospfs_inode_data dir_oi (u32 offset)) in
        let* ino := gets (od_ino od) in
        if ino =? 0 then ret (inr od)
        else blank_scan fuel' dir_oi (offset + OSPFS_DIRENTRY_SIZE)
      else ret (inl offset)
  end.

(** [inl e] is [ERR_PTR(e)], [inr od] a directory entry. *)
Definition create_blank_direntry (dir_oi : Z) : M (Z + Z) :=
  let* ftype := oi_get oi_ftype dir_oi in
  if negb (ftype =? OSPFS_FTYPE_DIR) then ret (inl (- EIO))
  else
    let* size := oi_get oi_size dir_oi in
    let* s := blank_scan (S (Z.to_nat size)) dir_oi 0 in
    match s with
    | inr od => ret (inr od)
    | inl offset =>
        let new_size := u32 ((ospfs_size2nblocks size + 1) * OSPFS_BLKSIZE) in
        let* retval := change_size dir_oi new_size in
        if negb (retval =? 0) then ret (inl retval)
        else
          let* _ := oi_set (with_size new_size) dir_oi in
          let* od := gets (ospfs_inode_data dir_oi (u32 offset)) in
          ret (inr od)
    end.

(** ** Symbolic links *)

(** [ospfs_mk_linux_inode]: [true] when it returns an inode, [false] when
    it returns NULL; [new_inode_ok] says whether the kernel's [new_inode]
    succeeds; an unknown file type panics. *)
Definition ospfs_mk_linux_inode (new_inode_ok : bool) (ino : Z) : M bool :=
  let* p := gets (ospfs_inode ino) in
  match p with
  | None => ret false
  | Some oi =>
      if negb new_inode_ok then ret false
      else
        let* ftype := oi_get oi_ftype oi in
        match dt_of_ftype ftype with
        | Some _ => ret true
        | None => oops
        end
  end.

(** [strpbrk(s, c)] for a one-character set: the index of the first [c]. *)
Fixpoint strpbrk (s : list Z) (c : Z) : option Z :=
  match s with
  | [] => None
  | x :: s' => if x =? c then Some 0 else option_map Z.succ (strpbrk s' c)
  end.

(** What [strncpy(dst, src, n)] writes to [dst]: the first [n] bytes of
    the string, padded with NULs. *)
Definition strncpy_bytes (src : list Z) (n : Z) : list Z :=
  firstn (Z.to_nat n) src
  ++ repeat 0 (Z.to_nat n - length (firstn (Z.to_nat n) src)).

(** *** The bytes of the inode records

    Modelled from the spec: the layout of [ospfs_inode_t] and
    [ospfs_symlink_inode_t] of the missing [ospfs.h].  Section 3 lists the
    fields of a file inode (size, type, link count, mode, the direct
    pointers, indirect, indirect2) and of a symlink inode (size, type,
    link count, then the target bytes), and section 6 puts the records one
    after the other in the inode table, [OSPFS_BLKINODES] to a block.  The
    fields before the target are the 32-bit words the code reads and
    writes, so the target starts at byte 12 of its record. *)
Definition OSPFS_INODESIZE : Z := OSPFS_BLKSIZE / OSPFS_BLKINODES.
Definition SYMLINK_START : Z := 12.

(** Byte [b] of a little-endian 32-bit word, and the word with that byte
    replaced. *)
Definition word_byte (w b : Z) : Z := (w / 2 ^ (8 * b)) mod 256.
Definition word_with_byte (w b v : Z) : Z :=
  w + (v mod 256 - word_byte w b) * 2 ^ (8 * b).

(** Byte [o] of an inode record.  From byte 12 on the record is read as
    the target bytes. *)
Definition inode_byte (i : ospfs_inode_t) (o : Z) : Z :=
  if o <? 4 then word_byte (oi_size i) o
  else if o <? 8 then word_byte (oi_ftype i) (o - 4)
  else if o <? 12 then word_byte (oi_nlink i) (o - 8)
  else load8 (oi_symlink i) (o - SYMLINK_START).

(** The record with byte [o] replaced.  A byte from 12 on belongs to the
    target bytes and, in the file view of the same record, to the mode or
    to a block pointer: the store changes both. *)
Definition inode_with_byte (o v : Z) (i : ospfs_inode_t) : ospfs_inode_t :=
  if o <? 4 then with_size (word_with_byte (oi_size i) o v) i
  else if o <? 8 then with_ftype (word_with_byte (oi_ftype i) (o - 4) v) i
  else if o <? 12 then with_nlink (word_with_byte (oi_nlink i) (o - 8) v) i
  else
    let i := with_symlink (o - SYMLINK_START) (v mod 256) i in
    if o <? 16 then with_mode (word_with_byte (oi_mode i) (o - 12) v) i
    else if o <? 16 + 4 * OSPFS_NDIRECT then
      let k := (o - 16) / 4 in
      with_direct k (word_with_byte (oi_direct i k) ((o - 16) mod 4) v) i
    else if o <? 20 + 4 * OSPFS_NDIRECT then
      with_indirect
        (word_with_byte (oi_indirect i) (o - (16 + 4 * OSPFS_NDIRECT)) v) i
    else if o <? 24 + 4 * OSPFS_NDIRECT then
      with_indirect2
        (word_with_byte (oi_indirect2 i) (o - (20 + 4 * OSPFS_NDIRECT)) v) i
    else i.

(** The byte at offset [t] from the start of the inode table: a byte of
    the record [t / OSPFS_INODESIZE] while that is an inode, and after
    the last inode a byte of the rest of the image. *)
Definition table_byte (t : Z) (d : disk) : Z :=
  if (0 <=? t) && (t <? os_ninodes (ospfs_super d) * OSPFS_INODESIZE)
  then inode_byte (ospfs_inodes d (t / OSPFS_INODESIZE))
         (t mod OSPFS_INODESIZE)
  else load8 (ospfs_data d) (ospfs_block (os_firstinob (ospfs_super d)) + t).

Definition table_put (t v : Z) : M unit :=
  let* ninodes := gets (fun d => os_ninodes (ospfs_super d)) in
  if (0 <=? t) && (t <? ninodes * OSPFS_INODESIZE)
  then oi_set (inode_with_byte (t mod OSPFS_INODESIZE) v)
         (t / OSPFS_INODESIZE)
  else
    let* table := gets (fun d => ospfs_block (os_firstinob (ospfs_super d))) in
    wr8 (table + t) v.

(** [oi->oi_symlink[k]].  The array has [OSPFS_MAXSYMLINKLEN + 1] bytes;
    an index beyond it names the byte that far from the start of the
    array, in the records that follow. *)
Definition symlink_byte (oi k : Z) (d : disk) : Z :=
  if (0 <=? k) && (k <=? OSPFS_MAXSYMLINKLEN)
  then load8 (oi_symlink (ospfs_inodes d oi)) k
  else table_byte (oi * OSPFS_INODESIZE + SYMLINK_START + k) d.

(** [oi->oi_symlink[k] = v]. *)
Definition symlink_put (oi k v : Z) : M unit :=
  if (0 <=? k) && (k <=? OSPFS_MAXSYMLINKLEN)
  then oi_set (inode_with_byte (SYMLINK_START + k) v) oi
  else table_put (oi * OSPFS_INODESIZE + SYMLINK_START + k) v.

Fixpoint symlink_puts (oi k : Z) (bs : list Z) : M unit :=
  match bs with
  | [] => ret tt
  | b :: bs' =>
      let* _ := symlink_put oi k b in
      symlink_puts oi (k + 1) bs'
  end.

Definition QMARK : Z := 63.
Definition COLON : Z := 58.

(** The test [qmark && colon && colon > qmark] of [ospfs_symlink], on the
    indices of the two characters. *)
Definition conditional_form (symname : list Z) : option (Z * Z) :=
  match strpbrk symname QMARK, strpbrk symname COLON with
  | Some q, Some c => if q <? c then Some (q, c) else None
  | _, _ => None
  end.

(** The two branches of [ospfs_symlink] that fill [oi_size] and
    [oi_symlink]; [true] stands for the return of [-ENAMETOOLONG]. *)
Definition symlink_encode (symlink_ino : Z) (symname : list Z) : M bool :=
  match conditional_form symname with
  | Some (q, c) =>
      let qmark := skipn (Z.to_nat q) symname in
      let colon := skipn (Z.to_nat c) symname in
      let root_path_len := c - q + 1 in
      let other_path_len := strlen colon in
      if OSPFS_MAXNAMELEN <? root_path_len + other_path_len then ret true
      else
        let size := u32 (strlen qmark + 1) in
        let* _ := oi_set (with_size size) symlink_ino in
        let* _ := symlink_puts symlink_ino 0
                    (strncpy_bytes qmark (root_path_len - 1)) in
        let* _ := symlink_put symlink_ino (root_path_len - 1) 0 in
        let* _ := symlink_puts symlink_ino root_path_len
                    (strncpy_bytes colon other_path_len) in
        let* _ := symlink_put symlink_ino size 0 in
        ret false
  | None =>
      let name_len := strlen symname in
      if OSPFS_MAXSYMLINKLEN <? name_len then ret true
      else
        let size := u32 name_len in
        let* _ := oi_set (with_size size) symlink_ino in
        let* _ := symlink_puts symlink_ino 0 (strncpy_bytes symname size) in
        let* _ := symlink_put symlink_ino size 0 in
        ret false
  end.

(** [name] is [dentry->d_name], [symname] the C string of the target.  The
    result is the return value and, when [d_instantiate] was reached, the
    inode number it attached to the dentry. *)
Definition ospfs_symlink (new_inode_ok : bool) (dir_ino : Z)
    (name symname : list Z) : M (Z * option Z) :=
  let* dirp := gets (ospfs_inode dir_ino) in
  let* dir_oi := deref dirp in
  let* dir_ftype := oi_get oi_ftype dir_oi in
  if negb (dir_ftype =? OSPFS_FTYPE_DIR) then ret (- EIO, None)
  else if OSPFS_MAXNAMELEN <? strlen name then ret (- ENAMETOOLONG, None)
  else
    let* existing := find_direntry dir_oi name in
    match existing with
    | Some _ => ret (- EEXIST, None)
    | None =>
        let* entry_ino := gets find_free_inode in
        let* symlink_ino := gets (ospfs_inode entry_ino) in
        if entry_ino =? 0 then ret (- ENOSPC, None)
        else
          match symlink_ino with
          | None => ret (- EIO, None)
          | Some symlink_ino =>
              let* e := create_blank_direntry dir_oi in
              match e with
              | inl err => ret (err, None)
              | inr od =>
                  let* len_err := symlink_encode symlink_ino symname in
                  if len_err : bool then ret (- ENAMETOOLONG, None)
                  else
                    let* _ := oi_set (with_ftype OSPFS_FTYPE_SYMLINK)
                                symlink_ino in
                    let* _ := oi_set (with_nlink 1) symlink_ino in
                    let* _ := (fun d => Done tt
                                 (set_data
                                    (store_bytes (ospfs_data d) (od_name od)
                                       (strncpy_bytes name (strlen name))) d)) in
                    let* _ := wr8 (od_name od + strlen name) 0 in
                    let* _ := wr32 od entry_ino in
                    let* dir_nlink := oi_get oi_nlink dir_oi in
                    let* _ := oi_set (with_nlink (u32 (dir_nlink + 1))) dir_oi in
                    let* i := ospfs_mk_linux_inode new_inode_ok entry_ino in
                    if i then ret (0, Some entry_ino)
                    else ret (- ENOMEM, None)
              end
          end
    end.

(** The string that starts at [oi->oi_symlink + k]. *)
Definition symlink_string (oi k : Z) : M (list Z) :=
  fun d =>
    let image_end := os_nblocks (ospfs_super d) * OSPFS_BLKSIZE in
    let start := ospfs_block (os_firstinob (ospfs_super d))
                 + oi * OSPFS_INODESIZE + SYMLINK_START + k in
    match cstring (Z.to_nat (Z.max (OSPFS_MAXSYMLINKLEN + 1 - k)
                               (image_end - start)))
            (fun x => symlink_byte oi x d) k with
    | Some s => Done s d
    | None => Oops
    end.

(** [ino] is [dentry->d_inode->i_ino], [uid] is [current->uid].  [inl e]
    is [ERR_PTR(e)], [inr s] the string handed to [nd_set_link]. *)
Definition ospfs_follow_link (ino uid : Z) : M (Z + list Z) :=
  let* p := gets (ospfs_inode ino) in
  let* oi := deref p in
  let* c0 := oi_get (fun i => load8 (oi_symlink i) 0) oi in
  if c0 =? QMARK then
    if uid =? 0 then
      let* s := symlink_string oi 1 in
      ret (inr s)
    else
      let* root := symlink_string oi 0 in
      let off := strlen root in
      let* size := oi_get oi_size oi in
      let* c1 := gets (symlink_byte oi (off + 1)) in
      if negb (c1 =? COLON) || (size <=? off) then ret (inl (- EIO))
      else
        let* s := symlink_string oi (off + 2) in
        ret (inr s)
  else
    let* s := symlink_string oi 0 in
    ret (inr s).

End Ospfs.

(** ** Definitions used by the statements *)

(** Slot [k] of the block numbered [blk], read as an array of block
    numbers. *)
Definition slot {hdr : ospfs_h} (d : disk) (blk k : Z) : Z :=
  load32 (ospfs_data d) (ospfs_block blk + 4 * k).

(** Bit [b] of the free bitmap: [true] when block [b] is free. *)
Definition block_is_free (d : disk) (b : Z) : bool :=
  bitvector_test (ospfs_block OSPFS_FREEMAP_BLK) b d.

(** ** Concrete images

    The images below use the constants of the course's [ospfs.h]: 16 inodes
    per block, files of at most [10 + 256 + 256 * 256] blocks, directory
    entries of 128 bytes with names of at most 123 bytes, symlink targets
    of at most 51 bytes, and the file types 0, 1, 2. *)
Definition lab_header : ospfs_h :=
  {| OSPFS_BLKINODES := 16;
     OSPFS_MAXFILEBLKS := 65802;
     OSPFS_DIRENTRY_SIZE := 128;
     OSPFS_MAXNAMELEN := 123;
     OSPFS_MAXSYMLINKLEN := 51;
     OSPFS_FTYPE_REG := 0;
     OSPFS_FTYPE_DIR := 1;
     OSPFS_FTYPE_SYMLINK := 2 |}.

(** 64 blocks and 32 inodes: block 2 is the bitmap, blocks 3 and 4 hold the
    inode table, blocks 5 to 63 are data blocks. *)
Definition small_super : ospfs_super_t :=
  {| os_magic := 0xDEA1C; os_nblocks := 64; os_ninodes := 32;
     os_firstinob := 3 |}.

Definition free_inode : ospfs_inode_t :=
  {| oi_size := 0; oi_ftype := 0; oi_nlink := 0; oi_mode := 0;
     oi_direct := fun _ => 0; oi_indirect := 0; oi_indirect2 := 0;
     oi_symlink := fun _ => 0 |}.

(** A regular file of [nblocks <= 10] blocks, stored in the data blocks
    [5 .. 5 + nblocks - 1]. *)
Definition direct_file (size nblocks nlink : Z) : ospfs_inode_t :=
  {| oi_size := size; oi_ftype := 0; oi_nlink := nlink; oi_mode := 420;
     oi_direct := fun k => if (0 <=? k) && (k <? nblocks) then 5 + k else 0;
     oi_indirect := 0; oi_indirect2 := 0;
     oi_symlink := fun _ => 0 |}.

Definition zero_mem : Z -> Z := fun _ => 0.

(** The bitmap in which exactly the block [b] is free. *)
Definition only_free (b : Z) : Z -> Z :=
  store32 zero_mem (ospfs_block OSPFS_FREEMAP_BLK + 4 * (b / 32))
    (2 ^ (b mod 32)).

(** Inode 2 is a file of exactly ten blocks (all direct pointers in use,
    no indirect block) and block 25 is the only free block. *)
Definition ten_block_image : disk :=
  {| ospfs_super := small_super;
     ospfs_inodes := fun i => if i =? 2 then direct_file 10240 10 1
                              else free_inode;
     ospfs_data := only_free 25 |}.

(** Inode 2 claims eleven blocks but has no indirect block. *)
Definition missing_indirect_image : disk :=
  {| ospfs_super := small_super;
     ospfs_inodes := fun i => if i =? 2 then direct_file 11264 10 1
                              else free_inode;
     ospfs_data := zero_mem |}.

(** Block 40 is the only free block. *)
Definition one_free_block_image : disk :=
  {| ospfs_super := small_super;
     ospfs_inodes := fun _ => free_inode;
     ospfs_data := only_free 40 |}.

(** Inode 2 is an empty regular file and no block is free. *)
Definition full_image : disk :=
  {| ospfs_super := small_super;
     ospfs_inodes := fun i => if i =? 2 then direct_file 0 0 1
                              else free_inode;
     ospfs_data := zero_mem |}.

(** ** Frame relations

    [keeps R c]: every run of [c] that returns relates the initial and the
    final image by [R]. *)
Definition keeps (R : disk -> disk -> Prop) {A : Type} (c : M A) : Prop :=
  forall d a d', c d = Done a d' -> R d d'.

(** The superblock is unchanged. *)
Definition same_super (d d' : disk) : Prop := ospfs_super d' = ospfs_super d.

(** What the size engine leaves alone when it works on inode [oi]: the
    superblock, every other inode, and the link count, type and symlink
    bytes of [oi] itself. *)
Definition inode_frame (oi : Z) (d d' : disk) : Prop :=
  ospfs_super d' = ospfs_super d
  /\ (forall j, j <> oi -> ospfs_inodes d' j = ospfs_inodes d j)
  /\ oi_nlink (ospfs_inodes d' oi) = oi_nlink (ospfs_inodes d oi)
  /\ oi_ftype (ospfs_inodes d' oi) = oi_ftype (ospfs_inodes d oi)
  /\ oi_symlink (ospfs_inodes d' oi) = oi_symlink (ospfs_inodes d oi).

(** ** Symlink targets *)

(** A character of a C string: a non-zero byte. *)
Definition is_char (c : Z) : Prop := 0 < c < 256.

(** The target [<prefix>?<root_path>:<other_path>]. *)
Definition conditional_target (prefix root other : list Z) : list Z :=
  prefix ++ QMARK :: root ++ COLON :: other.

(** ** Directories in the statements *)

(** The address of the [k]-th entry of the directory [dir_oi]. *)
Definition entry_addr {hdr : ospfs_h} (dir_oi k : Z) (d : disk) : Z :=
  ospfs_inode_data dir_oi (k * OSPFS_DIRENTRY_SIZE) d.

(** Entry [k] is the first entry of [dir_oi] that is in use and carries
    the name [name]. *)
Definition first_match {hdr : ospfs_h} (dir_oi : Z) (name : list Z) (k : Z)
    (d : disk) : Prop :=
  0 <= k
  /\ k * OSPFS_DIRENTRY_SIZE < oi_size (ospfs_inodes d dir_oi)
  /\ direntry_matches (entry_addr dir_oi k d) name d = Done true d
  /\ forall j, 0 <= j < k ->
               direntry_matches (entry_addr dir_oi j d) name d = Done false d.

(** The byte address [x] is outside the words of the free bitmap that
    cover the block numbers below the inode count (the only words
    [free_block] writes). *)
Definition outside_freemap (sb : ospfs_super_t) (x : Z) : Prop :=
  x < ospfs_block OSPFS_FREEMAP_BLK
  \/ ospfs_block OSPFS_FREEMAP_BLK + 4 * (os_ninodes sb / 32 + 1) <= x.

(** Bytes outside the free bitmap that are zero stay zero. *)
Definition zero_stays (d d' : disk) : Prop :=
  ospfs_super d' = ospfs_super d
  /\ (os_ninodes (ospfs_super d) <= 2 ^ 31 ->
      forall x, outside_freemap (ospfs_super d) x ->
                load8 (ospfs_data d) x = 0 -> load8 (ospfs_data d') x = 0).

(** ** What readdir does *)

Section ReaddirSpec.
Context {hdr : ospfs_h} {C : Type} (filldir : C -> emitted -> Z * C).
Context (d : disk) (dir_ino parent_ino : Z).

(** The names of the entries in use are NUL-terminated within their
    field. *)
Definition names_terminated : Prop :=
  forall j, 0 <= j ->
            j * OSPFS_DIRENTRY_SIZE < oi_size (ospfs_inodes d dir_ino) ->
            od_ino (entry_addr dir_ino j d) d <> 0 ->
            cstring (Z.to_nat (OSPFS_MAXNAMELEN + 1)) (ospfs_data d)
              (od_name (entry_addr dir_ino j d)) <> None.

(** [readdir_run k c res]: what a call that starts at cursor [k] with the
    consumer in state [c] does.  [res] is the return value, the final
    cursor and the consumer's final state. *)
Inductive readdir_run : Z -> C -> Z * Z * C -> Prop :=
| run_dot_stop (c c' : C) (ok : Z) :
    filldir c {| e_name := [46]; e_namelen := 1; e_pos := 0;
                 e_ino := dir_ino; e_type := DT_DIR |} = (ok, c') ->
    ok < 0 ->
    readdir_run 0 c (0, 0, c')
| run_dot (c c' : C) (ok : Z) (res : Z * Z * C) :
    filldir c {| e_name := [46]; e_namelen := 1; e_pos := 0;
                 e_ino := dir_ino; e_type := DT_DIR |} = (ok, c') ->
    0 <= ok ->
    readdir_run 1 c' res ->
    readdir_run 0 c res
| run_dotdot_stop (c c' : C) (ok : Z) :
    filldir c {| e_name := [46; 46]; e_namelen := 2; e_pos := 1;
                 e_ino := parent_ino; e_type := DT_DIR |} = (ok, c') ->
    ok < 0 ->
    readdir_run 1 c (0, 1, c')
| run_dotdot (c c' : C) (ok : Z) (res : Z * Z * C) :
    filldir c {| e_name := [46; 46]; e_namelen := 2; e_pos := 1;
                 e_ino := parent_ino; e_type := DT_DIR |} = (ok, c') ->
    0 <= ok ->
    readdir_run 2 c' res ->
    readdir_run 1 c res
| run_end (k : Z) (c : C) :
    2 <= k ->
    oi_size (ospfs_inodes d dir_ino) <= (k - 2) * OSPFS_DIRENTRY_SIZE ->
    readdir_run k c (1, k, c)
| run_skip (k : Z) (c : C) (res : Z * Z * C) :
    2 <= k ->
    (k - 2) * OSPFS_DIRENTRY_SIZE < oi_size (ospfs_inodes d dir_ino) ->
    od_ino (entry_addr dir_ino (k - 2) d) d = 0
    \/ os_ninodes (ospfs_super d) <= od_ino (entry_addr dir_ino (k - 2) d) d ->
    readdir_run (k + 1) c res ->
    readdir_run k c res
| run_unknown (k : Z) (c : C) :
    2 <= k ->
    (k - 2) * OSPFS_DIRENTRY_SIZE < oi_size (ospfs_inodes d dir_ino) ->
    od_ino (entry_addr dir_ino (k - 2) d) d <> 0 ->
    od_ino (entry_addr dir_ino (k - 2) d) d < os_ninodes (ospfs_super d) ->
    dt_of_ftype (oi_ftype (ospfs_inodes d (od_ino (entry_addr dir_ino (k - 2) d) d)))
    = None ->
    readdir_run k c (- EIO, k, c)
| run_emit_stop (k : Z) (c c' : C) (name : list Z) (ty ok pos' : Z) :
    2 <= k ->
    (k - 2) * OSPFS_DIRENTRY_SIZE < oi_size (ospfs_inodes d dir_ino) ->
    od_ino (entry_addr dir_ino (k - 2) d) d <> 0 ->
    od_ino (entry_addr dir_ino (k - 2) d) d < os_ninodes (ospfs_super d) ->
    dt_of_ftype (oi_ftype (ospfs_inodes d (od_ino (entry_addr dir_ino (k - 2) d) d)))
    = Some ty ->
    cstring (Z.to_nat (OSPFS_MAXNAMELEN + 1)) (ospfs_data d)
      (od_name (entry_addr dir_ino (k - 2) d)) = Some name ->
    filldir c {| e_name := name; e_namelen := strlen name; e_pos := k;
                 e_ino := od_ino (entry_addr dir_ino (k - 2) d) d; e_type := ty |}
    = (ok, c') ->
    ok < 0 ->
    readdir_run k c (0, pos', c')
| run_emit (k : Z) (c c' : C) (name : list Z) (ty ok : Z)
    (res : Z * Z * C) :
    2 <= k ->
    (k - 2) * OSPFS_DIRENTRY_SIZE < oi_size (ospfs_inodes d dir_ino) ->
    od_ino (entry_addr dir_ino (k - 2) d) d <> 0 ->
    od_ino (entry_addr dir_ino (k - 2) d) d < os_ninodes (ospfs_super d) ->
    dt_of_ftype (oi_ftype (ospfs_inodes d (od_ino (entry_addr dir_ino (k - 2) d) d)))
    = Some ty ->
    cstring (Z.to_nat (OSPFS_MAXNAMELEN + 1)) (ospfs_data d)
      (od_name (entry_addr dir_ino (k - 2) d)) = Some name ->
    filldir c {| e_name := name; e_namelen := strlen name; e_pos := k;
                 e_ino := od_ino (entry_addr dir_ino (k - 2) d) d; e_type := ty |}
    = (ok, c') ->
    0 <= ok ->
    readdir_run (k + 1) c' res ->
    readdir_run k c res.

End ReaddirSpec.

(** A consumer that accepts every entry and keeps what it was given. *)
Definition collect (c : list emitted) (e : emitted) : Z * list emitted :=
  (0, c ++ [e]).

(** ** Concrete directories *)

(** The characters of a string literal. *)
Definition bytes (s : string) : list Z :=
  map (fun c => Z.of_N (N_of_ascii c)) (list_ascii_of_string s).

(** The root directory of the images below: one block (block 20) of eight
    entries. *)
Definition root_dir : ospfs_inode_t :=
  {| oi_size := 1024; oi_ftype := 1; oi_nlink := 1; oi_mode := 493;
     oi_direct := fun k => if k =? 0 then 20 else 0;
     oi_indirect := 0; oi_indirect2 := 0;
     oi_symlink := fun _ => 0 |}.

(** Blocks 21 to 31 are free; the first two entries of block 20 are the
    names ["a"] and ["b"] of inode 2. *)
Definition dir_mem : Z -> Z :=
  store_bytes
    (store32
       (store_bytes
          (store32
             (store32 zero_mem (ospfs_block OSPFS_FREEMAP_BLK) 0xFFE00000)
             (ospfs_block 20) 2)
          (ospfs_block 20 + 4) (bytes "a"))
       (ospfs_block 20 + 128) 2)
    (ospfs_block 20 + 128 + 4) (bytes "b").

(** Inode 1 is the root directory, inode 2 an empty regular file with the
    two links ["a"] and ["b"]. *)
Definition dir_image : disk :=
  {| ospfs_super := small_super;
     ospfs_inodes := fun i => if i =? 1 then root_dir
                              else if i =? 2 then direct_file 0 0 2
                              else free_inode;
     ospfs_data := dir_mem |}.

(** As [dir_image], with a third entry ["x"] for inode 3, whose file type
    is none of the three known ones. *)
Definition unknown_type_image : disk :=
  {| ospfs_super := small_super;
     ospfs_inodes := fun i => if i =? 1 then root_dir
                              else if i =? 2 then direct_file 0 0 2
                              else if i =? 3 then with_ftype 7 (direct_file 0 0 1)
                              else free_inode;
     ospfs_data :=
       store_bytes (store32 dir_mem (ospfs_block 20 + 256) 3)
         (ospfs_block 20 + 256 + 4) (bytes "x") |}.

(** [dir_image] after [symlink(root, "s", "root?/r:/o")]. *)
Definition symlinked_image : disk :=
  match ospfs_symlink (hdr := lab_header) true 1 (bytes "s")
          (conditional_target (bytes "root") (bytes "/r") (bytes "/o"))
          dir_image with
  | Done _ d' => d'
  | _ => dir_image
  end.

(** A directory below the root.  Inode 1 is the root directory, whose
    block 20 holds the entry ["d"] of inode 3; inode 3 is a directory of
    one block (block 21) without entries; inode 2 and the inodes from 4
    on are free, and so are the blocks 22 to 31. *)
Definition sub_dir : ospfs_inode_t :=
  {| oi_size := 1024; oi_ftype := 1; oi_nlink := 1; oi_mode := 493;
     oi_direct := fun k => if k =? 0 then 21 else 0;
     oi_indirect := 0; oi_indirect2 := 0;
     oi_symlink := fun _ => 0 |}.

Definition subdir_image : disk :=
  {| ospfs_super := small_super;
     ospfs_inodes := fun i => if i =? 1 then root_dir
                              else if i =? 3 then sub_dir
                              else free_inode;
     ospfs_data :=
       store_bytes
         (store32
            (store32 zero_mem (ospfs_block OSPFS_FREEMAP_BLK) 0xFFC00000)
            (ospfs_block 20) 3)
         (ospfs_block 20 + 4) (bytes "d") |}.

(** A root path of 60 characters, and the conditional target made of
    it. *)
Definition long_root : list Z :=
  bytes "/0123456789/0123456789/0123456789/0123456789/0123456789/abcd".
Definition long_target : list Z :=
  conditional_target (bytes "root") long_root (bytes "/o").

(** [subdir_image] after [symlink(inode 3, "s", long_target)]. *)
Definition overrun_image : disk :=
  match ospfs_symlink (hdr := lab_header) true 3 (bytes "s") long_target
          subdir_image with
  | Done _ d' => d'
  | _ => subdir_image
  end.

(** [same_inodes d d']: the inode table of [d'] is that of [d]. *)
Definition same_inodes (d d' : disk) : Prop :=
  ospfs_inodes d' = ospfs_inodes d.

(** [fuel_suffices c]: no run of [c] ends for lack of fuel. *)
Definition fuel_suffices {A : Type} (c : M A) : Prop :=
  forall d, c d <> Fuel.

(** ** The remaining directory and inode operations *)

Definition EINVAL : Z := 22.

Section DirectoryOps.
Context {hdr : ospfs_h}.

(** [memcpy(dst, src, len)] into the image. *)
Definition memcpy (dst : Z) (src : list Z) : M unit :=
  fun d => Done tt (set_data (store_bytes (ospfs_data d) dst src) d).

(** The [for] loop of [ospfs_dir_lookup].  [inl e] is the return of
    [ERR_PTR(e)]; [inr (Some ino)]: the loop was left with an inode for
    [ino] in [entry_inode]; [inr None]: it ended with [entry_inode] still
    NULL. *)
Fixpoint lookup_scan (fuel : nat) (new_inode_ok : bool) (dir_oi : Z)
    (name : list Z) (entry_off : Z) : M (Z + option Z) :=
  match fuel with
  | O => out_of_fuel
  | S fuel' =>
      let* size := oi_get oi_size dir_oi in
      if u32 entry_off <? size then
        let* od := gets (ospfs_inode_data dir_oi (u32 entry_off)) in
        let* hit := direntry_matches od name in
        if hit then
          let* ino := gets (od_ino od) in
          let* entry_inode := ospfs_mk_linux_inode new_inode_ok ino in
          if entry_inode then ret (inr (Some ino))
          else ret (inl (- EINVAL))
        else lookup_scan fuel' new_inode_ok dir_oi name
               (entry_off + OSPFS_DIRENTRY_SIZE)
      else ret (inr None)
  end.

(** [dir_ino] is [dir->i_ino] and [name] is [dentry->d_name].  [inl e] is
    [ERR_PTR(e)]; [inr (Some ino)]: the dentry is returned with the inode
    of [ino] attached; [inr None]: a negative dentry is returned. *)
Definition ospfs_dir_lookup (new_inode_ok : bool) (dir_ino : Z)
    (name : list Z) : M (Z + option Z) :=
  let* dirp := gets (ospfs_inode dir_ino) in
  if OSPFS_MAXNAMELEN <? strlen name then ret (inl (- ENAMETOOLONG))
  else
    let* dir_oi := deref dirp in
    let* size := oi_get oi_size dir_oi in
    lookup_scan (S (Z.to_nat size)) new_inode_ok dir_oi name 0.

(** The three stores that fill a directory entry in [ospfs_link] and
    [ospfs_create]: [od_ino], then the name, then its NUL. *)
Definition write_direntry (od ino : Z) (name : list Z) : M unit :=
  let* _ := wr32 od ino in
  let* _ := memcpy (od_name od) name in
  wr8 (od_name od + strlen name) 0.

(** [src_ino] is [src_dentry->d_inode->i_ino], [dir_ino] is [dir->i_ino]
    and [name] is [dst_dentry->d_name].  A directory entry is an address
    inside [ospfs_data], so the test [new_entry == NULL] never holds. *)
Definition ospfs_link (src_ino dir_ino : Z) (name : list Z) : M Z :=
  let* dirp := gets (ospfs_inode dir_ino) in
  let* srcp := gets (ospfs_inode src_ino) in
  match dirp with
  | None => ret (- EIO)
  | Some dir_oi =>
      let* dir_ftype := oi_get oi_ftype dir_oi in
      if negb (dir_ftype =? OSPFS_FTYPE_DIR) then ret (- EIO)
      else
        let* src_oi := deref srcp in
        let* nlink := oi_get oi_nlink src_oi in
        if u32 (nlink + 1) =? 0 then ret (- EIO)
        else if OSPFS_MAXNAMELEN <? strlen name then ret (- ENAMETOOLONG)
        else
          let* existing := find_direntry dir_oi name in
          match existing with
          | Some _ => ret (- EEXIST)
          | None =>
              let* e := create_blank_direntry dir_oi in
              match e with
              | inl err => ret err
              | inr new_entry =>
                  let* _ := write_direntry new_entry src_ino name in
                  let* nlink := oi_get oi_nlink src_oi in
                  let* _ := oi_set (with_nlink (u32 (nlink + 1))) src_oi in
                  ret 0
              end
          end
  end.

(** [dir_ino] is [dir->i_ino], [name] is [dentry->d_name].  The result is
    the return value and, when [d_instantiate] was reached, the inode
    number it attached to the dentry. *)
Definition ospfs_create (new_inode_ok : bool) (dir_ino : Z) (name : list Z)
    (mode : Z) : M (Z * option Z) :=
  let* dirp := gets (ospfs_inode dir_ino) in
  let* dir_oi := deref dirp in
  let* dir_ftype := oi_get oi_ftype dir_oi in
  if negb (dir_ftype =? OSPFS_FTYPE_DIR) then ret (- EIO, None)
  else if OSPFS_MAXNAMELEN <? strlen name then ret (- ENAMETOOLONG, None)
  else
    let* existing := find_direntry dir_oi name in
    match existing with
    | Some _ => ret (- EEXIST, None)
    | None =>
        let* entry_ino := gets find_free_inode in
        if entry_ino =? 0 then ret (- ENOSPC, None)
        else
          let* filep := gets (ospfs_inode entry_ino) in
          match filep with
          | None => ret (- EIO, None)
          | Some file_oi =>
              let* _ := oi_set (with_size 0) file_oi in
              let* _ := oi_set (with_ftype OSPFS_FTYPE_REG) file_oi in
              let* _ := oi_set (with_nlink 1) file_oi in
              let* _ := oi_set (with_mode (u32 mode)) file_oi in
              let* e := create_blank_direntry dir_oi in
              match e with
              | inl err => ret (err, None)
              | inr new_entry =>
                  let* _ := write_direntry new_entry entry_ino name in
                  let* i := ospfs_mk_linux_inode new_inode_ok entry_ino in
                  if i then ret (0, Some entry_ino)
                  else ret (- ENOMEM, None)
              end
          end
    end.

(** [ino] is [dentry->d_inode->i_ino]; [attr_size] and [attr_mode] are the
    bits [ATTR_SIZE] and [ATTR_MODE] of [attr->ia_valid]; [change_ok] and
    [setattr] are what the kernel's [inode_change_ok] and [inode_setattr]
    return (they work on the Linux inode, not on the image). *)
Definition ospfs_notify_change (ino : Z) (attr_size attr_mode : bool)
    (ia_size ia_mode change_ok setattr : Z) : M Z :=
  let* p := gets (ospfs_inode ino) in
  let* sized :=
    (if attr_size then
       let* oi := deref p in
       let* ftype := oi_get oi_ftype oi in
       if ftype =? OSPFS_FTYPE_DIR then ret (Some (- EPERM))
       else
         let* retval := change_size oi (u32 ia_size) in
         if retval <? 0 then ret (Some retval) else ret None
     else ret None) in
  match sized with
  | Some retval => ret retval
  | None =>
      let* _ := (if attr_mode then
                   let* oi := deref p in
                   oi_set (with_mode (u32 ia_mode)) oi
                 else ret tt) in
      if change_ok <? 0 then ret change_ok else ret setattr
  end.

End DirectoryOps.
(** ** File contents in the statements *)

(** The bytes of the file [oi] at the offsets [pos .. pos + n - 1], each
    found through [ospfs_inode_data]. *)
Definition file_bytes {hdr : ospfs_h} (oi pos : Z) (n : nat) (d : disk)
  : list Z :=
  map (fun k => load8 (ospfs_data d)
                  (ospfs_inode_data oi (pos + Z.of_nat k) d))
    (seq 0 n).

(** [unchanged d d']: the image [d'] is the image [d]. *)
Definition unchanged (d d' : disk) : Prop := d' = d.

(** What the last stores of [ospfs_symlink] leave alone in the new
    inode: its size and its target bytes. *)
Definition keeps_target (ino : Z) (d d' : disk) : Prop :=
  ospfs_super d' = ospfs_super d
  /\ oi_size (ospfs_inodes d' ino) = oi_size (ospfs_inodes d ino)
  /\ oi_symlink (ospfs_inodes d' ino) = oi_symlink (ospfs_inodes d ino).
(** ** Directories in the statements of link and create *)

Section DirectoryShape.
Context {hdr : ospfs_h}.

(** A directory whose entries all lie in its direct blocks. *)
Definition small_directory (dir_oi : Z) (d : disk) : Prop :=
  oi_ftype (ospfs_inodes d dir_oi) = OSPFS_FTYPE_DIR
  /\ 0 <= oi_size (ospfs_inodes d dir_oi) <= OSPFS_NDIRECT * OSPFS_BLKSIZE.

(** No entry of the directory matches [name]. *)
Definition name_absent (dir_oi : Z) (name : list Z) (d : disk) : Prop :=
  forall j, 0 <= j ->
            j * OSPFS_DIRENTRY_SIZE < oi_size (ospfs_inodes d dir_oi) ->
            direntry_matches (entry_addr dir_oi j d) name d = Done false d.

(** Entry [k] is the first unused entry of the directory. *)
Definition first_blank (dir_oi k : Z) (d : disk) : Prop :=
  0 <= k
  /\ k * OSPFS_DIRENTRY_SIZE < oi_size (ospfs_inodes d dir_oi)
  /\ od_ino (entry_addr dir_oi k d) d = 0
  /\ forall j, 0 <= j < k -> od_ino (entry_addr dir_oi j d) d <> 0.

(** The bytes of entry [k] overlap the bytes of no other entry. *)
Definition entry_apart (dir_oi k : Z) (d : disk) : Prop :=
  forall j, 0 <= j ->
            j * OSPFS_DIRENTRY_SIZE < oi_size (ospfs_inodes d dir_oi) ->
            j <> k ->
            entry_addr dir_oi j d + OSPFS_DIRENTRY_SIZE <= entry_addr dir_oi k d
            \/ entry_addr dir_oi k d + OSPFS_DIRENTRY_SIZE
               <= entry_addr dir_oi j d.

End DirectoryShape.

(** ** Further concrete images *)

(** The image that a run of [c] on [d] leaves ([d] itself when the run
    does not return). *)
Definition image_after {A : Type} (c : M A) (d : disk) : disk :=
  match c d with
  | Done _ d' => d'
  | _ => d
  end.

(** Inode 2 is a file of 266 blocks whose doubly-indirect block is block
    30; slot 0 of that block names the indirect block 31. *)
Definition doubly_indirect_image : disk :=
  {| ospfs_super := small_super;
     ospfs_inodes :=
       fun i => if i =? 2
                then {| oi_size := 272384; oi_ftype := 0; oi_nlink := 1;
                        oi_mode := 420; oi_direct := fun k => 5 + k;
                        oi_indirect := 29; oi_indirect2 := 30;
                        oi_symlink := fun _ => 0 |}
                else free_inode;
     ospfs_data := store32 zero_mem (ospfs_block 30) 31 |}.

(** Inode 1 is a directory without entries, every other inode is free and
    no block is free. *)
Definition empty_dir_full_image : disk :=
  {| ospfs_super := small_super;
     ospfs_inodes := fun i => if i =? 1 then with_ftype 1 (direct_file 0 0 1)
                              else free_inode;
     ospfs_data := zero_mem |}.

(** [dir_image] after [symlink(root, "p", "/etc")]. *)
Definition plain_symlinked_image : disk :=
  image_after (ospfs_symlink (hdr := lab_header) true 1 (bytes "p")
                 (bytes "/etc")) dir_image.

(** [dir_image] after the file of inode 2 has been grown to 2048 bytes. *)
Definition grown_image : disk :=
  image_after (change_size (hdr := lab_header) 2 2048) dir_image.

(** [empty_dir_full_image] after [create(root, "f", 0644)]. *)
Definition create_failed_image : disk :=
  image_after (ospfs_create (hdr := lab_header) true 1 (bytes "f") 420)
    empty_dir_full_image.
(** Inode 2 is a regular file of 1000 bytes in block 5. *)
Definition short_file_image : disk :=
  {| ospfs_super := small_super;
     ospfs_inodes := fun i => if i =? 2 then direct_file 1000 1 1
                              else free_inode;
     ospfs_data := zero_mem |}.

(** * Theorems *)

(** Closed goals: evaluate, then compare. *)
Ltac by_evaluation :=
  vm_compute;
  repeat match goal with |- _ /\ _ => split end;
  first [ reflexivity | discriminate | intros H; discriminate H ].

(** ** Machine integers *)

Lemma u32_id (x : Z) : 0 <= x < 2 ^ 32 -> u32 x = x.
Proof. intros H. unfold u32. apply Z.mod_small. exact H. Qed.

Lemma u32_range (x : Z) : 0 <= u32 x < 2 ^ 32.
Proof. unfold u32. apply Z.mod_pos_bound. lia. Qed.

Lemma s64_id (x : Z) : - 2 ^ 63 <= x < 2 ^ 63 -> s64 x = x.
Proof.
  intros H. unfold s64.
  destruct (Z.ltb_spec (x mod 2 ^ 64) (2 ^ 63)) as [Hlt | Hge].
  - destruct (Z.neg_nonneg_cases x) as [Hn | Hp].
    + exfalso. assert (E : x mod 2 ^ 64 = x + 2 ^ 64).
      { symmetry. apply Z.mod_unique with (q := -1); lia. }
      lia.
    + apply Z.mod_small. lia.
  - destruct (Z.neg_nonneg_cases x) as [Hn | Hp].
    + assert (E : x mod 2 ^ 64 = x + 2 ^ 64).
      { symmetry. apply Z.mod_unique with (q := -1); lia. }
      lia.
    + exfalso. rewrite Z.mod_small in Hge; lia.
Qed.

Section BlockIndex.
Context {hdr : ospfs_h}.

(** C7.  [ospfs_inode_blockno] returns 0 when the offset is not below the
    size or the inode is a symlink; otherwise, with [b = off / BLKSIZE], it
    returns [direct[b]] for [b < ND], slot [b - ND] of the indirect block
    for [ND <= b < ND + NI], and else slot [b' mod NI] of the indirect block
    found at slot [b' div NI] of the doubly-indirect block, where
    [b' = b - (ND + NI)]. *)
Theorem ospfs_inode_blockno_cases (d : disk) (oi off : Z) :
  0 <= off < 2 ^ 32 ->
  let i := ospfs_inodes d oi in
  let b := off / OSPFS_BLKSIZE in
  let b' := b - (OSPFS_NDIRECT + OSPFS_NINDIRECT) in
  (oi_size i <= off \/ oi_ftype i = OSPFS_FTYPE_SYMLINK ->
   ospfs_inode_blockno oi off d = 0)
  /\ (off < oi_size i -> oi_ftype i <> OSPFS_FTYPE_SYMLINK ->
      (b < OSPFS_NDIRECT -> ospfs_inode_blockno oi off d = oi_direct i b)
      /\ (OSPFS_NDIRECT <= b < OSPFS_NDIRECT + OSPFS_NINDIRECT ->
          ospfs_inode_blockno oi off d
          = slot d (oi_indirect i) (b - OSPFS_NDIRECT))
      /\ (OSPFS_NDIRECT + OSPFS_NINDIRECT <= b ->
          ospfs_inode_blockno oi off d
          = slot d (slot d (oi_indirect2 i) (b' / OSPFS_NINDIRECT))
              (b' mod OSPFS_NINDIRECT))).
Proof.
  intros Hoff i b b'.
  assert (Hb : 0 <= b < 2 ^ 32).
  { subst b. unfold OSPFS_BLKSIZE. split.
    - apply Z.div_pos; lia.
    - apply Z.div_lt_upper_bound; lia. }
  unfold ospfs_inode_blockno. fold i. fold b.
  split.
  - intros [Hsz | Hft].
    + destruct (Z.leb_spec (oi_size i) off) as [_ | Hlt]; [reflexivity | lia].
    + apply Z.eqb_eq in Hft. rewrite Hft, orb_true_r. reflexivity.
  - intros Hlt Hft.
    destruct (Z.leb_spec (oi_size i) off) as [Hle | _]; [lia |].
    apply Z.eqb_neq in Hft. rewrite Hft. cbn [orb].
    unfold OSPFS_NDIRECT, OSPFS_NINDIRECT in *.
    repeat split.
    + intros Hd.
      destruct (Z.leb_spec (10 + 256) b); [lia |].
      destruct (Z.leb_spec 10 b); [lia | reflexivity].
    + intros Hi.
      destruct (Z.leb_spec (10 + 256) b); [lia |].
      destruct (Z.leb_spec 10 b); [| lia].
      rewrite u32_id by lia. reflexivity.
    + intros Hi2.
      destruct (Z.leb_spec (10 + 256) b); [| lia].
      rewrite u32_id by lia. reflexivity.
Qed.

End BlockIndex.

(** C7 at offset 6200 of a file of ten direct blocks: the seventh
    pointer. *)
Lemma ospfs_inode_blockno_cases_witness :
  0 <= 6200 < 2 ^ 32
  /\ ospfs_inode_blockno (hdr := lab_header) 2 6200 ten_block_image
     = oi_direct (ospfs_inodes ten_block_image 2) 6.
Proof.
  split; [lia |].
  pose proof (ospfs_inode_blockno_cases (hdr := lab_header)
                ten_block_image 2 6200 ltac:(lia)) as [_ H].
  destruct H as [H _]; [reflexivity | discriminate |].
  apply H. reflexivity.
Defined.

Section ReadOverflow.
Context {hdr : ospfs_h}.

(** What the guard [*f_pos + count < *f_pos] of [ospfs_read] catches: on
    LP64 a sum that wraps around [2^64] is answered with [-EIO] before
    anything is read; on ILP32 the overflowing sum is undefined and the
    call has no result. *)
Lemma ospfs_read_guard (dm : data_model) (user_ok : Z -> Z -> bool)
    (fuel : nat) (ino count f_pos : Z) (d : disk) :
  - 2 ^ 63 <= f_pos < 2 ^ 63 ->
  0 <= count <= size_max dm ->
  addition_overflows dm f_pos count ->
  ospfs_read dm user_ok fuel ino count f_pos d
  = match dm with
    | ILP32 => Oops
    | LP64 => Done (- EIO, f_pos, []) d
    end.
Proof.
  intros Hpos Hcount Hov.
  unfold ospfs_read, bind, gets, pos_plus_count, addition_overflows in *.
  destruct dm; cbn [to_sum_type sum_type_max size_max defined] in *.
  - rewrite (s64_id f_pos) in * by lia. cbv zeta.
    destruct (Z.leb_spec (f_pos + count) (2 ^ 63 - 1)); [lia |].
    rewrite andb_false_r. reflexivity.
  - unfold ret.
    assert (E : (u64 (f_pos + count) <? u64 f_pos) = true).
    { apply Z.ltb_lt. unfold u64 in *.
      pose proof (Z.mod_pos_bound f_pos (2 ^ 64) ltac:(lia)) as Hb.
      assert (E : (f_pos + count) mod 2 ^ 64
                  = f_pos mod 2 ^ 64 + count - 2 ^ 64).
      { rewrite <- Zplus_mod_idemp_l.
        symmetry. apply Z.mod_unique with (q := 1); lia. }
      lia. }
    rewrite E. reflexivity.
Qed.

End ReadOverflow.

(** ** The defects of the size engine and of the allocator *)

Section Lab.
#[local] Existing Instance lab_header.

(** C4.  In the image whose only free block is the data block 40,
    [allocate_block] returns 40 and [free_block 40] does nothing, because
    40 is not below the number of inodes: the bit of block 40 was set
    before and is clear afterwards. *)
Theorem allocate_then_free_loses_block :
  post ((let* b := allocate_block in
         let* _ := free_block b in
         ret b) one_free_block_image)
    (fun b d' =>
       b = 40
       /\ block_is_free one_free_block_image 40 = true
       /\ block_is_free d' 40 = false).
Proof. by_evaluation. Qed.

(** C2.  Inode 2 has ten blocks and block 25 is the last free block:
    [add_block] takes block 25 as the indirect block, finds no block for
    the data, and returns [-ENOSPC] with [oi_indirect] changed from 0 to 25
    and block 25 still marked allocated. *)
Theorem add_block_enospc_keeps_indirect :
  post (add_block 2 ten_block_image)
    (fun r d' =>
       r = - ENOSPC
       /\ oi_indirect (ospfs_inodes ten_block_image 2) = 0
       /\ oi_indirect (ospfs_inodes d' 2) = 25
       /\ block_is_free ten_block_image 25 = true
       /\ block_is_free d' 25 = false).
Proof. by_evaluation. Qed.

(** C1.  On the same image, growing inode 2 by one byte fails with
    [-ENOSPC]; the size is restored but block 25, free before the call, is
    allocated after it. *)
Theorem change_size_enospc_loses_block :
  post (change_size 2 10241 ten_block_image)
    (fun r d' =>
       r = - ENOSPC
       /\ oi_size (ospfs_inodes d' 2)
          = oi_size (ospfs_inodes ten_block_image 2)
       /\ block_is_free ten_block_image 25 = true
       /\ block_is_free d' 25 = false).
Proof. by_evaluation. Qed.

(** C3.  Inode 2 has eleven blocks by its size but no indirect block:
    [remove_block] does not return [-EIO]; it returns 0 and shrinks the
    file to ten blocks, having used block 0 as the indirect block. *)
Theorem remove_block_missing_indirect_ok :
  post (remove_block 2 missing_indirect_image)
    (fun r d' =>
       ospfs_size2nblocks (oi_size (ospfs_inodes missing_indirect_image 2))
       = 11
       /\ oi_indirect (ospfs_inodes missing_indirect_image 2) = 0
       /\ r = 0
       /\ r <> - EIO
       /\ oi_size (ospfs_inodes d' 2) = 10240).
Proof. by_evaluation. Qed.

(** C6.  On a full disk, a write at the last file position of an empty
    file whose [*f_pos + count] overflows (on x86-64, where the sum is
    defined and wraps): [ospfs_write] does not return [-EIO] but the
    [-ENOSPC] of [change_size]. *)
Theorem ospfs_write_overflow_enospc :
  addition_overflows LP64 (2 ^ 63 - 1) (2 ^ 63 + 2)
  /\ post (ospfs_write LP64 (fun _ _ => true) 8 2 false (fun _ => 65)
             (2 ^ 63 + 2) (2 ^ 63 - 1) full_image)
       (fun res _ => fst res = - ENOSPC /\ fst res <> - EIO).
Proof.
  split; by_evaluation.
Qed.

(** C10.  On x86-64, reading two bytes at the last file position: the sum
    [*f_pos + count] is beyond the largest [loff_t], yet the guard of
    [ospfs_read], which compares [unsigned long] values there, lets the
    call pass, and it returns 0, not [-EIO]. *)
Theorem ospfs_read_overflow_returns_zero :
  position_overflows (2 ^ 63 - 1) 2
  /\ ospfs_read LP64 (fun _ _ => true) 8 2 2 (2 ^ 63 - 1) ten_block_image
     = Done (0, 2 ^ 63 - 1, []) ten_block_image
  /\ 0 <> - EIO.
Proof.
  split; [| split]; by_evaluation.
Qed.

End Lab.

(** ** Runs of the image monad *)

Lemma bind_Done_inv {A B : Type} (c : M A) (k : A -> M B) (d : disk)
    (b : B) (d' : disk) :
  bind c k d = Done b d' ->
  exists a d1, c d = Done a d1 /\ k a d1 = Done b d'.
Proof.
  unfold bind. destruct (c d) as [a d1 | |]; try discriminate.
  intros H. exists a, d1. auto.
Qed.

(** Inverts a run [H : c d = Done _ _] along the structure of [c]. *)
Ltac minv H :=
  repeat lazymatch type of H with
  | bind (gets _) _ _ = Done _ _ =>
      unfold bind at 1 in H; unfold gets at 1 in H
  | bind (oi_get _ _) _ _ = Done _ _ =>
      unfold bind at 1 in H; unfold oi_get at 1, gets at 1 in H
  | bind (ret _) _ _ = Done _ _ =>
      unfold bind at 1 in H; unfold ret at 1 in H
  | bind _ _ _ = Done _ _ =>
      let a := fresh "a" in
      let d1 := fresh "d" in
      let E := fresh "E" in
      apply bind_Done_inv in H; destruct H as (a & d1 & E & H)
  | (if ?b then _ else _) _ = Done _ _ =>
      let E := fresh "E" in destruct b eqn:E
  | match ?x with _ => _ end _ = Done _ _ =>
      let E := fresh "E" in destruct x eqn:E
  | ret _ _ = Done _ _ => unfold ret in H; inversion H; subst; clear H
  | oops _ = Done _ _ => discriminate H
  | out_of_fuel _ = Done _ _ => discriminate H
  end.

Ltac decide_range :=
  repeat match goal with
         | |- context [?a <=? ?b] => destruct (Z.leb_spec a b); try lia
         | |- context [?a <? ?b] => destruct (Z.ltb_spec a b); try lia
         end;
  cbn [andb].

(** ** Frames *)

Create HintDb keeps.

Lemma same_super_preorder : PreOrder same_super.
Proof.
  split.
  - intros d. reflexivity.
  - intros a b c H1 H2. unfold same_super in *. congruence.
Qed.

Lemma inode_frame_preorder (oi : Z) : PreOrder (inode_frame oi).
Proof.
  split.
  - intros d. unfold inode_frame. auto.
  - intros a b c (H1 & H2 & H3 & H4 & H5) (G1 & G2 & G3 & G4 & G5).
    unfold inode_frame. repeat split; try congruence.
    intros j Hj. rewrite G2, H2; auto.
Qed.

Lemma inode_frame_super (oi : Z) (d d' : disk) :
  inode_frame oi d d' -> same_super d d'.
Proof. intros H. apply H. Qed.

#[global] Hint Resolve same_super_preorder inode_frame_preorder : keeps.

Section Keeps.
Context (R : disk -> disk -> Prop) (HR : PreOrder R).

Lemma keeps_ret {A : Type} (a : A) : keeps R (ret a).
Proof. intros d a' d' H. inversion H; subst. reflexivity. Qed.

Lemma keeps_gets {A : Type} (f : disk -> A) : keeps R (gets f).
Proof. intros d a' d' H. inversion H; subst. reflexivity. Qed.

Lemma keeps_oops {A : Type} : keeps R (@oops A).
Proof. intros d a' d' H. discriminate H. Qed.

Lemma keeps_out_of_fuel {A : Type} : keeps R (@out_of_fuel A).
Proof. intros d a' d' H. discriminate H. Qed.

Lemma keeps_bind {A B : Type} (c : M A) (k : A -> M B) :
  keeps R c -> (forall a, keeps R (k a)) -> keeps R (bind c k).
Proof.
  intros Hc Hk d b d' H. apply bind_Done_inv in H.
  destruct H as (a & d1 & E & H).
  transitivity d1; [eapply Hc | eapply Hk]; eassumption.
Qed.

Lemma keeps_oi_get {A : Type} (f : ospfs_inode_t -> A) (oi : Z) :
  keeps R (oi_get f oi).
Proof. apply keeps_gets. Qed.

Lemma keeps_rd32 (a : Z) : keeps R (rd32 a).
Proof. apply keeps_gets. Qed.

Lemma keeps_deref (p : option Z) : keeps R (deref p).
Proof. destruct p; [apply keeps_ret | apply keeps_oops]. Qed.

Lemma keeps_defined {A : Type} (v : option A) : keeps R (defined v).
Proof. destruct v; [apply keeps_ret | apply keeps_oops]. Qed.

End Keeps.

Lemma keeps_weaken (R R' : disk -> disk -> Prop) {A : Type} (c : M A) :
  (forall d d', R d d' -> R' d d') -> keeps R c -> keeps R' c.
Proof. intros HRR Hc d a d' H. apply HRR. eapply Hc. exact H. Qed.

(** One step along a monadic term. *)
Ltac keeps_step :=
  lazymatch goal with
  | |- PreOrder _ => solve [eauto with keeps]
  | |- forall _, _ => intros ?
  | |- keeps _ (bind _ _) => apply keeps_bind
  | |- keeps _ (ret _) => apply keeps_ret
  | |- keeps _ (gets _) => apply keeps_gets
  | |- keeps _ (oi_get _ _) => apply keeps_oi_get
  | |- keeps _ (rd32 _) => apply keeps_rd32
  | |- keeps _ (deref _) => apply keeps_deref
  | |- keeps _ (defined _) => apply keeps_defined
  | |- keeps _ oops => apply keeps_oops
  | |- keeps _ out_of_fuel => apply keeps_out_of_fuel
  | |- keeps _ (if ?b then _ else _) => destruct b
  | |- keeps _ (match ?x with _ => _ end) => destruct x
  end.

Ltac keeps_auto :=
  repeat (cbv zeta; first [ keeps_step | solve [eauto with keeps] ]).

Section Frame.
Context {hdr : ospfs_h}.

Lemma frame_wr32 (oi a v : Z) : keeps (inode_frame oi) (wr32 a v).
Proof. intros d x d' H. inversion H; subst. unfold inode_frame; cbn. auto. Qed.

Lemma frame_wr8 (oi a v : Z) : keeps (inode_frame oi) (wr8 a v).
Proof. intros d x d' H. inversion H; subst. unfold inode_frame; cbn. auto. Qed.

Lemma frame_zero_block (oi a : Z) : keeps (inode_frame oi) (zero_block a).
Proof. intros d x d' H. inversion H; subst. unfold inode_frame; cbn. auto. Qed.

Lemma frame_oi_set (oi : Z) (f : ospfs_inode_t -> ospfs_inode_t) :
  (forall i, oi_nlink (f i) = oi_nlink i /\ oi_ftype (f i) = oi_ftype i
             /\ oi_symlink (f i) = oi_symlink i) ->
  keeps (inode_frame oi) (oi_set f oi).
Proof.
  intros Hf d x d' H. inversion H; subst. unfold inode_frame; cbn.
  rewrite fn_lookup_insert.
  destruct (Hf (ospfs_inodes d oi)) as (? & ? & ?).
  repeat split; auto. intros j Hj. rewrite fn_lookup_insert_ne; auto.
Qed.

#[local] Hint Resolve frame_wr32 frame_wr8 frame_zero_block : keeps.
#[local] Hint Extern 1 (keeps _ (oi_set _ _)) =>
  (apply frame_oi_set; intros; cbn; auto) : keeps.

Lemma frame_bitvector_set (oi v i : Z) :
  keeps (inode_frame oi) (bitvector_set v i).
Proof. unfold bitvector_set. keeps_auto. Qed.

Lemma frame_bitvector_clear (oi v i : Z) :
  keeps (inode_frame oi) (bitvector_clear v i).
Proof. unfold bitvector_clear. keeps_auto. Qed.

#[local] Hint Resolve frame_bitvector_set frame_bitvector_clear : keeps.

Lemma frame_free_block (oi b : Z) : keeps (inode_frame oi) (free_block b).
Proof. unfold free_block. keeps_auto. Qed.

Lemma frame_allocate_block_from (oi : Z) (k : nat) (fm i : Z) :
  keeps (inode_frame oi) (allocate_block_from k fm i).
Proof. revert i. induction k; intros i; cbn [allocate_block_from]; keeps_auto. Qed.

#[local] Hint Resolve frame_free_block frame_allocate_block_from : keeps.

Lemma frame_allocate_block (oi : Z) : keeps (inode_frame oi) allocate_block.
Proof. unfold allocate_block. keeps_auto. Qed.

#[local] Hint Resolve frame_allocate_block : keeps.

Lemma frame_add_block (oi : Z) : keeps (inode_frame oi) (add_block oi).
Proof. unfold add_block, err_handle, store_new_block. keeps_auto. Qed.

Lemma frame_remove_block (oi : Z) : keeps (inode_frame oi) (remove_block oi).
Proof. unfold remove_block. keeps_auto. Qed.

#[local] Hint Resolve frame_add_block frame_remove_block : keeps.

Lemma frame_grow_loop (oi : Z) (fuel : nat) (new_size old_size r : Z) :
  keeps (inode_frame oi) (grow_loop fuel oi new_size old_size r).
Proof. revert r. induction fuel; intros r; cbn [grow_loop]; keeps_auto. Qed.

Lemma frame_shrink_loop (oi : Z) (fuel : nat) (new_size : Z) :
  keeps (inode_frame oi) (shrink_loop fuel oi new_size).
Proof. induction fuel; cbn [shrink_loop]; keeps_auto. Qed.

#[local] Hint Resolve frame_grow_loop frame_shrink_loop : keeps.

(** [change_size oi] touches no inode but [oi], and of [oi] neither the
    link count nor the type. *)
Lemma frame_change_size (oi new_size : Z) :
  keeps (inode_frame oi) (change_size oi new_size).
Proof. unfold change_size. keeps_auto. Qed.

#[local] Hint Resolve frame_change_size : keeps.

Lemma frame_blank_scan (oi : Z) (fuel : nat) (offset : Z) :
  keeps (inode_frame oi) (blank_scan fuel oi offset).
Proof. revert offset. induction fuel; intros offset; cbn [blank_scan]; keeps_auto. Qed.

#[local] Hint Resolve frame_blank_scan : keeps.

Lemma frame_create_blank_direntry (dir_oi : Z) :
  keeps (inode_frame dir_oi) (create_blank_direntry dir_oi).
Proof. unfold create_blank_direntry. keeps_auto. Qed.

(** The directory scans only read. *)
Lemma keeps_od_name_string (R : disk -> disk -> Prop) (od : Z) :
  PreOrder R -> keeps R (od_name_string od).
Proof.
  intros HR d a d' H. unfold od_name_string in H.
  destruct (cstring _ _ _); inversion H; subst. reflexivity.
Qed.

#[local] Hint Resolve keeps_od_name_string : keeps.

Lemma keeps_direntry_matches (R : disk -> disk -> Prop) (od : Z)
    (name : list Z) :
  PreOrder R -> keeps R (direntry_matches od name).
Proof. intros HR. unfold direntry_matches. keeps_auto. Qed.

#[local] Hint Resolve keeps_direntry_matches : keeps.

Lemma keeps_find_direntry_from (R : disk -> disk -> Prop) (fuel : nat)
    (dir_oi : Z) (name : list Z) (off : Z) :
  PreOrder R -> keeps R (find_direntry_from fuel dir_oi name off).
Proof.
  intros HR. revert off.
  induction fuel; intros off; cbn [find_direntry_from]; keeps_auto.
Qed.

#[local] Hint Resolve keeps_find_direntry_from : keeps.

Lemma keeps_find_direntry (R : disk -> disk -> Prop) (dir_oi : Z)
    (name : list Z) :
  PreOrder R -> keeps R (find_direntry dir_oi name).
Proof. intros HR. unfold find_direntry. keeps_auto. Qed.

End Frame.

(** ** Conditional symlinks *)
Lemma strpbrk_app (p s : list Z) (c : Z) :
  ~ In c p -> strpbrk (p ++ c :: s) c = Some (Z.of_nat (length p)).
Proof.
  induction p as [| x p IH]; intros Hn; cbn [strpbrk app length].
  - rewrite Z.eqb_refl. reflexivity.
  - destruct (Z.eqb_spec x c) as [-> | Hne].
    + exfalso. apply Hn. left. reflexivity.
    + rewrite IH by (intros Hi; apply Hn; right; exact Hi).
      cbn [option_map]. f_equal. lia.
Qed.

Lemma skipn_length_app {A} (p s : list A) : skipn (length p) (p ++ s) = s.
Proof. induction p; cbn; auto. Qed.

Section Symlink.
Context {hdr : ospfs_h}.


Lemma conditional_form_target prefix root other :
  ~ In QMARK prefix -> ~ In COLON prefix -> ~ In COLON root ->
  conditional_form (conditional_target prefix root other)
  = Some (Z.of_nat (length prefix), Z.of_nat (length prefix) + 1 + Z.of_nat (length root)).
Proof.
  intros Hq Hc Hr. unfold conditional_form, conditional_target.
  rewrite strpbrk_app by exact Hq.
  replace (prefix ++ QMARK :: root ++ COLON :: other)
    with ((prefix ++ QMARK :: root) ++ COLON :: other)
    by (rewrite <- app_assoc; reflexivity).
  rewrite strpbrk_app.
  - rewrite length_app. cbn [length].
    destruct (Z.ltb_spec (Z.of_nat (length prefix)) (Z.of_nat (length prefix + S (length root)))); [| lia].
    f_equal. f_equal. lia.
  - intros Hi. apply in_app_or in Hi. destruct Hi as [Hi | [Hi | Hi]]; auto.
    discriminate Hi.
Qed.

Lemma strncpy_bytes_exact (s t : list Z) :
  strncpy_bytes (s ++ t) (Z.of_nat (length s)) = s.
Proof.
  unfold strncpy_bytes. rewrite Nat2Z.id.
  rewrite firstn_app, firstn_all, Nat.sub_diag. cbn [firstn].
  rewrite app_nil_r, Nat.sub_diag. cbn [repeat]. apply app_nil_r.
Qed.

Lemma strncpy_bytes_all (s : list Z) : strncpy_bytes s (strlen s) = s.
Proof.
  pose proof (strncpy_bytes_exact s []) as H. rewrite app_nil_r in H. exact H.
Qed.

(** A store inside [oi_symlink] changes that target byte and leaves the
    first three words of the record alone. *)
Lemma inode_with_byte_target (k v : Z) (i : ospfs_inode_t) :
  0 <= k ->
  oi_symlink (inode_with_byte (SYMLINK_START + k) v i)
  = <[k := v mod 256]> (oi_symlink i)
  /\ oi_size (inode_with_byte (SYMLINK_START + k) v i) = oi_size i
  /\ oi_ftype (inode_with_byte (SYMLINK_START + k) v i) = oi_ftype i
  /\ oi_nlink (inode_with_byte (SYMLINK_START + k) v i) = oi_nlink i.
Proof.
  intros Hk. unfold inode_with_byte, SYMLINK_START.
  destruct (Z.ltb_spec (12 + k) 4); [lia |].
  destruct (Z.ltb_spec (12 + k) 8); [lia |].
  destruct (Z.ltb_spec (12 + k) 12); [lia |].
  cbv zeta. replace (12 + k - 12) with k by lia.
  repeat match goal with
         | |- context [if ?b then _ else _] => destruct b
         end; cbn; auto.
Qed.

(** Stores that stay inside [oi_symlink]. *)
Lemma symlink_puts_spec (oi : Z) (bs : list Z) :
  forall k d d',
    0 <= k ->
    k + strlen bs - 1 <= OSPFS_MAXSYMLINKLEN ->
    symlink_puts oi k bs d = Done tt d' ->
    ospfs_super d' = ospfs_super d
    /\ oi_size (ospfs_inodes d' oi) = oi_size (ospfs_inodes d oi)
    /\ (forall j, oi_symlink (ospfs_inodes d' oi) j
                  = if (k <=? j) && (j <? k + strlen bs)
                    then nth (Z.to_nat (j - k)) bs 0 mod 256
                    else oi_symlink (ospfs_inodes d oi) j).
Proof.
  induction bs as [| b bs IH]; intros k d d' Hk0 Hfit H.
  - cbn in H. inversion H; subst. repeat split; try congruence.
    intros j. unfold strlen. cbn [length].
    destruct (Z.leb_spec k j), (Z.ltb_spec j (k + Z.of_nat 0)); try reflexivity; lia.
  - cbn [symlink_puts] in H. apply bind_Done_inv in H.
    destruct H as ([] & d1 & E & H).
    unfold strlen in Hfit. cbn [length] in Hfit.
    unfold symlink_put in E.
    destruct (Z.leb_spec 0 k); [| lia].
    destruct (Z.leb_spec k OSPFS_MAXSYMLINKLEN); [| lia].
    cbn [andb] in E. unfold oi_set in E. inversion E; subst d1; clear E.
    apply IH in H; [| lia | unfold strlen; lia].
    destruct H as (Hs & Hz & Ha).
    destruct (inode_with_byte_target k b (ospfs_inodes d oi) Hk0)
      as (Ty & Tz & _).
    cbn in Hs, Hz. rewrite fn_lookup_insert in Hz. rewrite Tz in Hz.
    unfold strlen in *. cbn [length].
    repeat split; try assumption.
    intros j. rewrite Ha. cbn [ospfs_inodes]. rewrite fn_lookup_insert.
    rewrite Ty.
    destruct (Z.leb_spec (k + 1) j), (Z.ltb_spec j (k + 1 + Z.of_nat (length bs))),
      (Z.leb_spec k j), (Z.ltb_spec j (k + Z.of_nat (S (length bs)))); cbn [andb]; try lia;
      try (replace (Z.to_nat (j - k)) with (S (Z.to_nat (j - (k + 1)))) by lia;
           reflexivity);
      try (rewrite fn_lookup_insert_ne by lia; reflexivity).
    assert (j = k) by lia. subst j.
    rewrite fn_lookup_insert. rewrite Z.sub_diag. reflexivity.
Qed.

Lemma cstring_read (m : Z -> Z) (s : list Z) :
  forall k a,
    (length s < k)%nat ->
    (forall i, (i < length s)%nat ->
               load8 m (a + Z.of_nat i) = nth i s 0 /\ nth i s 0 <> 0) ->
    load8 m (a + Z.of_nat (length s)) = 0 ->
    cstring k m a = Some s.
Proof.
  induction s as [| c s IH]; intros k a Hk Hs Hz.
  - destruct k; [lia |]. cbn [cstring]. cbn in Hz. rewrite Z.add_0_r in Hz.
    rewrite Hz. reflexivity.
  - destruct k; [cbn in Hk; lia |]. cbn [cstring].
    destruct (Hs 0%nat ltac:(cbn; lia)) as [H0 H0']. cbn in H0, H0'.
    rewrite Z.add_0_r in H0. rewrite H0.
    destruct (Z.eqb_spec c 0); [contradiction |].
    rewrite (IH k (a + 1)).
    + reflexivity.
    + cbn in Hk. lia.
    + intros i Hi. specialize (Hs (S i) ltac:(cbn; lia)). cbn [nth] in Hs.
      replace (a + 1 + Z.of_nat i) with (a + Z.of_nat (S i)) by lia. exact Hs.
    + replace (a + 1 + Z.of_nat (length s)) with (a + Z.of_nat (length (c :: s)))
        by (cbn [length]; lia). exact Hz.
Qed.



Lemma nth_char (s : list Z) (i : nat) :
  Forall is_char s -> (i < length s)%nat -> nth i s 0 mod 256 = nth i s 0 /\ nth i s 0 <> 0.
Proof.
  intros Hs Hi. rewrite Forall_forall in Hs.
  assert (H : is_char (nth i s 0)) by (apply Hs, nth_In, Hi).
  unfold is_char in H. split; [apply Z.mod_small |]; lia.
Qed.

Lemma skipn_Z_app {A} (p s : list A) :
  skipn (Z.to_nat (Z.of_nat (length p))) (p ++ s) = s.
Proof. rewrite Nat2Z.id. apply skipn_length_app. Qed.

(** What [symlink_encode] stores for a conditional target whose stored
    form fits [oi_symlink]. *)
Lemma symlink_encode_conditional (oi : Z) (prefix root other : list Z) (d d' : disk) :
  OSPFS_MAXSYMLINKLEN + 1 < 2 ^ 32 ->
  ~ In QMARK prefix -> ~ In COLON prefix -> ~ In COLON root ->
  Forall is_char root -> Forall is_char other ->
  strlen root + strlen other + 3 <= OSPFS_MAXSYMLINKLEN ->
  symlink_encode oi (conditional_target prefix root other) d = Done false d' ->
  let arr := oi_symlink (ospfs_inodes d' oi) in
  let n := strlen root in
  let m := strlen other in
  ospfs_super d' = ospfs_super d
  /\ oi_size (ospfs_inodes d' oi) = n + m + 3
  /\ n + m + 3 <= OSPFS_MAXSYMLINKLEN
  /\ arr 0 = QMARK
  /\ (forall i, (i < length root)%nat -> arr (1 + Z.of_nat i) = nth i root 0)
  /\ arr (n + 1) = 0
  /\ arr (n + 2) = COLON
  /\ (forall i, (i < length other)%nat -> arr (n + 3 + Z.of_nat i) = nth i other 0)
  /\ arr (n + m + 3) = 0.
Proof.
  intros Hmax Hq Hc Hr Hroot Hother Hfit H arr n m.
  fold n m in Hfit.
  assert (Hn : n = Z.of_nat (length root)) by reflexivity.
  assert (Hm : m = Z.of_nat (length other)) by reflexivity.
  assert (Hu : u32 (n + m + 3) = n + m + 3) by (apply u32_id; lia).
  unfold symlink_encode in H.
  rewrite (conditional_form_target prefix root other Hq Hc Hr) in H.
  unfold conditional_target in H.
  rewrite skipn_Z_app in H.
  replace (Z.of_nat (length prefix) + 1 + Z.of_nat (length root))
    with (Z.of_nat (length (prefix ++ QMARK :: root))) in H
    by (rewrite length_app; cbn [length]; lia).
  replace (prefix ++ QMARK :: root ++ COLON :: other)
    with ((prefix ++ QMARK :: root) ++ COLON :: other) in H
    by (rewrite <- app_assoc; reflexivity).
  rewrite skipn_Z_app in H.
  assert (Hlen1 : Z.of_nat (length (prefix ++ QMARK :: root)) - Z.of_nat (length prefix) + 1 = n + 2).
  { rewrite length_app. cbn [length]. unfold n, strlen. lia. }
  rewrite Hlen1 in H.
  assert (Hlen2 : strlen (COLON :: other) = m + 1).
  { unfold m, strlen. cbn [length]. lia. }
  assert (Hlen3 : strlen (QMARK :: root ++ COLON :: other) + 1 = n + m + 3).
  { unfold n, m, strlen. cbn [length]. rewrite length_app. cbn [length]. lia. }
  rewrite Hlen3, Hu in H.
  destruct (OSPFS_MAXNAMELEN <? n + 2 + strlen (COLON :: other)); [inversion H |].
  replace (n + 2 - 1) with (Z.of_nat (length (QMARK :: root))) in H
    by (unfold n, strlen; cbn [length]; lia).
  change (QMARK :: root ++ COLON :: other) with ((QMARK :: root) ++ COLON :: other) in H.
  rewrite strncpy_bytes_exact in H.
  rewrite strncpy_bytes_all in H.
  apply bind_Done_inv in H. destruct H as ([] & d1 & E1 & H).
  apply bind_Done_inv in H. destruct H as ([] & d2 & E2 & H).
  apply bind_Done_inv in H. destruct H as ([] & d3 & E3 & H).
  apply bind_Done_inv in H. destruct H as ([] & d4 & E4 & H).
  apply bind_Done_inv in H. destruct H as ([] & d5 & E5 & H).
  inversion H; subst d5; clear H.
  unfold oi_set in E1. inversion E1; subst d1; clear E1.
  apply symlink_puts_spec in E2;
    [| lia | unfold strlen; cbn [length]; lia].
  destruct E2 as (S2 & Z2 & A2).
  assert (E3' : symlink_puts oi (Z.of_nat (length (QMARK :: root))) [0] d2 = Done tt d3).
  { cbn [symlink_puts]. unfold bind. rewrite E3. reflexivity. }
  apply symlink_puts_spec in E3';
    [| lia | unfold strlen; cbn [length]; lia].
  destruct E3' as (S3 & Z3 & A3).
  apply symlink_puts_spec in E4;
    [| lia | unfold strlen; cbn [length]; lia].
  destruct E4 as (S4 & Z4 & A4).
  assert (E5' : symlink_puts oi (n + m + 3) [0] d4 = Done tt d').
  { cbn [symlink_puts]. unfold bind. rewrite E5. reflexivity. }
  apply symlink_puts_spec in E5';
    [| lia | unfold strlen; cbn [length]; lia].
  destruct E5' as (S5 & Z5 & A5).
  unfold strlen in A2, A3, A4, A5. cbn [length] in A2, A3, A4, A5.
  cbn [ospfs_super ospfs_inodes] in S2, Z2.
  rewrite fn_lookup_insert in Z2. cbn [oi_size with_size] in Z2.
  split; [congruence |]. split; [congruence |]. split; [lia |].
  assert (Hz : forall k, nth k [0] 0 mod 256 = 0).
  { intros [| [|]]; reflexivity. }
  assert (Harr : forall j, arr j =
     if (n + m + 3 <=? j) && (j <? n + m + 3 + 1) then 0
     else if (n + 2 <=? j) && (j <? n + 2 + Z.of_nat (S (length other)))
          then nth (Z.to_nat (j - (n + 2))) (COLON :: other) 0 mod 256
     else if (n + 1 <=? j) && (j <? n + 1 + 1) then 0
     else if (0 <=? j) && (j <? 0 + Z.of_nat (S (length root)))
          then nth (Z.to_nat (j - 0)) (QMARK :: root) 0 mod 256
     else oi_symlink (ospfs_inodes d oi) j).
  { intros j. unfold arr. rewrite A5, A4, A3, A2.
    cbn [ospfs_inodes]. rewrite fn_lookup_insert. cbn [oi_symlink with_size].
    rewrite !Hz. change (Z.of_nat 1) with 1.
    replace (Z.of_nat (S (length root))) with (n + 1) by lia.
    reflexivity. }
  repeat split.
  - rewrite Harr. decide_range. reflexivity.
  - intros i Hi. rewrite Harr. decide_range.
    replace (Z.to_nat (1 + Z.of_nat i - 0)) with (S i) by lia. cbn [nth].
    apply nth_char; assumption.
  - rewrite Harr. decide_range. reflexivity.
  - rewrite Harr. decide_range.
    replace (Z.to_nat (n + 2 - (n + 2))) with 0%nat by lia. reflexivity.
  - intros i Hi. rewrite Harr. decide_range.
    replace (Z.to_nat (n + 3 + Z.of_nat i - (n + 2))) with (S i) by lia. cbn [nth].
    apply nth_char; assumption.
  - rewrite Harr. decide_range. reflexivity.
Qed.


Lemma ospfs_mk_linux_inode_reads (ok : bool) (ino : Z) (b : bool)
    (d d' : disk) :
  ospfs_mk_linux_inode ok ino d = Done b d' -> d' = d.
Proof.
  intros H. unfold ospfs_mk_linux_inode in H. minv H; reflexivity.
Qed.

Lemma symlink_byte_inside (oi k : Z) (d : disk) :
  0 <= k <= OSPFS_MAXSYMLINKLEN ->
  symlink_byte oi k d = load8 (oi_symlink (ospfs_inodes d oi)) k.
Proof.
  intros Hk. unfold symlink_byte.
  destruct (Z.leb_spec 0 k); [| lia].
  destruct (Z.leb_spec k OSPFS_MAXSYMLINKLEN); [| lia].
  reflexivity.
Qed.

(** A string that ends inside [oi_symlink] is read as it stands. *)
Lemma symlink_string_read (oi k : Z) (s : list Z) (d : disk) :
  Forall is_char s ->
  0 <= k ->
  k + strlen s <= OSPFS_MAXSYMLINKLEN ->
  (forall i, (i < length s)%nat ->
             oi_symlink (ospfs_inodes d oi) (k + Z.of_nat i) = nth i s 0) ->
  oi_symlink (ospfs_inodes d oi) (k + strlen s) = 0 ->
  symlink_string oi k d = Done s d.
Proof.
  intros Hs Hk0 Hk Hb Hz. unfold symlink_string. cbv zeta.
  unfold strlen in Hk, Hz.
  rewrite (cstring_read _ s).
  - reflexivity.
  - lia.
  - intros i Hi. unfold load8 at 1.
    rewrite symlink_byte_inside by lia.
    unfold load8. rewrite (Hb i Hi).
    destruct (nth_char s i Hs Hi) as [E Hne]. rewrite !E. auto.
  - unfold load8 at 1. rewrite symlink_byte_inside by lia.
    unfold load8. rewrite Hz. reflexivity.
Qed.

(** What [ospfs_follow_link] yields on the stored form
    ["?" root "\0" ":" other "\0"]. *)
Lemma follow_link_conditional (ino uid : Z) (root other : list Z) (d : disk) :
  ino < os_ninodes (ospfs_super d) ->
  Forall is_char root -> Forall is_char other ->
  let arr := oi_symlink (ospfs_inodes d ino) in
  let n := strlen root in
  let m := strlen other in
  oi_size (ospfs_inodes d ino) = n + m + 3 ->
  n + m + 3 <= OSPFS_MAXSYMLINKLEN ->
  arr 0 = QMARK ->
  (forall i, (i < length root)%nat -> arr (1 + Z.of_nat i) = nth i root 0) ->
  arr (n + 1) = 0 ->
  arr (n + 2) = COLON ->
  (forall i, (i < length other)%nat ->
             arr (n + 3 + Z.of_nat i) = nth i other 0) ->
  arr (n + m + 3) = 0 ->
  ospfs_follow_link ino uid d
  = Done (inr (if uid =? 0 then root else other)) d.
Proof.
  intros Hino Hroot Hother arr n m Hsize Hmax H0 Hr Hz1 Hc Ho Hz2.
  subst arr.
  assert (Hn : 0 <= n) by (unfold n, strlen; lia).
  assert (Hm : 0 <= m) by (unfold m, strlen; lia).
  unfold ospfs_follow_link, bind, gets, ospfs_inode, oi_get.
  destruct (Z.leb_spec (os_ninodes (ospfs_super d)) ino); [lia |].
  cbn [deref ret gets].
  unfold load8 at 1. rewrite H0.
  change (QMARK mod 256 =? QMARK) with true. cbv iota.
  destruct (uid =? 0).
  - rewrite (symlink_string_read ino 1 root d); try assumption.
    + reflexivity.
    + lia.
    + fold n. lia.
    + fold n. replace (1 + n) with (n + 1) by lia. exact Hz1.
  - rewrite (symlink_string_read ino 0 (QMARK :: root) d).
    + assert (Hoff : strlen (QMARK :: root) = n + 1).
      { unfold n, strlen. cbn [length]. lia. }
      rewrite Hoff, Hsize.
      rewrite symlink_byte_inside by lia.
      unfold load8. replace (n + 1 + 1) with (n + 2) by lia. rewrite Hc.
      change (COLON mod 256 =? COLON) with true. cbn [negb orb].
      destruct (Z.leb_spec (n + m + 3) (n + 1)); [lia |].
      rewrite (symlink_string_read ino (n + 1 + 2) other d); try assumption.
      * reflexivity.
      * lia.
      * fold m. lia.
      * intros i Hi. replace (n + 1 + 2 + Z.of_nat i)
          with (n + 3 + Z.of_nat i) by lia. apply Ho, Hi.
      * fold m. replace (n + 1 + 2 + m) with (n + m + 3) by lia.
        exact Hz2.
    + constructor; [unfold is_char, QMARK; lia | exact Hroot].
    + lia.
    + unfold strlen. cbn [length]. fold n. unfold strlen in n. lia.
    + intros [| i] Hi; cbn [nth].
      * exact H0.
      * replace (0 + Z.of_nat (S i)) with (1 + Z.of_nat i) by lia.
        apply Hr. cbn [length] in Hi. lia.
    + unfold strlen. cbn [length]. fold n. unfold strlen in n.
      replace (0 + Z.of_nat (S (length root))) with (n + 1)
        by (unfold n; lia).
      exact Hz1.
Qed.

(** The conditional targets that fit.  When [ospfs_symlink] returns 0 for
    a target [<prefix>?<root_path>:<other_path>] whose stored form
    ["?" root_path "\0" ":" other_path "\0"] fits the
    [OSPFS_MAXSYMLINKLEN + 1] bytes of [oi_symlink],
    [ospfs_follow_link] on the new inode yields [root_path] for uid 0 and
    [other_path] for every other uid. *)
Lemma conditional_symlink_follows (new_inode_ok : bool) (dir_ino : Z)
    (name prefix root other : list Z) (ino uid : Z) (d d' : disk) :
  OSPFS_MAXSYMLINKLEN + 1 < 2 ^ 32 ->
  ~ In QMARK prefix -> ~ In COLON prefix -> ~ In COLON root ->
  Forall is_char root -> Forall is_char other ->
  strlen root + strlen other + 3 <= OSPFS_MAXSYMLINKLEN ->
  ospfs_symlink new_inode_ok dir_ino name
    (conditional_target prefix root other) d = Done (0, Some ino) d' ->
  ospfs_follow_link ino uid d'
  = Done (inr (if uid =? 0 then root else other)) d'.
Proof.
  intros Hmax Hq Hc Hr Hroot Hother Hfit H.
  unfold ospfs_symlink in H. minv H.
  unfold ospfs_inode in E5.
  destruct (Z.leb_spec (os_ninodes (ospfs_super d1)) (find_free_inode d1));
    [discriminate E5 |].
  inversion E5; subst z; clear E5.
  set (ino := find_free_inode d1) in *.
  apply frame_create_blank_direntry, inode_frame_super in E6.
  apply symlink_encode_conditional in E8; try assumption.
  destruct E8 as (S3 & Hsize & Hlen & H0 & Hroot' & Hz1 & Hcol & Hother' & Hz2).
  apply ospfs_mk_linux_inode_reads in E16. subst d'.
  unfold oi_set in E10, E11, E15. unfold wr8 in E13. unfold wr32 in E14.
  inversion E10; subst d4; clear E10.
  inversion E11; subst d5; clear E11.
  inversion E12; subst d6; clear E12.
  inversion E13; subst d7; clear E13.
  inversion E14; subst d8; clear E14.
  inversion E15; subst d9; clear E15.
  assert (Hsym : forall f : ospfs_inode_t -> ospfs_inode_t,
             (forall i, oi_symlink (f i) = oi_symlink i
                        /\ oi_size (f i) = oi_size i) ->
             True) by auto.
  apply follow_link_conditional; try assumption.
  - cbn. unfold same_super in E6. rewrite S3, E6. assumption.
  - cbn. destruct (decide (a = ino)) as [-> | Hne].
    + rewrite !fn_lookup_insert. cbn. exact Hsize.
    + rewrite fn_lookup_insert_ne by exact Hne.
      rewrite !fn_lookup_insert. cbn. exact Hsize.
  - cbn. destruct (decide (a = ino)) as [-> | Hne].
    + rewrite !fn_lookup_insert. cbn. exact H0.
    + rewrite fn_lookup_insert_ne by exact Hne.
      rewrite !fn_lookup_insert. cbn. exact H0.
  - cbn. destruct (decide (a = ino)) as [-> | Hne].
    + rewrite !fn_lookup_insert. cbn. exact Hroot'.
    + rewrite fn_lookup_insert_ne by exact Hne.
      rewrite !fn_lookup_insert. cbn. exact Hroot'.
  - cbn. destruct (decide (a = ino)) as [-> | Hne].
    + rewrite !fn_lookup_insert. cbn. exact Hz1.
    + rewrite fn_lookup_insert_ne by exact Hne.
      rewrite !fn_lookup_insert. cbn. exact Hz1.
  - cbn. destruct (decide (a = ino)) as [-> | Hne].
    + rewrite !fn_lookup_insert. cbn. exact Hcol.
    + rewrite fn_lookup_insert_ne by exact Hne.
      rewrite !fn_lookup_insert. cbn. exact Hcol.
  - cbn. destruct (decide (a = ino)) as [-> | Hne].
    + rewrite !fn_lookup_insert. cbn. exact Hother'.
    + rewrite fn_lookup_insert_ne by exact Hne.
      rewrite !fn_lookup_insert. cbn. exact Hother'.
  - cbn. destruct (decide (a = ino)) as [-> | Hne].
    + rewrite !fn_lookup_insert. cbn. exact Hz2.
    + rewrite fn_lookup_insert_ne by exact Hne.
      rewrite !fn_lookup_insert. cbn. exact Hz2.
Qed.
End Symlink.

(** ** unlink *)

(** ** Byte memory *)

Lemma load8_store8 (m : Z -> Z) (a v x : Z) :
  load8 (store8 m a v) x = if decide (a = x) then v mod 256 else load8 m x.
Proof.
  unfold load8, store8. destruct (decide (a = x)) as [-> | Hne].
  - rewrite fn_lookup_insert. apply Z.mod_mod. lia.
  - rewrite fn_lookup_insert_ne by exact Hne. reflexivity.
Qed.

Lemma load8_store32_other (m : Z -> Z) (a v x : Z) :
  x < a \/ a + 4 <= x -> load8 (store32 m a v) x = load8 m x.
Proof.
  intros Hx. unfold store32. rewrite !load8_store8.
  repeat (destruct (decide _); [lia |]). reflexivity.
Qed.

Lemma load8_store32_zero (m : Z -> Z) (a x : Z) :
  load8 m x = 0 -> load8 (store32 m a 0) x = 0.
Proof.
  intros Hx. unfold store32. rewrite !load8_store8.
  repeat (destruct (decide _); [reflexivity |]). exact Hx.
Qed.

Lemma load32_store32 (m : Z -> Z) (a v : Z) : load32 (store32 m a v) a = u32 v.
Proof.
  unfold load32, store32. rewrite !load8_store8.
  repeat match goal with
         | |- context [decide (?x = ?y)] => destruct (decide (x = y)); try lia
         end.
  unfold u32.
  change (2 ^ 32) with (2 ^ 8 * (2 ^ 8 * (2 ^ 8 * 2 ^ 8))).
  change (2 ^ 16) with (2 ^ 8 * 2 ^ 8).
  change (2 ^ 24) with (2 ^ 8 * (2 ^ 8 * 2 ^ 8)).
  change 256 with (2 ^ 8).
  rewrite <- !Z.div_div by lia.
  rewrite !(Z.rem_mul_r _ (2 ^ 8)) by lia.
  lia.
Qed.

Lemma bit_cleared (w k : Z) :
  0 <= k < 32 ->
  Z.land (u32 (Z.land w (u32 (Z.lnot (Z.shiftl 1 k))))) (u32 (Z.shiftl 1 k)) = 0.
Proof.
  intros Hk. unfold u32.
  apply Z.bits_inj'. intros i Hi.
  rewrite Z.land_spec, Z.bits_0.
  destruct (Z.lt_ge_cases i 32) as [Hlt | Hge].
  - rewrite !Z.mod_pow2_bits_low by lia.
    rewrite Z.land_spec. rewrite Z.mod_pow2_bits_low by lia.
    rewrite Z.lnot_spec by lia.
    destruct (Z.testbit (Z.shiftl 1 k) i); cbn; rewrite ?andb_false_r; reflexivity.
  - rewrite !Z.mod_pow2_bits_high by lia. reflexivity.
Qed.

Lemma zero_stays_preorder : PreOrder zero_stays.
Proof.
  split.
  - intros d. split; auto.
  - intros a b c (S1 & H1) (S2 & H2). split; [congruence |].
    intros Hn x Hx Hz. rewrite S1 in H2. apply H2; auto.
Qed.

#[global] Hint Resolve zero_stays_preorder : keeps.

Section Unlink.
Context {hdr : ospfs_h}.

Lemma zero_stays_oi_set (f : ospfs_inode_t -> ospfs_inode_t) (oi : Z) :
  keeps zero_stays (oi_set f oi).
Proof. intros d x d' H. inversion H; subst. split; cbn; auto. Qed.

Lemma zero_stays_wr32_zero (a : Z) : keeps zero_stays (wr32 a 0).
Proof.
  intros d x d' H. inversion H; subst. split; [reflexivity |].
  intros _ y _ Hy. cbn. apply load8_store32_zero, Hy.
Qed.

Lemma zero_stays_free_block (b : Z) : keeps zero_stays (free_block b).
Proof.
  intros d x d' H. unfold free_block, bind, gets in H.
  destruct (Z.leb_spec (os_ninodes (ospfs_super d)) b) as [| Hb1];
    [inversion H; subst; apply zero_stays_preorder |].
  destruct (Z.leb_spec b (u32 (os_firstinob (ospfs_super d) + OSPFS_BLKINODES)))
    as [| Hb2]; [inversion H; subst; apply zero_stays_preorder |].
  cbn [orb] in H. unfold bitvector_set, bind, rd32, gets, wr32 in H.
  inversion H; subst d'; clear H. split; [reflexivity |].
  intros Hn y Hy Hz. cbn.
  pose proof (u32_range (os_firstinob (ospfs_super d) + OSPFS_BLKINODES)) as Hu.
  assert (Hs : s32 b = b).
  { unfold s32. rewrite Z.mod_small by lia.
    destruct (Z.ltb_spec b (2 ^ 31)); lia. }
  rewrite Hs. rewrite Z.quot_div_nonneg by lia.
  rewrite load8_store32_other; [exact Hz |].
  assert (Hq : 0 <= b / 32 <= os_ninodes (ospfs_super d) / 32).
  { split; [apply Z.div_pos; lia | apply Z.div_le_mono; lia]. }
  unfold outside_freemap in Hy. lia.
Qed.

#[local] Hint Resolve zero_stays_oi_set zero_stays_wr32_zero
  zero_stays_free_block : keeps.

Lemma zero_stays_remove_block (oi : Z) : keeps zero_stays (remove_block oi).
Proof. unfold remove_block. keeps_auto. Qed.

#[local] Hint Resolve zero_stays_remove_block : keeps.

Lemma zero_stays_shrink_loop (oi : Z) (fuel : nat) (new_size : Z) :
  keeps zero_stays (shrink_loop fuel oi new_size).
Proof. induction fuel; cbn [shrink_loop]; keeps_auto. Qed.


Lemma free_block_runs (b : Z) (d : disk) :
  exists d', free_block b d = Done tt d'
             /\ ospfs_inodes d' = ospfs_inodes d
             /\ ospfs_super d' = ospfs_super d.
Proof.
  unfold free_block, bind, gets.
  destruct ((os_ninodes (ospfs_super d) <=? b) || (b <=? u32 (os_firstinob (ospfs_super d) + OSPFS_BLKINODES))).
  - exists d. auto.
  - unfold bitvector_set, bind, rd32, gets, wr32. eexists. split; [reflexivity |]. auto.
Qed.

Lemma nblocks_range (size : Z) : 0 <= ospfs_size2nblocks size < 2 ^ 22.
Proof.
  unfold ospfs_size2nblocks, OSPFS_BLKSIZE.
  pose proof (u32_range (size + 1024 - 1)) as H.
  split.
  - apply Z.div_pos; lia.
  - apply Z.div_lt_upper_bound; lia.
Qed.

Lemma nblocks_of_blocks (n : Z) :
  0 <= n < 2 ^ 22 ->
  ospfs_size2nblocks (u32 (n * OSPFS_BLKSIZE)) = n.
Proof.
  intros Hn. unfold ospfs_size2nblocks, OSPFS_BLKSIZE.
  rewrite (u32_id (n * 1024)) by lia.
  rewrite u32_id by lia.
  replace (n * 1024 + 1024 - 1) with (1023 + n * 1024) by lia.
  rewrite Z.div_add by lia. reflexivity.
Qed.

(** [remove_block] always returns.  It returns 0 or [-EIO]; [-EIO] only
    for a zero direct pointer or a zero [oi_indirect2]; and unless it
    reports [-EIO] or the file is empty, the file has one block less
    afterwards. *)
Lemma remove_block_runs (oi : Z) (d : disk) :
  let nb := ospfs_size2nblocks (oi_size (ospfs_inodes d oi)) in
  exists r d',
    remove_block oi d = Done r d'
    /\ (r = - EIO
        \/ nb = 0
        \/ ospfs_size2nblocks (oi_size (ospfs_inodes d' oi)) = nb - 1)
    /\ (r = 0
        \/ (r = - EIO
            /\ ((indir_index (nb - 1) = -1
                 /\ oi_direct (ospfs_inodes d oi) (direct_index (nb - 1)) = 0)
                \/ (indir2_index (nb - 1) = 0
                    /\ oi_indirect2 (ospfs_inodes d oi) = 0)))).
Proof.
  intros nb. subst nb.
  pose proof (nblocks_range (oi_size (ospfs_inodes d oi))) as Hn.
  unfold remove_block.
  unfold bind at 1. unfold oi_get at 1, gets at 1.
  destruct (Z.eqb_spec (ospfs_size2nblocks (oi_size (ospfs_inodes d oi))) 0)
    as [E0 | E0].
  { eexists _, _. split; [reflexivity |]. split; auto 8. }
  set (n := ospfs_size2nblocks (oi_size (ospfs_inodes d oi)) - 1) in *.
  assert (Hsz : ospfs_size2nblocks (u32 (n * OSPFS_BLKSIZE)) = n).
  { apply nblocks_of_blocks. lia. }
  cbv zeta.
  destruct (Z.eqb_spec (indir_index n) (-1)) as [Ei | Ei].
  - unfold bind at 1. unfold oi_get at 1, gets at 1.
    destruct (Z.eqb_spec (oi_direct (ospfs_inodes d oi) (direct_index n)) 0)
      as [Ed | Ed].
    { eexists _, _. split; [reflexivity |]. split; auto 8. }
    unfold bind at 1.
    destruct (free_block_runs
                (oi_direct (ospfs_inodes d oi) (direct_index n)) d)
      as (d1 & -> & I1 & S1).
    unfold bind, oi_set, ret. eexists _, _. split; [reflexivity |].
    split; [| left; reflexivity].
    right. right. cbn. rewrite !fn_lookup_insert. cbn. exact Hsz.
  - unfold bind at 1. unfold oi_get at 1, gets at 1.
    destruct ((indir2_index n =? 0)
              && (oi_indirect2 (ospfs_inodes d oi) =? 0)) eqn:E2.
    { apply andb_true_iff in E2. destruct E2 as [E2 E3].
      apply Z.eqb_eq in E2, E3.
      eexists _, _. split; [reflexivity |]. split; auto 8. }
    set (pre := if indir2_index n =? 0 then gets _ else oi_get oi_indirect oi).
    assert (Hpre : exists v, pre d = Done v d).
    { subst pre. destruct (indir2_index n =? 0); eexists; reflexivity. }
    destruct Hpre as (v & Hpre).
    unfold bind at 1. rewrite Hpre.
    unfold bind at 1. unfold gets at 1.
    unfold bind at 1.
    destruct (free_block_runs (word_at (ospfs_block v) (direct_index n) d) d)
      as (d1 & -> & I1 & S1).
    unfold bind at 1. unfold wr32 at 1.
    unfold bind at 1. unfold oi_set at 1.
    match goal with
    | |- context [if direct_index n =? 0 then _ else _] =>
        destruct (direct_index n =? 0)
    end.
    + unfold bind at 1.
      match goal with
      | |- context [free_block v ?dd] =>
          destruct (free_block_runs v dd) as (d2 & -> & I2 & S2)
      end.
      unfold bind at 1.
      match goal with
      | |- context [(if ?b then oi_set ?f ?o else wr32 ?a ?w) d2] =>
          assert (Hx : exists d3,
                     (if b then oi_set f o else wr32 a w) d2 = Done tt d3
                     /\ oi_size (ospfs_inodes d3 oi)
                        = oi_size (ospfs_inodes d2 oi))
      end.
      { destruct (indir2_index n =? -1); eexists; (split; [reflexivity |]).
        - cbn. rewrite fn_lookup_insert. reflexivity.
        - reflexivity. }
      destruct Hx as (d3 & -> & Z3).
      match goal with |- context [if ?b then _ else _] => destruct b end.
      * unfold bind at 1.
        match goal with
        | |- context [free_block ?x d3] =>
            destruct (free_block_runs x d3) as (d4 & -> & I4 & S4)
        end.
        unfold bind, oi_set, ret. eexists _, _. split; [reflexivity |].
        split; [| left; reflexivity].
        right. right. cbn. rewrite fn_lookup_insert. cbn.
        rewrite I4, Z3, I2. cbn.
        rewrite fn_lookup_insert. cbn. exact Hsz.
      * eexists _, _. split; [reflexivity |].
        split; [| left; reflexivity].
        right. right. rewrite Z3, I2. cbn. rewrite fn_lookup_insert. cbn.
        exact Hsz.
    + eexists _, _. split; [reflexivity |].
      split; [| left; reflexivity].
      right. right. cbn. rewrite fn_lookup_insert. cbn. exact Hsz.
Qed.

(** A file whose last block lies under the indirect block: [remove_block]
    returns 0 whether or not [oi_indirect] is zero, because the pointer
    [ospfs_block] computes is never NULL. *)
Lemma remove_block_indirect_returns_ok (oi : Z) (d : disk) :
  OSPFS_NDIRECT
  <= ospfs_size2nblocks (oi_size (ospfs_inodes d oi)) - 1
  < OSPFS_NDIRECT + OSPFS_NINDIRECT ->
  exists d', remove_block oi d = Done 0 d'.
Proof.
  intros Hn.
  destruct (remove_block_runs oi d) as (r & d' & E & _ & Hr).
  exists d'. rewrite E. f_equal.
  destruct Hr as [-> | (_ & [[Hi _] | [Hi _]])]; [reflexivity | |]; exfalso;
    revert Hi; unfold indir_index, indir2_index;
    repeat match goal with
           | |- context [?a <? ?b] => destruct (Z.ltb_spec a b); try lia
           end;
    cbn; try discriminate; lia.
Qed.

Lemma shrink_loop_runs (oi new_size : Z) (fuel : nat) :
  forall d,
    (Z.to_nat (ospfs_size2nblocks (oi_size (ospfs_inodes d oi))) < fuel)%nat ->
    exists s d', shrink_loop fuel oi new_size d = Done s d'.
Proof.
  induction fuel as [| fuel IH]; intros d Hf; [lia |].
  cbn [shrink_loop]. unfold bind at 1. unfold oi_get at 1, gets at 1.
  pose proof (nblocks_range new_size) as Hnew.
  destruct (Z.ltb_spec (ospfs_size2nblocks new_size)
              (ospfs_size2nblocks (oi_size (ospfs_inodes d oi)))) as [Hlt | Hge].
  - destruct (remove_block_runs oi d) as (r & d1 & E & Hr & _).
    unfold bind. rewrite E.
    destruct (Z.eqb_spec r (- EIO)) as [-> | Hne].
    + eexists _, _. reflexivity.
    + apply IH. destruct Hr as [Hr | [Hr | Hr]]; [contradiction | lia |].
      rewrite Hr. lia.
  - eexists _, _. reflexivity.
Qed.

Lemma grow_loop_zero (fuel : nat) (oi old_size r : Z) (d : disk) :
  grow_loop (S fuel) oi 0 old_size r d = Done (inr (r, 0)) d.
Proof.
  cbn [grow_loop]. unfold bind, oi_get, gets.
  pose proof (nblocks_range (oi_size (ospfs_inodes d oi))) as Hn.
  change (ospfs_size2nblocks 0) with 0.
  destruct (Z.ltb_spec (ospfs_size2nblocks (oi_size (ospfs_inodes d oi))) 0);
    [lia | reflexivity].
Qed.

(** Truncation to size 0 always returns; it touches no other inode and
    leaves zero bytes outside the bitmap zero. *)
Lemma change_size_zero_runs (oi : Z) (d : disk) :
  exists r d', change_size oi 0 d = Done r d'
               /\ inode_frame oi d d' /\ zero_stays d d'.
Proof.
  assert (Hrun : exists r d', change_size oi 0 d = Done r d' /\ zero_stays d d').
  { unfold change_size. unfold bind at 1. unfold oi_get at 1, gets at 1.
    unfold bind at 1. rewrite grow_loop_zero.
    unfold bind at 1. unfold oi_get at 1, gets at 1.
    destruct (shrink_loop_runs oi 0
                (S (Z.to_nat (ospfs_size2nblocks (oi_size (ospfs_inodes d oi)))))
                d ltac:(lia)) as (s & d1 & E).
    unfold bind at 1. rewrite E.
    pose proof (zero_stays_shrink_loop oi _ 0 d s d1 E) as Hz.
    destruct s as [r' |].
    - eexists _, _. split; [reflexivity | exact Hz].
    - eexists _, _. split; [reflexivity |].
      destruct Hz as (Hs & Hz). split; [exact Hs | exact Hz]. }
  destruct Hrun as (r & d' & E & Hz).
  exists r, d'. split; [exact E |]. split; [| exact Hz].
  eapply frame_change_size. exact E.
Qed.

(** Whatever [free_block] is asked to free at or above the inode count, or
    at or below [os_firstinob + OSPFS_BLKINODES], it leaves allocated. *)
Lemma free_block_refuses (b : Z) (d : disk) :
  os_ninodes (ospfs_super d) <= b
  \/ b <= u32 (os_firstinob (ospfs_super d) + OSPFS_BLKINODES) ->
  free_block b d = Done tt d.
Proof.
  intros Hb. unfold free_block, bind, gets.
  destruct (Z.leb_spec (os_ninodes (ospfs_super d)) b);
    [reflexivity |].
  destruct (Z.leb_spec b
              (u32 (os_firstinob (ospfs_super d) + OSPFS_BLKINODES)));
    [reflexivity | lia].
Qed.

Lemma grow_loop_returns_eio (oi new_size old_size : Z) (fuel : nat) :
  forall r0 d r d',
    grow_loop fuel oi new_size old_size r0 d = Done (inl r) d' -> r = - EIO.
Proof.
  induction fuel as [| fuel IH]; intros r0 d r d' H; cbn [grow_loop] in H.
  - discriminate H.
  - minv H; try discriminate; eauto.
Qed.

Lemma grow_loop_enospc (oi new_size old_size : Z) (fuel : nat) :
  forall r0 d r size d',
    grow_loop fuel oi new_size old_size r0 d = Done (inr (r, size)) d' ->
    r0 <> - ENOSPC -> r = - ENOSPC -> size = old_size.
Proof.
  induction fuel as [| fuel IH]; intros r0 d r size d' H Hr0 Hr;
    cbn [grow_loop] in H.
  - discriminate H.
  - minv H; try discriminate.
    + reflexivity.
    + apply Z.eqb_neq in E1. eapply IH; eassumption.
    + contradiction.
Qed.

Lemma shrink_loop_returns_eio (oi new_size : Z) (fuel : nat) :
  forall d r d',
    shrink_loop fuel oi new_size d = Done (Some r) d' -> r = - EIO.
Proof.
  induction fuel as [| fuel IH]; intros d r d' H; cbn [shrink_loop] in H.
  - discriminate H.
  - minv H; try discriminate; eauto.
Qed.

(** The part of the rollback that holds: a [change_size] that reports
    [-ENOSPC] leaves [oi_size] as it found it. *)
Lemma change_size_enospc_restores_size (oi new_size r : Z) (d d' : disk) :
  change_size oi new_size d = Done r d' ->
  r = - ENOSPC ->
  oi_size (ospfs_inodes d' oi) = oi_size (ospfs_inodes d oi).
Proof.
  intros H Hr. subst r. unfold change_size in H. minv H.
  - apply grow_loop_returns_eio in E. discriminate E.
  - match goal with
    | Hs : shrink_loop _ _ _ _ = Done (Some _) _ |- _ =>
        apply shrink_loop_returns_eio in Hs; discriminate Hs
    end.
  - apply grow_loop_enospc in E; [| discriminate | reflexivity]. subst.
    match goal with
    | Hs : oi_set _ _ _ = Done _ _ |- _ =>
        unfold oi_set in Hs; inversion Hs; subst
    end.
    cbn. rewrite fn_lookup_insert. reflexivity.
Qed.

Lemma unlink_scan_finds (dir_oi : Z) (name : list Z) (k : Z) (d : disk) :
  0 < OSPFS_DIRENTRY_SIZE ->
  oi_size (ospfs_inodes d dir_oi) < 2 ^ 32 ->
  first_match dir_oi name k d ->
  forall (n : nat) (j : Z) (fuel : nat) (od : option Z),
    0 <= j -> j + Z.of_nat n = k -> (n < fuel)%nat ->
    unlink_scan fuel dir_oi name (j * OSPFS_DIRENTRY_SIZE) od d
    = Done (k * OSPFS_DIRENTRY_SIZE, Some (entry_addr dir_oi k d)) d.
Proof.
  intros Hds Hsize (Hk & Hin & Hhit & Hmiss).
  induction n as [| n IH]; intros j fuel od Hj Hjk Hf;
    (destruct fuel as [| fuel]; [lia |]);
    cbn [unlink_scan]; unfold bind at 1; unfold oi_get at 1, gets at 1.
  - assert (j = k) by lia. subst j.
    rewrite (u32_id (k * OSPFS_DIRENTRY_SIZE)) by nia.
    destruct (Z.ltb_spec (k * OSPFS_DIRENTRY_SIZE)
                (oi_size (ospfs_inodes d dir_oi))); [| lia].
    unfold bind at 1. unfold gets at 1. unfold bind at 1.
    fold (entry_addr dir_oi k d). rewrite Hhit. reflexivity.
  - assert (Hlt : j * OSPFS_DIRENTRY_SIZE < k * OSPFS_DIRENTRY_SIZE) by nia.
    rewrite (u32_id (j * OSPFS_DIRENTRY_SIZE)) by nia.
    destruct (Z.ltb_spec (j * OSPFS_DIRENTRY_SIZE)
                (oi_size (ospfs_inodes d dir_oi))); [| lia].
    unfold bind at 1. unfold gets at 1. unfold bind at 1.
    fold (entry_addr dir_oi j d). rewrite (Hmiss j) by lia.
    replace (j * OSPFS_DIRENTRY_SIZE + OSPFS_DIRENTRY_SIZE)
      with ((j + 1) * OSPFS_DIRENTRY_SIZE) by lia.
    apply IH; lia.
Qed.

Lemma load32_zero (m : Z -> Z) (a : Z) :
  (forall i, 0 <= i < 4 -> load8 m (a + i) = 0) -> load32 m a = 0.
Proof.
  intros H. unfold load32.
  rewrite <- (Z.add_0_r a) at 1.
  rewrite !H by lia. reflexivity.
Qed.

Lemma load8_store32_same_zero (m : Z -> Z) (a i : Z) :
  0 <= i < 4 -> load8 (store32 m a 0) (a + i) = 0.
Proof.
  intros Hi. unfold store32. rewrite !load8_store8.
  repeat (destruct (decide _); [reflexivity |]). lia.
Qed.


(** *** The allocator *)

Lemma bitvector_clear_test (fm i : Z) (d d' : disk) :
  0 <= i ->
  bitvector_clear fm i d = Done tt d' ->
  bitvector_test fm i d' = false /\ ospfs_super d' = ospfs_super d.
Proof.
  intros Hi H. unfold bitvector_clear, bind, rd32, gets, wr32 in H.
  inversion H; subst d'; clear H. split; [| reflexivity].
  unfold bitvector_test. cbn [ospfs_data set_data].
  rewrite load32_store32.
  rewrite bit_cleared; [reflexivity |].
  pose proof (Z.rem_bound_pos i 32 Hi ltac:(lia)). lia.
Qed.

Lemma allocate_block_from_found (fm : Z) (k : nat) :
  forall i b d d',
    0 < i -> i + Z.of_nat k <= 2 ^ 31 ->
    allocate_block_from k fm i d = Done b d' ->
    b = 0 /\ d' = d
    \/ (i <= b < i + Z.of_nat k
        /\ bitvector_test fm b d = true
        /\ bitvector_test fm b d' = false
        /\ ospfs_super d' = ospfs_super d).
Proof.
  induction k as [| k IH]; intros i b d d' Hi Hk H; cbn [allocate_block_from] in H.
  - inversion H; subst. left. auto.
  - assert (Hs : s32 i = i).
    { unfold s32. rewrite Z.mod_small by lia.
      destruct (Z.ltb_spec i (2 ^ 31)); lia. }
    rewrite Hs in H. unfold bind at 1 in H. unfold gets at 1 in H.
    destruct (bitvector_test fm i d) eqn:T.
    + apply bind_Done_inv in H. destruct H as ([] & d1 & E & H).
      inversion H; subst b d1; clear H.
      apply bitvector_clear_test in E; [| lia].
      right. repeat split; try lia; try assumption; apply E.
    + apply IH in H; [| lia | lia].
      destruct H as [H | (Hb & H)]; [left; exact H | right].
      split; [lia | exact H].
Qed.

(** A block number at or above the inode count that [allocate_block] hands
    out is lost: its bit was set, [allocate_block] clears it, and
    [free_block] leaves the image as it is. *)
Lemma allocate_free_high_block (d d1 : disk) (b : Z) :
  os_nblocks (ospfs_super d) <= 2 ^ 31 ->
  0 < os_ninodes (ospfs_super d) ->
  allocate_block d = Done b d1 ->
  os_ninodes (ospfs_super d) <= b ->
  block_is_free d b = true
  /\ free_block b d1 = Done tt d1
  /\ block_is_free d1 b = false.
Proof.
  intros Hn Hi H Hb. unfold allocate_block, bind, gets in H.
  apply allocate_block_from_found in H;
    [| reflexivity | unfold OSPFS_FREEMAP_BLK; lia].
  destruct H as [[-> ->] | (_ & T1 & T2 & Hs)]; [lia |].
  split; [exact T1 |]. split; [| exact T2].
  apply free_block_refuses. left. rewrite Hs. exact Hb.
Qed.

End Unlink.

(** ** The fuel of [change_size] *)

(** The loops of [change_size] are given as many rounds as the larger
    of the two block counts, plus one.  Every round of the grow loop
    that goes on adds exactly one block, so the rounds suffice. *)

Create HintDb fuel.

Section ChangeSizeFuel.
Context {hdr : ospfs_h}.


Lemma same_inodes_preorder : PreOrder same_inodes.
Proof.
  split.
  - intros d. reflexivity.
  - intros a b c H1 H2. unfold same_inodes in *. congruence.
Qed.

#[local] Hint Resolve same_inodes_preorder : keeps.

Lemma same_inodes_wr32 a v : keeps same_inodes (wr32 a v).
Proof. intros d x d' H. inversion H; subst. reflexivity. Qed.

Lemma same_inodes_zero_block a : keeps same_inodes (zero_block a).
Proof. intros d x d' H. inversion H; subst. reflexivity. Qed.

#[local] Hint Resolve same_inodes_wr32 same_inodes_zero_block : keeps.
Lemma same_inodes_bitvector_set v i : keeps same_inodes (bitvector_set v i).
Proof. unfold bitvector_set. keeps_auto. Qed.

Lemma same_inodes_bitvector_clear v i : keeps same_inodes (bitvector_clear v i).
Proof. unfold bitvector_clear. keeps_auto. Qed.

#[local] Hint Resolve same_inodes_bitvector_set same_inodes_bitvector_clear : keeps.
Lemma same_inodes_free_block b : keeps same_inodes (free_block b).
Proof. unfold free_block. keeps_auto. Qed.

Lemma same_inodes_allocate_block_from k fm i : keeps same_inodes (allocate_block_from k fm i).
Proof. revert i. induction k; intros i; cbn [allocate_block_from]; keeps_auto. Qed.

#[local] Hint Resolve same_inodes_free_block same_inodes_allocate_block_from : keeps.
Lemma same_inodes_allocate_block : keeps same_inodes allocate_block.
Proof. unfold allocate_block. keeps_auto. Qed.

#[local] Hint Resolve same_inodes_allocate_block : keeps.
Lemma same_inodes_err_handle a b r : keeps same_inodes (err_handle a b r).
Proof. unfold err_handle. keeps_auto. Qed.

Lemma same_inodes_store_new_block p i : keeps same_inodes (store_new_block p i).
Proof. unfold store_new_block. keeps_auto. Qed.

(** Replaces the runs of the primitives among the hypotheses by what they
    say about the inode table. *)
Ltac inodes_of_runs :=
  repeat match goal with
  | E : oi_set _ _ _ = Done _ _ |- _ =>
      unfold oi_set in E; inversion E; subst; clear E
  | E : zero_block _ _ = Done _ _ |- _ => apply same_inodes_zero_block in E
  | E : wr32 _ _ _ = Done _ _ |- _ => apply same_inodes_wr32 in E
  | E : allocate_block _ = Done _ _ |- _ => apply same_inodes_allocate_block in E
  | E : free_block _ _ = Done _ _ |- _ => apply same_inodes_free_block in E
  | E : err_handle _ _ _ _ = Done _ _ |- _ => apply same_inodes_err_handle in E
  | E : store_new_block _ _ _ = Done _ _ |- _ => apply same_inodes_store_new_block in E
  | E : Done _ _ = Done _ _ |- _ => inversion E; subst; clear E
  | E : ret _ _ = Done _ _ |- _ => unfold ret in E
  | E : gets _ _ = Done _ _ |- _ => unfold gets in E
  | E : oops _ = Done _ _ |- _ => discriminate E
  | E : (if ?b then _ else _) _ = Done _ _ |- _ => destruct b
  | E : match ?x with _ => _ end _ = Done _ _ |- _ => destruct x
  end.

Lemma err_handle_returns (a2 a1 r r' : Z) (d d' : disk) :
  err_handle a2 a1 r d = Done r' d' -> r' = r.
Proof.
  intros H. unfold err_handle in H. minv H; reflexivity.
Qed.

Ltac size_leaf :=
  right; right; split; [reflexivity |];
  unfold same_inodes in *;
  repeat (cbn [ospfs_inodes ospfs_super ospfs_data oi_size with_size
               with_direct with_indirect with_indirect2 set_data] in *;
          rewrite ?fn_lookup_insert;
          try match goal with
              | E : ospfs_inodes _ = _ |- _ => rewrite E; clear E
              end);
  reflexivity.

Lemma add_block_returns (oi : Z) (d d' : disk) (r : Z) :
  add_block oi d = Done r d' ->
  r = - ENOSPC \/ r = - EIO
  \/ (r = 0
      /\ oi_size (ospfs_inodes d' oi)
         = u32 ((ospfs_size2nblocks (oi_size (ospfs_inodes d oi)) + 1)
                * OSPFS_BLKSIZE)).
Proof.
  intros H. unfold add_block in H. cbv zeta in H.
  minv H.
  all: try match goal with
           | E : err_handle _ _ _ _ = Done _ _ |- _ =>
               apply err_handle_returns in E; subst; left; reflexivity
           end.
  all: try (left; reflexivity).
  all: try (right; left; reflexivity).
  all: inodes_of_runs.
  all: size_leaf.
Qed.


Lemma fuel_suffices_bind {A B : Type} (c : M A) (k : A -> M B) :
  fuel_suffices c -> (forall a, fuel_suffices (k a)) ->
  fuel_suffices (bind c k).
Proof.
  intros Hc Hk d. unfold bind. specialize (Hc d).
  destruct (c d) as [a d1 | |]; [apply Hk | discriminate | contradiction].
Qed.

Lemma fuel_suffices_total {A : Type} (c : M A) :
  (forall d, exists a d', c d = Done a d') -> fuel_suffices c.
Proof. intros H d. destruct (H d) as (a & d' & ->). discriminate. Qed.

Ltac fuel_step :=
  lazymatch goal with
  | |- forall _, _ => intros ?
  | |- fuel_suffices (bind _ _) => apply fuel_suffices_bind
  | |- fuel_suffices (if ?b then _ else _) => destruct b
  | |- fuel_suffices (match ?x with _ => _ end) => destruct x
  | |- fuel_suffices _ =>
      first [ solve [eauto with fuel]
            | solve [intros ?;
                     cbv [ret gets oi_get oi_set rd32 wr32 wr8 zero_block
                          oops];
                     discriminate] ]
  end.

Ltac fuel_auto := repeat (cbv zeta; fuel_step).

Lemma fuel_allocate_block_from (k : nat) (fm i : Z) :
  fuel_suffices (allocate_block_from k fm i).
Proof.
  revert i.
  induction k; intros i; cbn [allocate_block_from]; unfold bitvector_clear;
    fuel_auto.
Qed.

#[local] Hint Resolve fuel_allocate_block_from : fuel.

Lemma fuel_allocate_block : fuel_suffices allocate_block.
Proof. unfold allocate_block. fuel_auto. Qed.

Lemma fuel_free_block (b : Z) : fuel_suffices (free_block b).
Proof. unfold free_block, bitvector_set. fuel_auto. Qed.

#[local] Hint Resolve fuel_allocate_block fuel_free_block : fuel.

Lemma fuel_add_block (oi : Z) : fuel_suffices (add_block oi).
Proof. unfold add_block, err_handle, store_new_block. fuel_auto. Qed.

Lemma fuel_grow_loop (oi new_size old_size : Z) (fuel : nat) :
  forall r0 d,
    (Z.to_nat (ospfs_size2nblocks new_size
               - ospfs_size2nblocks (oi_size (ospfs_inodes d oi))) < fuel)%nat ->
    grow_loop fuel oi new_size old_size r0 d <> Fuel.
Proof.
  induction fuel as [| fuel IH]; intros r0 d Hf; [lia |].
  cbn [grow_loop]. unfold bind at 1. unfold oi_get at 1, gets at 1.
  pose proof (nblocks_range new_size) as Hnew.
  pose proof (nblocks_range (oi_size (ospfs_inodes d oi))) as Hcur.
  destruct (Z.ltb_spec (ospfs_size2nblocks (oi_size (ospfs_inodes d oi)))
              (ospfs_size2nblocks new_size)) as [Hlt | Hge];
    [| discriminate].
  unfold bind.
  pose proof (fuel_add_block oi d) as Hadd.
  destruct (add_block oi d) as [r d1 | |] eqn:E;
    [| discriminate | contradiction].
  destruct (Z.eqb_spec r (- ENOSPC)); [discriminate |].
  destruct (Z.eqb_spec r (- EIO)); [discriminate |].
  apply IH.
  destruct (add_block_returns oi d d1 r E) as [? | [? | [_ Hsz]]];
    [contradiction | contradiction |].
  rewrite Hsz, nblocks_of_blocks by lia. lia.
Qed.

(** X28.  The loops of [change_size] end: growing takes at most
    [ospfs_size2nblocks new_size] calls of [add_block] and shrinking at
    most [ospfs_size2nblocks size] calls of [remove_block], so no run of
    [change_size] is cut short for lack of iterations. *)
Lemma fuel_change_size (oi new_size : Z) :
  fuel_suffices (change_size oi new_size).
Proof.
  intros d. unfold change_size.
  unfold bind at 1. unfold oi_get at 1, gets at 1.
  unfold bind at 1.
  pose proof (nblocks_range new_size) as Hnew.
  pose proof (nblocks_range (oi_size (ospfs_inodes d oi))) as Hcur.
  pose proof (fuel_grow_loop oi new_size (oi_size (ospfs_inodes d oi))
                (S (Z.to_nat (ospfs_size2nblocks new_size))) 0 d
                ltac:(lia)) as Hg.
  destruct (grow_loop _ _ _ _ _ _) as [[r | [r size]] d1 | |];
    [discriminate | | discriminate | contradiction].
  unfold bind at 1. unfold oi_get at 1, gets at 1.
  destruct (shrink_loop_runs oi size
              (S (Z.to_nat (ospfs_size2nblocks (oi_size (ospfs_inodes d1 oi)))))
              d1 ltac:(lia)) as (s & d2 & E).
  unfold bind at 1. rewrite E.
  destruct s; discriminate.
Qed.

End ChangeSizeFuel.

(** ** readdir *)

(** Rewrites with the decided test [E] and reduces what it frees. *)
Ltac settle E :=
  repeat first [ progress rewrite E | progress cbn [andb]
               | progress cbv beta iota zeta ].

Section ReaddirRuns.
Context {hdr : ospfs_h} {C : Type} (filldir : C -> emitted -> Z * C).
Context (d : disk) (dir_ino parent_ino : Z).
Hypothesis Hds : 4 <= OSPFS_DIRENTRY_SIZE.
Hypothesis Hsize : oi_size (ospfs_inodes d dir_ino) + OSPFS_DIRENTRY_SIZE <= 2 ^ 32.
Hypothesis Hnames : names_terminated d dir_ino.

Lemma readdir_loop_runs (n : nat) :
  forall (k : Z) (c : C) (ok : Z),
    2 <= k -> (k - 2) * OSPFS_DIRENTRY_SIZE < 2 ^ 32 -> 0 <= ok ->
    (Z.to_nat (oi_size (ospfs_inodes d dir_ino)
               - (k - 2) * OSPFS_DIRENTRY_SIZE) <= n)%nat ->
    exists res,
      readdir_run filldir d dir_ino parent_ino k c res
      /\ forall fuel, (n + 2 <= fuel)%nat ->
                      readdir_loop filldir fuel dir_ino 0 ok k c d = Done res d.
Proof.
  induction n as [| n IH]; intros k c ok Hk Hoff Hok Hn.
  - exists (1, k, c). split.
    + apply run_end; [exact Hk | lia].
    + intros [| fuel] Hf; [lia |]. cbn [readdir_loop].
      change (0 =? 0) with true.
      destruct (Z.leb_spec 0 ok); [| lia].
      destruct (Z.leb_spec 2 k); [| lia]. cbn [andb].
      unfold bind, oi_get, gets.
      rewrite (u32_id ((k - 2) * OSPFS_DIRENTRY_SIZE)) by nia.
      destruct (Z.leb_spec (oi_size (ospfs_inodes d dir_ino))
                  ((k - 2) * OSPFS_DIRENTRY_SIZE)); [reflexivity | lia].
  - destruct (Z.le_gt_cases (oi_size (ospfs_inodes d dir_ino))
                ((k - 2) * OSPFS_DIRENTRY_SIZE)) as [Hend | Hin].
    { destruct (IH k c ok Hk Hoff Hok ltac:(lia)) as (res & Hrun & Hfuel).
      exists res. split; [exact Hrun |]. intros fuel Hf. apply Hfuel. lia. }
    assert (Hk1 : u32 (k + 1) = k + 1) by (apply u32_id; nia).
    assert (Hoff1 : (k + 1 - 2) * OSPFS_DIRENTRY_SIZE < 2 ^ 32) by nia.
    assert (Hn1 : (Z.to_nat (oi_size (ospfs_inodes d dir_ino)
                             - (k + 1 - 2) * OSPFS_DIRENTRY_SIZE) <= n)%nat)
      by nia.
    set (od := entry_addr dir_ino (k - 2) d).
    set (ino := od_ino od d).
    (* the common prefix of one pass of the loop *)
    assert (Hpre : forall fuel,
               readdir_loop filldir (S fuel) dir_ino 0 ok k c d
               = (let* entry_oi := gets (ospfs_inode ino) in
                  match entry_oi with
                  | None => readdir_loop filldir fuel dir_ino 0 ok (u32 (k + 1)) c
                  | Some entry_oi =>
                      if ino =? 0 then
                        readdir_loop filldir fuel dir_ino 0 ok (u32 (k + 1)) c
                      else
                        let* ftype := oi_get oi_ftype entry_oi in
                        match dt_of_ftype ftype with
                        | None => readdir_loop filldir fuel dir_ino (- EIO) ok k c
                        | Some file_type =>
                            let* name := od_name_string od in
                            let (ok', c') :=
                              filldir c {| e_name := name; e_namelen := strlen name;
                                           e_pos := k; e_ino := ino;
                                           e_type := file_type |} in
                            readdir_loop filldir fuel dir_ino 0 ok' (u32 (k + 1)) c'
                        end
                  end) d).
    { intros fuel. cbn [readdir_loop].
      change (0 =? 0) with true.
      destruct (Z.leb_spec 0 ok); [| lia].
      destruct (Z.leb_spec 2 k); [| lia]. cbn [andb].
      unfold bind at 1. unfold oi_get at 1, gets at 1.
      rewrite (u32_id ((k - 2) * OSPFS_DIRENTRY_SIZE)) by nia.
      destruct (Z.leb_spec (oi_size (ospfs_inodes d dir_ino))
                  ((k - 2) * OSPFS_DIRENTRY_SIZE)); [lia |].
      reflexivity. }
    destruct (Z.eq_dec ino 0) as [Hz | Hnz].
    { (* empty entry *)
      destruct (IH (k + 1) c ok ltac:(lia) Hoff1 Hok Hn1) as (res & Hrun & Hfuel).
      exists res. split.
      - apply run_skip; try assumption. left. exact Hz.
      - intros [| fuel] Hf; [lia |]. rewrite (Hpre fuel).
        unfold bind, gets, ospfs_inode. rewrite Hk1.
        destruct (os_ninodes (ospfs_super d) <=? ino).
        + apply Hfuel. lia.
        + rewrite Hz. change (0 =? 0) with true. cbv iota. apply Hfuel. lia. }
    destruct (Z.le_gt_cases (os_ninodes (ospfs_super d)) ino) as [Hbig | Hsmall].
    { (* inode number out of range *)
      destruct (IH (k + 1) c ok ltac:(lia) Hoff1 Hok Hn1) as (res & Hrun & Hfuel).
      exists res. split.
      - apply run_skip; try assumption. right. exact Hbig.
      - intros [| fuel] Hf; [lia |]. rewrite (Hpre fuel).
        unfold bind, gets, ospfs_inode. rewrite Hk1.
        destruct (Z.leb_spec (os_ninodes (ospfs_super d)) ino); [| lia].
        apply Hfuel. lia. }
    destruct (dt_of_ftype (oi_ftype (ospfs_inodes d ino))) as [ty |] eqn:Hty.
    2:{ (* unknown type *)
      exists (- EIO, k, c). split.
      - apply run_unknown; assumption.
      - intros [| [| fuel]] Hf; [lia | lia |]. rewrite (Hpre (S fuel)).
        unfold bind, gets, ospfs_inode, oi_get, gets.
        destruct (Z.leb_spec (os_ninodes (ospfs_super d)) ino); [lia |].
        destruct (Z.eqb_spec ino 0); [contradiction |].
        rewrite Hty. reflexivity. }
    destruct (cstring (Z.to_nat (OSPFS_MAXNAMELEN + 1)) (ospfs_data d)
                (od_name od)) as [name |] eqn:Hname.
    2:{ exfalso. apply (Hnames (k - 2)); try assumption; lia. }
    destruct (filldir c {| e_name := name; e_namelen := strlen name;
                           e_pos := k; e_ino := ino; e_type := ty |})
      as [ok' c'] eqn:Hfill.
    assert (Hrun1 : forall fuel,
               readdir_loop filldir (S fuel) dir_ino 0 ok k c d
               = readdir_loop filldir fuel dir_ino 0 ok' (k + 1) c' d).
    { intros fuel. rewrite (Hpre fuel).
      unfold bind, gets, ospfs_inode, oi_get, gets.
      destruct (Z.leb_spec (os_ninodes (ospfs_super d)) ino); [lia |].
      destruct (Z.eqb_spec ino 0); [contradiction |].
      rewrite Hty. unfold od_name_string. rewrite Hname, Hfill, Hk1.
      reflexivity. }
    destruct (Z.lt_ge_cases ok' 0) as [Hstop | Hgo].
    + (* the consumer asks to stop *)
      exists (0, k + 1, c'). split.
      * eapply run_emit_stop; eassumption.
      * intros [| [| fuel]] Hf; [lia | lia |]. rewrite Hrun1.
        cbn [readdir_loop]. change (0 =? 0) with true.
        destruct (Z.leb_spec 0 ok'); [lia |]. reflexivity.
    + destruct (IH (k + 1) c' ok' ltac:(lia) Hoff1 Hgo Hn1) as (res & Hrun & Hfuel).
      exists res. split.
      * eapply run_emit; eassumption.
      * intros [| fuel] Hf; [lia |]. rewrite Hrun1. apply Hfuel. lia.
Qed.


(** C8, amended.  As long as the cursor arithmetic does not wrap around
    [2^32], [ospfs_dir_readdir] returns, leaves the image unchanged, and
    does what [readdir_run] describes: ["."] at cursor 0 and [".."] at
    cursor 1, then entry [k - 2] at every cursor [k >= 2], skipping the
    entries whose inode number is 0 or not below the inode count; it stops
    at the end of the directory (returning 1), when the consumer asks to
    stop (returning 0), or at an entry whose inode has an unknown file
    type (returning [-EIO] with the cursor on that entry). *)
Theorem ospfs_dir_readdir_runs (pos : Z) (c : C) :
  0 <= pos ->
  (pos - 2) * OSPFS_DIRENTRY_SIZE < 2 ^ 32 ->
  dir_ino < os_ninodes (ospfs_super d) ->
  exists res,
    readdir_run filldir d dir_ino parent_ino pos c res
    /\ forall fuel,
         (Z.to_nat (oi_size (ospfs_inodes d dir_ino)) + 2 <= fuel)%nat ->
         ospfs_dir_readdir filldir fuel dir_ino parent_ino pos c d
         = Done res d.
Proof.
  intros Hpos Hoff Hdir.
  assert (Hloop : forall k c' ok,
             2 <= k -> (k - 2) * OSPFS_DIRENTRY_SIZE < 2 ^ 32 -> 0 <= ok ->
             exists res,
               readdir_run filldir d dir_ino parent_ino k c' res
               /\ forall fuel,
                    (Z.to_nat (oi_size (ospfs_inodes d dir_ino)) + 2 <= fuel)%nat ->
                    (let* dir_oi := deref (ospfs_inode dir_ino d) in
                     readdir_loop filldir fuel dir_oi 0 ok k c') d = Done res d).
  { intros k c' ok Hk Hko Hok.
    destruct (readdir_loop_runs
                (Z.to_nat (oi_size (ospfs_inodes d dir_ino))) k c' ok Hk Hko Hok
                ltac:(nia)) as (res & Hrun & Hfuel).
    exists res. split; [exact Hrun |]. intros fuel Hf.
    unfold ospfs_inode.
    destruct (Z.leb_spec (os_ninodes (ospfs_super d)) dir_ino); [lia |].
    unfold bind. cbn [deref ret]. apply Hfuel, Hf. }
  assert (Hu : u32 pos = pos) by (apply u32_id; nia).
  unfold ospfs_dir_readdir, bind at 1, gets at 1. rewrite Hu.
  change (0 =? 0) with true. change (0 <=? 0) with true. cbn [andb].
  destruct (Z.eq_dec pos 0) as [-> | Hp0].
  - (* cursor 0 *)
    change (0 =? 0) with true. cbv iota.
    destruct (filldir c {| e_name := [46]; e_namelen := 1; e_pos := 0;
                           e_ino := dir_ino; e_type := DT_DIR |})
      as [ok1 c1] eqn:Hf1.
    destruct (Z.leb_spec 0 ok1) as [Hok1 | Hok1].
    + assert (E1 : (0 <=? ok1) = true) by (apply Z.leb_le; exact Hok1).
      settle E1. change (u32 (0 + 1)) with 1. change (1 =? 1) with true.
      cbv iota.
      destruct (filldir c1 {| e_name := [46; 46]; e_namelen := 2; e_pos := 1;
                              e_ino := parent_ino; e_type := DT_DIR |})
        as [ok2 c2] eqn:Hf2.
      destruct (Z.leb_spec 0 ok2) as [Hok2 | Hok2].
      * assert (E2 : (0 <=? ok2) = true) by (apply Z.leb_le; exact Hok2).
        settle E2. change (u32 (1 + 1)) with 2. change (2 <=? 2) with true.
        cbv iota.
        destruct (Hloop 2 c2 ok2 ltac:(lia) ltac:(lia) Hok2)
          as (res & Hrun & Hfuel).
        exists res. split; [| exact Hfuel].
        eapply run_dot; [exact Hf1 | exact Hok1 |].
        eapply run_dotdot; [exact Hf2 | exact Hok2 | exact Hrun].
      * assert (E2 : (0 <=? ok2) = false) by (apply Z.leb_gt; exact Hok2).
        settle E2. exists (0, 1, c2). split; [| intros; reflexivity].
        eapply run_dot; [exact Hf1 | exact Hok1 |].
        eapply run_dotdot_stop; [exact Hf2 | exact Hok2].
    + assert (E1 : (0 <=? ok1) = false) by (apply Z.leb_gt; exact Hok1).
      settle E1. exists (0, 0, c1). split; [| intros; reflexivity].
      eapply run_dot_stop; [exact Hf1 | exact Hok1].
  - destruct (Z.eqb_spec pos 0) as [| _]; [contradiction |]. cbv iota.
    change (0 <=? 0) with true. cbn [andb].
    destruct (Z.eq_dec pos 1) as [-> | Hp1].
    + (* cursor 1 *)
      change (1 =? 1) with true. cbv iota.
      destruct (filldir c {| e_name := [46; 46]; e_namelen := 2; e_pos := 1;
                             e_ino := parent_ino; e_type := DT_DIR |})
        as [ok2 c2] eqn:Hf2.
      destruct (Z.leb_spec 0 ok2) as [Hok2 | Hok2].
      * assert (E2 : (0 <=? ok2) = true) by (apply Z.leb_le; exact Hok2).
        settle E2. change (u32 (1 + 1)) with 2. change (2 <=? 2) with true.
        cbv iota.
        destruct (Hloop 2 c2 ok2 ltac:(lia) ltac:(lia) Hok2)
          as (res & Hrun & Hfuel).
        exists res. split; [| exact Hfuel].
        eapply run_dotdot; [exact Hf2 | exact Hok2 | exact Hrun].
      * assert (E2 : (0 <=? ok2) = false) by (apply Z.leb_gt; exact Hok2).
        settle E2. exists (0, 1, c2). split; [| intros; reflexivity].
        eapply run_dotdot_stop; [exact Hf2 | exact Hok2].
    + (* cursor 2 and beyond *)
      destruct (Z.eqb_spec pos 1) as [| _]; [contradiction |]. cbv iota.
      change (0 <=? 0) with true. cbn [andb].
      destruct (Z.leb_spec 2 pos); [| lia].
      exact (Hloop pos c 0 ltac:(lia) Hoff ltac:(lia)).
Qed.

End ReaddirRuns.

(** ** The three claims on concrete directories *)

Section LabDirectories.
#[local] Existing Instance lab_header.

(** The example of the specification: after
    [symlink(root, "s", "root?/r:/o")] the new inode 3 resolves to ["/r"]
    for uid 0 and to ["/o"] for uid 1000. *)
Lemma conditional_symlink_example :
  ospfs_symlink true 1 (bytes "s")
    (conditional_target (bytes "root") (bytes "/r") (bytes "/o")) dir_image
  = Done (0, Some 3) symlinked_image
  /\ ospfs_follow_link 3 0 symlinked_image
     = Done (inr (bytes "/r")) symlinked_image
  /\ ospfs_follow_link 3 1000 symlinked_image
     = Done (inr (bytes "/o")) symlinked_image.
Proof.
  assert (H1 : OSPFS_MAXSYMLINKLEN + 1 < 2 ^ 32) by (vm_compute; reflexivity).
  assert (H2 : ~ In QMARK (bytes "root"))
    by (vm_compute; intuition discriminate).
  assert (H3 : ~ In COLON (bytes "root"))
    by (vm_compute; intuition discriminate).
  assert (H4 : ~ In COLON (bytes "/r"))
    by (vm_compute; intuition discriminate).
  assert (H5 : Forall is_char (bytes "/r"))
    by (repeat constructor; vm_compute; discriminate).
  assert (H6 : Forall is_char (bytes "/o"))
    by (repeat constructor; vm_compute; discriminate).
  assert (H7 : strlen (bytes "/r") + strlen (bytes "/o") + 3
               <= OSPFS_MAXSYMLINKLEN) by (vm_compute; discriminate).
  assert (H8 : ospfs_symlink true 1 (bytes "s")
                 (conditional_target (bytes "root") (bytes "/r") (bytes "/o"))
                 dir_image
               = Done (0, Some 3) symlinked_image)
    by (vm_compute; reflexivity).
  split; [exact H8 |].
  split.
  - exact (conditional_symlink_follows true 1 (bytes "s") (bytes "root")
             (bytes "/r") (bytes "/o") 3 0 dir_image symlinked_image
             H1 H2 H3 H4 H5 H6 H7 H8).
  - exact (conditional_symlink_follows true 1 (bytes "s") (bytes "root")
             (bytes "/r") (bytes "/o") 3 1000 dir_image symlinked_image
             H1 H2 H3 H4 H5 H6 H7 H8).
Qed.

(** C9.  A conditional target whose stored form is longer than
    [oi_symlink]: in [subdir_image] the directory of inode 3 gets a link
    to [long_target], whose root path has 60 characters.  [ospfs_symlink]
    tests the length against [OSPFS_MAXNAMELEN], returns 0 and stores
    the 66 bytes from [oi_symlink] of the free inode 2 on, which runs
    over the first words of inode 3, the directory itself; the increment
    of the directory's link count then changes the byte that holds the
    last character of the root path.  [ospfs_follow_link] yields for uid
    0 a path that is not the root path, and the directory is a directory
    no more. *)
Theorem conditional_symlink_overruns :
  long_target = conditional_target (bytes "root") long_root (bytes "/o")
  /\ ospfs_symlink true 3 (bytes "s") long_target subdir_image
     = Done (0, Some 2) overrun_image
  /\ ospfs_follow_link 2 0 overrun_image
     = Done (inr (bytes "/0123456789/0123456789/0123456789/0123456789/0123456789/abce"))
         overrun_image
  /\ bytes "/0123456789/0123456789/0123456789/0123456789/0123456789/abce"
     <> long_root
  /\ ospfs_follow_link 2 1000 overrun_image
     = Done (inr (bytes "/o")) overrun_image
  /\ oi_ftype (ospfs_inodes subdir_image 3) = OSPFS_FTYPE_DIR
  /\ oi_ftype (ospfs_inodes overrun_image 3) <> OSPFS_FTYPE_DIR.
Proof.
  split; [reflexivity |].
  split; [vm_compute; reflexivity |].
  split; [vm_compute; reflexivity |].
  split; [vm_compute; discriminate |].
  split; [vm_compute; reflexivity |].
  split; [vm_compute; reflexivity | vm_compute; discriminate].
Qed.



(** In [unknown_type_image] a listing from cursor 0 emits four entries
    and returns [-EIO] with the cursor at 4, the entry of inode 3. *)
Lemma readdir_unknown_type_run :
  post (ospfs_dir_readdir collect 16 1 1 0 [] unknown_type_image)
    (fun res _ =>
       fst (fst res) = - EIO
       /\ snd (fst res) = 4
       /\ length (snd res) = 4%nat).
Proof. by_evaluation. Qed.

(** C8 as stated fails: that listing stops although the consumer
    [collect] never asks to stop and the cursor it stops at is not at the
    end of the directory. *)
Lemma readdir_stops_at_unknown_type :
  ~ (forall res d',
       ospfs_dir_readdir collect 16 1 1 0 [] unknown_type_image
       = Done res d' ->
       oi_size (ospfs_inodes unknown_type_image 1)
       <= (snd (fst res) - 2) * OSPFS_DIRENTRY_SIZE
       \/ exists c e, fst (collect c e) < 0).
Proof.
  intros H.
  pose proof readdir_unknown_type_run as P.
  destruct (ospfs_dir_readdir collect 16 1 1 0 [] unknown_type_image)
    as [res d' | |] eqn:E; cbn [post] in P; try contradiction.
  destruct P as (_ & Hpos & _).
  destruct (H res d' eq_refl) as [Hend | (c & e & Hstop)].
  - rewrite Hpos in Hend. vm_compute in Hend. apply Hend. reflexivity.
  - cbn in Hstop. lia.
Qed.

(** C8, amended, on a listing of [dir_image] from cursor 0. *)
Lemma ospfs_dir_readdir_runs_witness :
  (4 <= OSPFS_DIRENTRY_SIZE
   /\ oi_size (ospfs_inodes dir_image 1) + OSPFS_DIRENTRY_SIZE <= 2 ^ 32
   /\ names_terminated dir_image 1
   /\ 0 <= 0
   /\ (0 - 2) * OSPFS_DIRENTRY_SIZE < 2 ^ 32
   /\ 1 < os_ninodes (ospfs_super dir_image))
  /\ exists res,
       readdir_run collect dir_image 1 1 0 [] res
       /\ forall fuel,
            (Z.to_nat (oi_size (ospfs_inodes dir_image 1)) + 2 <= fuel)%nat ->
            ospfs_dir_readdir collect fuel 1 1 0 [] dir_image
            = Done res dir_image.
Proof.
  assert (H1 : 4 <= OSPFS_DIRENTRY_SIZE) by (vm_compute; discriminate).
  assert (H2 : oi_size (ospfs_inodes dir_image 1) + OSPFS_DIRENTRY_SIZE
               <= 2 ^ 32) by (vm_compute; discriminate).
  assert (H3 : names_terminated dir_image 1).
  { intros j Hj Hlt Hino.
    replace (oi_size (ospfs_inodes dir_image 1)) with 1024 in Hlt
      by (vm_compute; reflexivity).
    change OSPFS_DIRENTRY_SIZE with 128 in Hlt.
    assert (Hcases : j = 0 \/ j = 1 \/ j = 2 \/ j = 3 \/ j = 4 \/ j = 5
                     \/ j = 6 \/ j = 7) by lia.
    destruct Hcases as [-> | [-> | [-> | [-> | [-> | [-> | [-> | ->]]]]]]];
      first [ vm_compute; discriminate
            | exfalso; apply Hino; vm_compute; reflexivity ]. }
  assert (H4 : 0 <= 0) by lia.
  assert (H5 : (0 - 2) * OSPFS_DIRENTRY_SIZE < 2 ^ 32)
    by (vm_compute; reflexivity).
  assert (H6 : 1 < os_ninodes (ospfs_super dir_image))
    by (vm_compute; reflexivity).
  split; [exact (conj H1 (conj H2 (conj H3 (conj H4 (conj H5 H6))))) |].
  exact (ospfs_dir_readdir_runs collect dir_image 1 1 H1 H2 H3 0 [] H4 H5 H6).
Defined.

End LabDirectories.

(** ** The free-block bitmap *)

Lemma load32_range (m : Z -> Z) (a : Z) : 0 <= load32 m a < 2 ^ 32.
Proof.
  unfold load32, load8.
  pose proof (Z.mod_pos_bound (m a) 256).
  pose proof (Z.mod_pos_bound (m (a + 1)) 256).
  pose proof (Z.mod_pos_bound (m (a + 2)) 256).
  pose proof (Z.mod_pos_bound (m (a + 3)) 256).
  lia.
Qed.

Lemma load32_store32_other (m : Z -> Z) (a v x : Z) :
  x + 4 <= a \/ a + 4 <= x -> load32 (store32 m a v) x = load32 m x.
Proof.
  intros Hx. unfold load32. rewrite !load8_store32_other by lia. reflexivity.
Qed.

Lemma land_pow2_testbit (w k : Z) :
  0 <= k -> (Z.land w (2 ^ k) =? 0) = negb (Z.testbit w k).
Proof.
  intros Hk. destruct (Z.testbit w k) eqn:T; cbn.
  - apply Z.eqb_neq. intros H.
    assert (F : Z.testbit (Z.land w (2 ^ k)) k = false)
      by (rewrite H; apply Z.bits_0).
    rewrite Z.land_spec, T, Z.pow2_bits_true in F by lia. discriminate F.
  - apply Z.eqb_eq. apply Z.bits_inj'. intros i Hi.
    rewrite Z.land_spec, Z.bits_0, Z.pow2_bits_eqb by lia.
    destruct (Z.eqb_spec k i) as [<- | _];
      rewrite ?T, ?andb_false_r; reflexivity.
Qed.

Lemma u32_bit (k : Z) : 0 <= k < 32 -> u32 (Z.shiftl 1 k) = 2 ^ k.
Proof.
  intros Hk. rewrite Z.shiftl_1_l. apply u32_id. split; [lia |].
  apply Z.pow_lt_mono_r; lia.
Qed.

Lemma bitvector_test_testbit (fm i : Z) (d : disk) :
  0 <= i ->
  bitvector_test fm i d
  = Z.testbit (load32 (ospfs_data d) (fm + 4 * (i / 32))) (i mod 32).
Proof.
  intros Hi. unfold bitvector_test.
  rewrite Z.quot_div_nonneg, Z.rem_mod_nonneg by lia.
  pose proof (Z.mod_pos_bound i 32 ltac:(lia)) as Hm.
  rewrite u32_bit by lia. rewrite land_pow2_testbit by lia.
  apply negb_involutive.
Qed.

Lemma same_word (i j : Z) :
  0 <= i -> 0 <= j -> i / 32 = j / 32 -> (j mod 32 =? i mod 32) = (j =? i).
Proof.
  intros Hi Hj E.
  pose proof (Z.div_mod i 32 ltac:(lia)). pose proof (Z.div_mod j 32 ltac:(lia)).
  destruct (Z.eqb_spec (j mod 32) (i mod 32)), (Z.eqb_spec j i);
    try reflexivity; lia.
Qed.

Lemma other_word (i j : Z) : i / 32 <> j / 32 -> (j =? i) = false.
Proof. intros H. apply Z.eqb_neq. intros ->. contradiction. Qed.

(** [bitvector_set] sets bit [i] and no other bit. *)
Lemma bitvector_set_spec (fm i : Z) (d : disk) :
  0 <= i ->
  exists d',
    bitvector_set fm i d = Done tt d'
    /\ ospfs_super d' = ospfs_super d
    /\ ospfs_inodes d' = ospfs_inodes d
    /\ (forall x, x < fm + 4 * (i / 32) \/ fm + 4 * (i / 32) + 4 <= x ->
                  load8 (ospfs_data d') x = load8 (ospfs_data d) x)
    /\ (forall j, 0 <= j ->
                  bitvector_test fm j d'
                  = if j =? i then true else bitvector_test fm j d).
Proof.
  intros Hi. unfold bitvector_set, bind, rd32, gets, wr32.
  rewrite Z.quot_div_nonneg, Z.rem_mod_nonneg by lia.
  pose proof (Z.mod_pos_bound i 32 ltac:(lia)) as Hm.
  rewrite u32_bit by lia.
  eexists. split; [reflexivity |]. cbn [ospfs_super ospfs_inodes ospfs_data set_data].
  split; [reflexivity |]. split; [reflexivity |]. split.
  - intros x Hx. apply load8_store32_other. lia.
  - intros j Hj. rewrite !bitvector_test_testbit by lia.
    cbn [ospfs_data set_data].
    pose proof (Z.mod_pos_bound j 32 ltac:(lia)) as Hmj.
    destruct (Z.eq_dec (i / 32) (j / 32)) as [E | E].
    + rewrite <- E, load32_store32. unfold u32.
      rewrite Z.mod_pow2_bits_low by lia.
      rewrite Z.lor_spec, Z.pow2_bits_eqb by lia.
      rewrite (Z.eqb_sym (i mod 32)), same_word by lia.
      destruct (j =? i); [apply orb_true_r | apply orb_false_r].
    + rewrite load32_store32_other by lia.
      rewrite other_word by exact E. reflexivity.
Qed.

(** [bitvector_clear] clears bit [i] and no other bit. *)
Lemma bitvector_clear_spec (fm i : Z) (d : disk) :
  0 <= i ->
  exists d',
    bitvector_clear fm i d = Done tt d'
    /\ ospfs_super d' = ospfs_super d
    /\ ospfs_inodes d' = ospfs_inodes d
    /\ (forall x, x < fm + 4 * (i / 32) \/ fm + 4 * (i / 32) + 4 <= x ->
                  load8 (ospfs_data d') x = load8 (ospfs_data d) x)
    /\ (forall j, 0 <= j ->
                  bitvector_test fm j d'
                  = if j =? i then false else bitvector_test fm j d).
Proof.
  intros Hi. unfold bitvector_clear, bind, rd32, gets, wr32.
  rewrite Z.quot_div_nonneg, Z.rem_mod_nonneg by lia.
  pose proof (Z.mod_pos_bound i 32 ltac:(lia)) as Hm.
  eexists. split; [reflexivity |]. cbn [ospfs_super ospfs_inodes ospfs_data set_data].
  split; [reflexivity |]. split; [reflexivity |]. split.
  - intros x Hx. apply load8_store32_other. lia.
  - intros j Hj. rewrite !bitvector_test_testbit by lia.
    cbn [ospfs_data set_data].
    pose proof (Z.mod_pos_bound j 32 ltac:(lia)) as Hmj.
    destruct (Z.eq_dec (i / 32) (j / 32)) as [E | E].
    + rewrite <- E, load32_store32. unfold u32.
      rewrite Z.mod_pow2_bits_low by lia.
      rewrite Z.land_spec, Z.mod_pow2_bits_low by lia.
      rewrite Z.lnot_spec, Z.shiftl_1_l, Z.pow2_bits_eqb by lia.
      rewrite (Z.eqb_sym (i mod 32)), same_word by lia.
      destruct (j =? i); [apply andb_false_r | apply andb_true_r].
    + rewrite load32_store32_other by lia.
      rewrite other_word by exact E. reflexivity.
Qed.

Lemma s32_id (x : Z) : 0 <= x < 2 ^ 31 -> s32 x = x.
Proof.
  intros H. unfold s32. rewrite Z.mod_small by lia.
  destruct (Z.ltb_spec x (2 ^ 31)); lia.
Qed.

(** The scan of [allocate_block] takes the first set bit at or after [i]. *)
Lemma allocate_block_from_spec (fm : Z) (k : nat) :
  forall i d,
    0 < i -> i + Z.of_nat k <= 2 ^ 31 ->
    exists b d',
      allocate_block_from k fm i d = Done b d'
      /\ ospfs_super d' = ospfs_super d
      /\ ospfs_inodes d' = ospfs_inodes d
      /\ ((b = 0 /\ d' = d
           /\ forall j, i <= j < i + Z.of_nat k -> bitvector_test fm j d = false)
          \/ (i <= b < i + Z.of_nat k
              /\ bitvector_test fm b d = true
              /\ (forall j, i <= j < b -> bitvector_test fm j d = false)
              /\ (forall j, 0 <= j ->
                            bitvector_test fm j d'
                            = if j =? b then false else bitvector_test fm j d)
              /\ (forall x, x < fm + 4 * (b / 32) \/ fm + 4 * (b / 32) + 4 <= x ->
                            load8 (ospfs_data d') x = load8 (ospfs_data d) x))).
Proof.
  induction k as [| k IH]; intros i d Hi Hk; cbn [allocate_block_from].
  - exists 0, d. split; [reflexivity |]. split; [reflexivity |].
    split; [reflexivity |]. left. split; [reflexivity |]. split; [reflexivity |].
    intros j Hj. lia.
  - rewrite s32_id by lia. unfold bind at 1. unfold gets at 1.
    destruct (bitvector_test fm i d) eqn:T.
    + destruct (bitvector_clear_spec fm i d ltac:(lia))
        as (d' & E & Hs & Hn & Hx & Hb).
      exists i, d'. unfold bind. rewrite E. split; [reflexivity |].
      split; [exact Hs |]. split; [exact Hn |]. right.
      split; [lia |]. split; [exact T |]. split; [intros j Hj; lia |].
      split; assumption.
    + destruct (IH (i + 1) d ltac:(lia) ltac:(lia))
        as (b & d' & E & Hs & Hn & H).
      exists b, d'. split; [exact E |]. split; [exact Hs |].
      split; [exact Hn |].
      destruct H as [(Hb & Hd & Hz) | (Hb & Ht & Hz & Hrest)].
      * left. split; [exact Hb |]. split; [exact Hd |].
        intros j Hj. destruct (Z.eq_dec j i) as [-> | Hne]; [exact T |].
        apply Hz. lia.
      * right. split; [lia |]. split; [exact Ht |]. split; [| exact Hrest].
        intros j Hj. destruct (Z.eq_dec j i) as [-> | Hne]; [exact T |].
        apply Hz. lia.
Qed.

Section Bitmap.
Context {hdr : ospfs_h}.

(** X1.  [allocate_block] searches the bitmap from block 2 upwards: it
    returns the lowest-numbered free block below [os_nblocks], marks that
    block allocated and changes no other bit and no byte outside the
    bitmap word of the block; it returns 0, leaving the image as it is,
    exactly when no block from 2 to [os_nblocks - 1] is free. *)
Theorem allocate_block_lowest_free (d : disk) :
  os_nblocks (ospfs_super d) <= 2 ^ 31 ->
  exists b d',
    allocate_block d = Done b d'
    /\ ospfs_super d' = ospfs_super d
    /\ ospfs_inodes d' = ospfs_inodes d
    /\ ((b = 0 /\ d' = d
         /\ forall j, 2 <= j < os_nblocks (ospfs_super d) ->
                      block_is_free d j = false)
        \/ (2 <= b < os_nblocks (ospfs_super d)
            /\ block_is_free d b = true
            /\ (forall j, 2 <= j < b -> block_is_free d j = false)
            /\ (forall j, 0 <= j ->
                          block_is_free d' j
                          = if j =? b then false else block_is_free d j)
            /\ (forall x, x < ospfs_block OSPFS_FREEMAP_BLK + 4 * (b / 32)
                          \/ ospfs_block OSPFS_FREEMAP_BLK + 4 * (b / 32) + 4 <= x ->
                          load8 (ospfs_data d') x = load8 (ospfs_data d) x))).
Proof.
  intros Hn. unfold allocate_block, bind, gets, block_is_free.
  destruct (allocate_block_from_spec (ospfs_block OSPFS_FREEMAP_BLK)
              (Z.to_nat (os_nblocks (ospfs_super d) - OSPFS_FREEMAP_BLK))
              OSPFS_FREEMAP_BLK d)
    as (b & d' & E & Hs & Hi & H);
    [reflexivity | unfold OSPFS_FREEMAP_BLK; lia |].
  exists b, d'. split; [exact E |]. split; [exact Hs |]. split; [exact Hi |].
  unfold OSPFS_FREEMAP_BLK in *.
  destruct H as [(Hb & Hd & Hz) | (Hb & Ht & Hz & Hrest)].
  - left. split; [exact Hb |]. split; [exact Hd |].
    intros j Hj. apply Hz. lia.
  - right. split; [lia |]. split; [exact Ht |]. split; [exact Hz |].
    exact Hrest.
Qed.

(** What [free_block] does to a block number it accepts. *)
Lemma free_block_accepts (b : Z) (d : disk) :
  os_ninodes (ospfs_super d) <= 2 ^ 31 ->
  u32 (os_firstinob (ospfs_super d) + OSPFS_BLKINODES) < b
  < os_ninodes (ospfs_super d) ->
  exists d',
    free_block b d = Done tt d'
    /\ ospfs_super d' = ospfs_super d
    /\ ospfs_inodes d' = ospfs_inodes d
    /\ (forall j, 0 <= j ->
                  block_is_free d' j
                  = if j =? b then true else block_is_free d j).
Proof.
  intros Hn Hb. pose proof (u32_range (os_firstinob (ospfs_super d)
                                       + OSPFS_BLKINODES)) as Hu.
  unfold free_block. unfold bind at 1. unfold gets at 1. cbv zeta.
  destruct (Z.leb_spec (os_ninodes (ospfs_super d)) b); [lia |].
  destruct (Z.leb_spec b (u32 (os_firstinob (ospfs_super d) + OSPFS_BLKINODES)));
    [lia |].
  cbn [orb]. rewrite s32_id by lia.
  destruct (bitvector_set_spec (ospfs_block OSPFS_FREEMAP_BLK) b d ltac:(lia))
    as (d' & E & Hs & Hi & _ & Ht).
  exists d'. split; [exact E |]. split; [exact Hs |]. split; [exact Hi |].
  exact Ht.
Qed.

(** X2.  [free_block] sets the bit of block [b], and only that bit, when
    [os_firstinob + OSPFS_BLKINODES < b < os_ninodes]; for every other
    block number (the boot sector, the superblock, the bitmap and the
    inode blocks among them) it leaves the image as it is. *)
Theorem free_block_marks_free (b : Z) (d : disk) :
  os_ninodes (ospfs_super d) <= 2 ^ 31 ->
  exists d',
    free_block b d = Done tt d'
    /\ ospfs_super d' = ospfs_super d
    /\ ospfs_inodes d' = ospfs_inodes d
    /\ (u32 (os_firstinob (ospfs_super d) + OSPFS_BLKINODES) < b
        < os_ninodes (ospfs_super d) ->
        forall j, 0 <= j ->
                  block_is_free d' j
                  = if j =? b then true else block_is_free d j)
    /\ (b <= u32 (os_firstinob (ospfs_super d) + OSPFS_BLKINODES)
        \/ os_ninodes (ospfs_super d) <= b ->
        d' = d).
Proof.
  intros Hn.
  destruct (Z.lt_ge_cases (u32 (os_firstinob (ospfs_super d) + OSPFS_BLKINODES)) b)
    as [Hlo | Hlo];
    [destruct (Z.lt_ge_cases b (os_ninodes (ospfs_super d))) as [Hhi | Hhi] |].
  - destruct (free_block_accepts b d Hn ltac:(lia)) as (d' & E & Hs & Hi & Ht).
    exists d'. split; [exact E |]. split; [exact Hs |]. split; [exact Hi |].
    split; [intros _; exact Ht | intros [H | H]; lia].
  - exists d. split; [apply free_block_refuses; left; exact Hhi |].
    split; [reflexivity |]. split; [reflexivity |].
    split; [intros H; lia | reflexivity].
  - exists d. split; [apply free_block_refuses; right; exact Hlo |].
    split; [reflexivity |]. split; [reflexivity |].
    split; [intros H; lia | reflexivity].
Qed.

(** X3.  A block that [free_block] accepts is the next block that
    [allocate_block] hands out when no lower-numbered block is free, and
    the bitmap then shows that block allocated and every other block as
    before the two calls. *)
Theorem free_then_allocate_same_block (b : Z) (d : disk) :
  os_nblocks (ospfs_super d) <= 2 ^ 31 ->
  os_ninodes (ospfs_super d) <= 2 ^ 31 ->
  u32 (os_firstinob (ospfs_super d) + OSPFS_BLKINODES) < b
  < os_ninodes (ospfs_super d) ->
  2 <= b < os_nblocks (ospfs_super d) ->
  (forall j, 2 <= j < b -> block_is_free d j = false) ->
  exists d1 d2,
    free_block b d = Done tt d1
    /\ allocate_block d1 = Done b d2
    /\ forall j, 0 <= j ->
                 block_is_free d2 j
                 = if j =? b then false else block_is_free d j.
Proof.
  intros Hnb Hni Hb Hb2 Hlow.
  destruct (free_block_accepts b d Hni Hb) as (d1 & E1 & Hs1 & Hi1 & Ht1).
  exists d1. unfold allocate_block, bind, gets. rewrite Hs1.
  destruct (allocate_block_from_spec (ospfs_block OSPFS_FREEMAP_BLK)
              (Z.to_nat (os_nblocks (ospfs_super d) - OSPFS_FREEMAP_BLK))
              OSPFS_FREEMAP_BLK d1)
    as (b' & d2 & E2 & Hs2 & Hi2 & H);
    [reflexivity | unfold OSPFS_FREEMAP_BLK; lia |].
  unfold OSPFS_FREEMAP_BLK in *. unfold block_is_free in *.
  unfold OSPFS_FREEMAP_BLK in *.
  assert (Tb : bitvector_test (ospfs_block 2) b d1 = true).
  { rewrite Ht1 by lia. rewrite Z.eqb_refl. reflexivity. }
  destruct H as [(_ & _ & Hz) | (Hr & Ht & Hz & Hbits & _)].
  - rewrite Hz in Tb by lia. discriminate Tb.
  - assert (b' = b).
    { destruct (Z.lt_trichotomy b' b) as [Hlt | [Heq | Hgt]]; [| exact Heq |].
      - rewrite Ht1 in Ht by lia.
        destruct (Z.eqb_spec b' b); [lia |].
        rewrite Hlow in Ht by lia. discriminate Ht.
      - rewrite Hz in Tb by lia. discriminate Tb. }
    subst b'. exists d2. split; [exact E1 |]. split; [exact E2 |].
    intros j Hj. rewrite Hbits by lia. rewrite Ht1 by lia.
    destruct (j =? b); reflexivity.
Qed.

End Bitmap.

(** ** Block counts and block indices *)

(** X4.  [ospfs_size2nblocks] rounds the size up to whole blocks as long as
    [size + OSPFS_BLKSIZE - 1] fits 32 bits; for the sizes above
    [2^32 - OSPFS_BLKSIZE] the addition wraps around and the result is 0. *)
Theorem ospfs_size2nblocks_rounds_up (size : Z) :
  0 <= size < 2 ^ 32 ->
  (size <= 2 ^ 32 - OSPFS_BLKSIZE ->
   (ospfs_size2nblocks size - 1) * OSPFS_BLKSIZE < size
   <= ospfs_size2nblocks size * OSPFS_BLKSIZE)
  /\ (2 ^ 32 - OSPFS_BLKSIZE < size -> ospfs_size2nblocks size = 0).
Proof.
  intros Hs. unfold ospfs_size2nblocks, OSPFS_BLKSIZE. split; intros H.
  - rewrite u32_id by lia.
    pose proof (Z.div_mod (size + 1024 - 1) 1024 ltac:(lia)).
    pose proof (Z.mod_pos_bound (size + 1024 - 1) 1024 ltac:(lia)).
    lia.
  - unfold u32.
    replace (size + 1024 - 1) with (size + 1023 - 2 ^ 32 + 1 * 2 ^ 32) by lia.
    rewrite Z.mod_add by lia. rewrite Z.mod_small by lia.
    apply Z.div_small. lia.
Qed.

Lemma indices_direct (b : Z) :
  0 <= b < OSPFS_NDIRECT ->
  indir2_index b = -1 /\ indir_index b = -1 /\ direct_index b = b.
Proof.
  unfold indir_index, indir2_index, direct_index, OSPFS_NDIRECT, OSPFS_NINDIRECT.
  intros H.
  destruct (Z.ltb_spec b (10 + 256)); [| lia].
  destruct (Z.ltb_spec b 10); [| lia].
  rewrite s32_id by lia. auto.
Qed.

Lemma indices_indirect (b : Z) :
  OSPFS_NDIRECT <= b < OSPFS_NDIRECT + OSPFS_NINDIRECT ->
  indir2_index b = -1 /\ indir_index b = 0
  /\ direct_index b = b - OSPFS_NDIRECT.
Proof.
  unfold indir_index, indir2_index, direct_index, OSPFS_NDIRECT, OSPFS_NINDIRECT.
  intros H.
  destruct (Z.ltb_spec b (10 + 256)); [| lia].
  destruct (Z.ltb_spec b 10); [lia |].
  cbn [Z.eqb Z.opp Pos.eqb]. rewrite (u32_id (b - 10)) by lia.
  rewrite Z.mod_small by lia. rewrite s32_id by lia. auto.
Qed.

Lemma indices_indirect2 (b : Z) :
  OSPFS_NDIRECT + OSPFS_NINDIRECT <= b < 2 ^ 31 ->
  indir2_index b = 0
  /\ indir_index b = (b - (OSPFS_NDIRECT + OSPFS_NINDIRECT)) / OSPFS_NINDIRECT
  /\ direct_index b = (b - (OSPFS_NDIRECT + OSPFS_NINDIRECT)) mod OSPFS_NINDIRECT.
Proof.
  unfold indir_index, indir2_index, direct_index, OSPFS_NDIRECT, OSPFS_NINDIRECT.
  intros H.
  destruct (Z.ltb_spec b (10 + 256)); [lia |].
  destruct (Z.ltb_spec b 10); [lia |].
  cbn [Z.eqb]. rewrite (u32_id (b - 10)), (u32_id (b - (10 + 256))) by lia.
  change (10 + 256) with 266.
  pose proof (Z.mod_pos_bound (b - 266) 256 ltac:(lia)) as Hm.
  pose proof (Z.div_pos (b - 266) 256 ltac:(lia) ltac:(lia)) as Hq.
  assert (Hq' : (b - 266) / 256 < 2 ^ 31).
  { apply Z.div_lt_upper_bound; lia. }
  replace ((b - 10) mod 256) with ((b - 266) mod 256).
  2:{ replace (b - 10) with (b - 266 + 1 * 256) by lia.
      rewrite Z.mod_add by lia. reflexivity. }
  rewrite !s32_id by lia. auto.
Qed.

(** X5.  The three index functions split a block index [b] into the path
    to its pointer: a direct pointer for [b < 10], slot [b - 10] of the
    indirect block for [10 <= b < 266], and beyond that the slot
    [indir_index b] of the doubly-indirect block and the slot
    [direct_index b] of the indirect block found there, with
    [b = 266 + 256 * indir_index b + direct_index b]. *)
Theorem block_index_decomposition (b : Z) :
  0 <= b < 2 ^ 31 ->
  (b < OSPFS_NDIRECT ->
   indir2_index b = -1 /\ indir_index b = -1 /\ direct_index b = b)
  /\ (OSPFS_NDIRECT <= b < OSPFS_NDIRECT + OSPFS_NINDIRECT ->
      indir2_index b = -1 /\ indir_index b = 0
      /\ direct_index b = b - OSPFS_NDIRECT)
  /\ (OSPFS_NDIRECT + OSPFS_NINDIRECT <= b ->
      indir2_index b = 0
      /\ 0 <= indir_index b
      /\ 0 <= direct_index b < OSPFS_NINDIRECT
      /\ b = OSPFS_NDIRECT + OSPFS_NINDIRECT
             + OSPFS_NINDIRECT * indir_index b + direct_index b).
Proof.
  intros Hb. split; [| split]; intros H.
  - apply indices_direct. lia.
  - apply indices_indirect. lia.
  - destruct (indices_indirect2 b ltac:(lia)) as (E2 & Ei & Ed).
    rewrite E2, Ei, Ed. unfold OSPFS_NDIRECT, OSPFS_NINDIRECT in *.
    pose proof (Z.div_mod (b - (10 + 256)) 256 ltac:(lia)) as Hdm.
    pose proof (Z.mod_pos_bound (b - (10 + 256)) 256 ltac:(lia)) as Hm.
    pose proof (Z.div_pos (b - (10 + 256)) 256 ltac:(lia) ltac:(lia)) as Hq.
    split; [reflexivity |]. split; [lia |]. split; [lia |]. lia.
Qed.

Section Lookup.
Context {hdr : ospfs_h}.

(** X6.  [ospfs_inode_blockno] looks for the block of a file offset in the
    place that the index functions of [add_block] and [remove_block]
    name: with [b = offset / OSPFS_BLKSIZE], in [oi_direct[direct_index b]]
    when [indir_index b = -1], in slot [direct_index b] of the indirect
    block when [indir2_index b = -1], and otherwise in slot
    [direct_index b] of the block found in slot [indir_index b] of the
    doubly-indirect block. *)
Theorem lookup_follows_index_functions (oi offset : Z) (d : disk) :
  0 <= offset < oi_size (ospfs_inodes d oi) ->
  offset < 2 ^ 32 ->
  oi_ftype (ospfs_inodes d oi) <> OSPFS_FTYPE_SYMLINK ->
  let b := offset / OSPFS_BLKSIZE in
  ospfs_inode_blockno oi offset d
  = if indir_index b =? -1
    then oi_direct (ospfs_inodes d oi) (direct_index b)
    else if indir2_index b =? -1
         then slot d (oi_indirect (ospfs_inodes d oi)) (direct_index b)
         else slot d (slot d (oi_indirect2 (ospfs_inodes d oi)) (indir_index b))
                (direct_index b).
Proof.
  intros Ho Ho32 Hf b.
  assert (Hb : 0 <= b < 2 ^ 31).
  { subst b. unfold OSPFS_BLKSIZE. split; [apply Z.div_pos; lia |].
    apply Z.div_lt_upper_bound; lia. }
  unfold ospfs_inode_blockno. cbv zeta. fold b.
  destruct (Z.leb_spec (oi_size (ospfs_inodes d oi)) offset); [lia |].
  destruct (Z.eqb_spec (oi_ftype (ospfs_inodes d oi)) OSPFS_FTYPE_SYMLINK);
    [contradiction |].
  cbn [orb]. unfold slot, word_at.
  destruct (Z.leb_spec (OSPFS_NDIRECT + OSPFS_NINDIRECT) b) as [Hge | Hlt].
  - destruct (indices_indirect2 b ltac:(lia)) as (E2 & Ei & Ed).
    rewrite E2, Ei, Ed.
    pose proof (Z.div_pos (b - (OSPFS_NDIRECT + OSPFS_NINDIRECT))
                  OSPFS_NINDIRECT ltac:(lia) ltac:(reflexivity)) as Hq.
    destruct (Z.eqb_spec ((b - (OSPFS_NDIRECT + OSPFS_NINDIRECT))
                          / OSPFS_NINDIRECT) (-1)); [lia |].
    cbn [Z.eqb].
    rewrite (u32_id (b - (OSPFS_NDIRECT + OSPFS_NINDIRECT)))
      by (unfold OSPFS_NDIRECT, OSPFS_NINDIRECT in *; lia).
    reflexivity.
  - destruct (Z.leb_spec OSPFS_NDIRECT b) as [Hge | Hlt'].
    + destruct (indices_indirect b ltac:(lia)) as (E2 & Ei & Ed).
      rewrite E2, Ei, Ed. cbn [Z.eqb].
      rewrite u32_id by (unfold OSPFS_NDIRECT, OSPFS_NINDIRECT in *; lia).
      reflexivity.
    + destruct (indices_direct b ltac:(lia)) as (E2 & Ei & Ed).
      rewrite Ei, Ed. cbn [Z.eqb Z.opp Pos.eqb]. reflexivity.
Qed.

Lemma find_free_inode_from_spec (d : disk) (k : nat) :
  forall i,
    0 < i ->
    let r := find_free_inode_from k i d in
    (r = 0 /\ forall j, i <= j < i + Z.of_nat k ->
                        oi_nlink (ospfs_inodes d j) <> 0)
    \/ (i <= r < i + Z.of_nat k
        /\ oi_nlink (ospfs_inodes d r) = 0
        /\ forall j, i <= j < r -> oi_nlink (ospfs_inodes d j) <> 0).
Proof.
  induction k as [| k IH]; intros i Hi r; subst r; cbn [find_free_inode_from].
  - left. split; [reflexivity | intros j Hj; lia].
  - destruct (Z.eqb_spec (oi_nlink (ospfs_inodes d i)) 0) as [E | E].
    + right. split; [lia |]. split; [exact E | intros j Hj; lia].
    + destruct (IH (i + 1) ltac:(lia)) as [(Hr & Hz) | (Hr & Hn & Hz)].
      * left. split; [exact Hr |]. intros j Hj.
        destruct (Z.eq_dec j i) as [-> | Hne]; [exact E | apply Hz; lia].
      * right. split; [lia |]. split; [exact Hn |]. intros j Hj.
        destruct (Z.eq_dec j i) as [-> | Hne]; [exact E | apply Hz; lia].
Qed.

(** X7.  [find_free_inode] returns the lowest inode number from 2 upwards
    whose link count is 0, and 0 when every inode from 2 to
    [os_ninodes - 1] is in use; it never returns the reserved inode 0 as
    a free inode, nor the root inode 1. *)
Theorem find_free_inode_lowest (d : disk) :
  let r := find_free_inode d in
  (r = 0
   /\ forall j, 2 <= j < os_ninodes (ospfs_super d) ->
                oi_nlink (ospfs_inodes d j) <> 0)
  \/ (2 <= r < os_ninodes (ospfs_super d)
      /\ oi_nlink (ospfs_inodes d r) = 0
      /\ forall j, 2 <= j < r -> oi_nlink (ospfs_inodes d j) <> 0).
Proof.
  cbv zeta. unfold find_free_inode.
  destruct (find_free_inode_from_spec d
              (Z.to_nat (os_ninodes (ospfs_super d) - 2)) 2 ltac:(lia))
    as [(Hr & Hz) | (Hr & Hn & Hz)].
  - left. split; [exact Hr |]. intros j Hj. apply Hz. lia.
  - right. split; [lia |]. split; [exact Hn | exact Hz].
Qed.

End Lookup.

(** ** Growing a file *)

Lemma load8_memset (m : Z -> Z) (a c n x : Z) :
  load8 (memset m a c n) x
  = if (a <=? x) && (x <? a + n) then c mod 256 else load8 m x.
Proof.
  unfold load8, memset.
  destruct ((a <=? x) && (x <? a + n)); [apply Z.mod_mod; lia | reflexivity].
Qed.

Section Grow.
Context {hdr : ospfs_h}.

Lemma allocate_block_cases (d : disk) :
  os_nblocks (ospfs_super d) <= 2 ^ 31 ->
  exists b d',
    allocate_block d = Done b d'
    /\ ospfs_super d' = ospfs_super d
    /\ ospfs_inodes d' = ospfs_inodes d
    /\ ((b = 0 /\ d' = d
         /\ forall j, 2 <= j < os_nblocks (ospfs_super d) ->
                      block_is_free d j = false)
        \/ (2 <= b < os_nblocks (ospfs_super d)
            /\ block_is_free d b = true)).
Proof.
  intros Hn. unfold allocate_block, bind, gets, block_is_free.
  destruct (allocate_block_from_spec (ospfs_block OSPFS_FREEMAP_BLK)
              (Z.to_nat (os_nblocks (ospfs_super d) - OSPFS_FREEMAP_BLK))
              OSPFS_FREEMAP_BLK d)
    as (b & d' & E & Hs & Hi & H);
    [reflexivity | unfold OSPFS_FREEMAP_BLK; lia |].
  exists b, d'. split; [exact E |]. split; [exact Hs |]. split; [exact Hi |].
  unfold OSPFS_FREEMAP_BLK in *.
  destruct H as [(Hb & Hd & Hz) | (Hb & Ht & _)].
  - left. split; [exact Hb |]. split; [exact Hd |].
    intros j Hj. apply Hz. lia.
  - right. split; [lia | exact Ht].
Qed.

Lemma allocate_block_from_returns (fm : Z) (k : nat) :
  forall i d, exists b d', allocate_block_from k fm i d = Done b d'.
Proof.
  induction k as [| k IH]; intros i d; cbn [allocate_block_from].
  - exists 0, d. reflexivity.
  - unfold bind at 1. unfold gets at 1.
    destruct (bitvector_test fm (s32 i) d).
    + eexists _, _. reflexivity.
    + apply IH.
Qed.

Lemma allocate_block_returns (d : disk) :
  exists b d', allocate_block d = Done b d'.
Proof.
  unfold allocate_block, bind, gets. apply allocate_block_from_returns.
Qed.


(** X9.  [add_block] on a file of 266 blocks or more whose next block
    belongs to an indirect block that already exists under the
    doubly-indirect block: [indir_data] is only set when that indirect
    block is newly allocated, so the store [indir_data[index_direct] =
    allocate_block()] goes through the NULL pointer and the call faults. *)
Theorem add_block_existing_indirect_faults (oi n : Z) (d : disk) :
  ospfs_size2nblocks (oi_size (ospfs_inodes d oi)) = n ->
  n <> OSPFS_MAXFILEBLKS ->
  OSPFS_NDIRECT + OSPFS_NINDIRECT <= n ->
  oi_indirect2 (ospfs_inodes d oi) <> 0 ->
  slot d (oi_indirect2 (ospfs_inodes d oi)) (indir_index n) <> 0 ->
  add_block oi d = Oops.
Proof.
  intros Hn Hmax Hbig Hind2 Hslot.
  pose proof (nblocks_range (oi_size (ospfs_inodes d oi))) as Hr.
  rewrite Hn in Hr.
  destruct (indices_indirect2 n ltac:(lia)) as (E2 & Ei & Ed).
  assert (Hi0 : 0 <= indir_index n).
  { rewrite Ei. apply Z.div_pos; [lia | reflexivity]. }
  unfold add_block. unfold bind at 1. unfold oi_get at 1, gets at 1.
  rewrite Hn. cbv zeta.
  destruct (Z.eqb_spec n OSPFS_MAXFILEBLKS); [contradiction |].
  destruct (Z.eqb_spec (indir_index n) (-1)); [lia |].
  rewrite E2. change (0 =? 0) with true. cbv iota.
  unfold bind at 1. unfold oi_get at 1, gets at 1.
  destruct (Z.eqb_spec (oi_indirect2 (ospfs_inodes d oi)) 0); [contradiction |].
  unfold bind at 1. unfold ret at 1. cbn [andb].
  unfold bind at 1. unfold ret at 1.
  unfold bind at 1. unfold gets at 1.
  assert (Es : (word_at (ospfs_block (oi_indirect2 (ospfs_inodes d oi)))
                  (indir_index n) d =? 0) = false).
  { apply Z.eqb_neq. exact Hslot. }
  rewrite !Es. cbn [andb].
  unfold bind, ret, store_new_block, oops. cbv beta iota. unfold bind.
  destruct (allocate_block_returns d) as (v & d1 & ->).
  reflexivity.
Qed.

(** ** Changing the size *)

(** X10.  When the new size needs as many blocks as the file has,
    [change_size] allocates and frees nothing: it returns 0 and the only
    change to the image is the new value of [oi_size]. *)
Theorem change_size_same_blocks (oi new_size : Z) (d : disk) :
  ospfs_size2nblocks new_size
  = ospfs_size2nblocks (oi_size (ospfs_inodes d oi)) ->
  change_size oi new_size d
  = Done 0 {| ospfs_super := ospfs_super d;
              ospfs_inodes :=
                <[oi := with_size new_size (ospfs_inodes d oi)]> (ospfs_inodes d);
              ospfs_data := ospfs_data d |}.
Proof.
  intros H. unfold change_size.
  unfold bind at 1. unfold oi_get at 1, gets at 1.
  cbn [grow_loop]. unfold bind at 1. unfold bind at 1.
  unfold oi_get at 1, gets at 1. rewrite H, Z.ltb_irrefl.
  unfold ret at 1.
  unfold bind at 1. unfold oi_get at 1, gets at 1.
  cbn [shrink_loop]. unfold bind at 1. unfold bind at 1.
  unfold oi_get at 1, gets at 1. rewrite H, Z.ltb_irrefl.
  unfold ret at 1. unfold bind, oi_set, ret. reflexivity.
Qed.

Lemma grow_loop_result (oi new_size old_size : Z) (fuel : nat) :
  forall d r size d',
    grow_loop fuel oi new_size old_size 0 d = Done (inr (r, size)) d' ->
    (r = 0 /\ size = new_size) \/ (r = - ENOSPC /\ size = old_size).
Proof.
  induction fuel as [| fuel IH]; intros d r size d' H; cbn [grow_loop] in H;
    [discriminate H |].
  unfold bind at 1 in H. unfold oi_get at 1, gets at 1 in H.
  destruct (ospfs_size2nblocks (oi_size (ospfs_inodes d oi))
            <? ospfs_size2nblocks new_size).
  - apply bind_Done_inv in H. destruct H as (r' & d1 & E & H).
    destruct (Z.eqb_spec r' (- ENOSPC)) as [-> | Hne].
    + inversion H; subst. right. auto.
    + destruct (Z.eqb_spec r' (- EIO)) as [-> | Hne'].
      * inversion H.
      * apply add_block_returns in E.
        destruct E as [E | [E | [E _]]]; [contradiction | contradiction |].
        subst r'. eapply IH. exact H.
  - inversion H; subst. left. auto.
Qed.

(** X11.  A call of [change_size] that returns, returns 0, [-ENOSPC] or
    [-EIO]; after 0 the size of the file is the requested size, and after
    [-ENOSPC] it is the size the file had before the call. *)
Theorem change_size_results (oi new_size r : Z) (d d' : disk) :
  change_size oi new_size d = Done r d' ->
  (r = 0 /\ oi_size (ospfs_inodes d' oi) = new_size)
  \/ (r = - ENOSPC
      /\ oi_size (ospfs_inodes d' oi) = oi_size (ospfs_inodes d oi))
  \/ r = - EIO.
Proof.
  intros H. unfold change_size in H.
  unfold bind at 1 in H. unfold oi_get at 1, gets at 1 in H.
  apply bind_Done_inv in H. destruct H as (g & d1 & Eg & H).
  destruct g as [r0 | [r0 size]].
  - inversion H; subst. apply grow_loop_returns_eio in Eg. auto.
  - apply grow_loop_result in Eg.
    unfold bind at 1 in H. unfold oi_get at 1, gets at 1 in H.
    apply bind_Done_inv in H. destruct H as (s & d2 & Es & H).
    destruct s as [r1 |].
    + inversion H; subst. apply shrink_loop_returns_eio in Es. auto.
    + unfold bind, oi_set, ret in H. inversion H; subst r d'; clear H.
      cbn [ospfs_inodes]. rewrite fn_lookup_insert. cbn [oi_size with_size].
      destruct Eg as [[-> ->] | [-> ->]]; auto.
Qed.

End Grow.

(** ** Scanning a directory *)

Lemma cstring_inv (m : Z -> Z) (k : nat) :
  forall a s,
    cstring k m a = Some s ->
    (length s < k)%nat
    /\ (forall i, (i < length s)%nat ->
                  load8 m (a + Z.of_nat i) = nth i s 0 /\ nth i s 0 <> 0)
    /\ load8 m (a + Z.of_nat (length s)) = 0.
Proof.
  induction k as [| k IH]; intros a s H; cbn [cstring] in H; [discriminate H |].
  destruct (Z.eqb_spec (load8 m a) 0) as [E | E].
  - inversion H; subst s. cbn [length]. split; [lia |].
    split; [intros i Hi; lia |]. rewrite Z.add_0_r. exact E.
  - destruct (cstring k m (a + 1)) as [s' |] eqn:Es; [| discriminate H].
    cbn in H. inversion H; subst s. clear H.
    destruct (IH _ _ Es) as (Hl & Hc & Hz). cbn [length].
    split; [lia |]. split.
    + intros [| i] Hi; cbn [nth].
      * rewrite Z.add_0_r. auto.
      * replace (a + Z.of_nat (S i)) with (a + 1 + Z.of_nat i) by lia.
        apply Hc. lia.
    + replace (a + Z.of_nat (S (length s')))
        with (a + 1 + Z.of_nat (length s')) by lia.
      exact Hz.
Qed.

Lemma memcmp_eq_true (m : Z -> Z) (name : list Z) :
  forall a,
    memcmp_eq m a name = true
    <-> forall i, (i < length name)%nat ->
                  load8 m (a + Z.of_nat i) = nth i name 0 mod 256.
Proof.
  induction name as [| c name IH]; intros a; cbn [memcmp_eq length].
  - split; [intros _ i Hi; lia | reflexivity].
  - rewrite andb_true_iff, Z.eqb_eq, IH. split.
    + intros [H0 Hs] [| i] Hi; cbn [nth].
      * rewrite Z.add_0_r. exact H0.
      * replace (a + Z.of_nat (S i)) with (a + 1 + Z.of_nat i) by lia.
        apply Hs. lia.
    + intros H. split.
      * specialize (H 0%nat ltac:(lia)). cbn [nth] in H.
        rewrite Z.add_0_r in H. exact H.
      * intros i Hi. specialize (H (S i) ltac:(lia)). cbn [nth] in H.
        replace (a + Z.of_nat (S i)) with (a + 1 + Z.of_nat i) in H by lia.
        exact H.
Qed.

Lemma is_char_byte (s : list Z) (i : nat) :
  Forall is_char s -> (i < length s)%nat -> nth i s 0 mod 256 = nth i s 0.
Proof. intros Hs Hi. apply (nth_char s i Hs Hi). Qed.

Section Scan.
Context {hdr : ospfs_h}.

(** X12.  The test that [find_direntry], [ospfs_dir_lookup] and
    [ospfs_unlink] apply to a directory entry succeeds exactly when the
    entry is in use ([od_ino] is not 0) and the C string in its [od_name]
    field is the name looked for. *)
Theorem direntry_matches_name (od : Z) (name : list Z) (d : disk) :
  Forall is_char name ->
  direntry_matches od name d = Done true d
  <-> od_ino od d <> 0
      /\ cstring (Z.to_nat (OSPFS_MAXNAMELEN + 1)) (ospfs_data d) (od_name od)
         = Some name.
Proof.
  intros Hname. unfold direntry_matches, bind, gets, ret, od_name_string, strlen.
  destruct (Z.eqb_spec (od_ino od d) 0) as [E | E].
  - split; [intros H; discriminate H | intros [H _]; contradiction].
  - destruct (cstring (Z.to_nat (OSPFS_MAXNAMELEN + 1)) (ospfs_data d)
                (od_name od)) as [s |] eqn:Es.
    2:{ split; [intros H; discriminate H | intros [_ H]; discriminate H]. }
    destruct (cstring_inv _ _ _ _ Es) as (_ & Hc & _).
    destruct (Z.eqb_spec (Z.of_nat (length s)) (Z.of_nat (length name)))
      as [El | El].
    + apply Nat2Z.inj in El. split.
      * intros H. split; [exact E |]. f_equal.
        assert (T : memcmp_eq (ospfs_data d) (od_name od) name = true)
          by (inversion H; reflexivity).
        rewrite memcmp_eq_true in T.
        apply (nth_ext s name 0 0 El). intros i Hi.
        destruct (Hc i Hi) as [<- _]. rewrite T by lia.
        apply is_char_byte; [exact Hname | lia].
      * intros [_ H]. inversion H; subst s. do 2 f_equal.
        apply memcmp_eq_true. intros i Hi.
        destruct (Hc i Hi) as [-> _]. symmetry.
        apply is_char_byte; assumption.
    + split; [intros H; discriminate H |].
      intros [_ H]. inversion H; subst s. contradiction.
Qed.

(** The scan of [find_direntry] when no entry matches. *)
Lemma find_direntry_from_none (dir_oi : Z) (name : list Z) (d : disk) :
  0 < OSPFS_DIRENTRY_SIZE ->
  oi_size (ospfs_inodes d dir_oi) + OSPFS_DIRENTRY_SIZE <= 2 ^ 32 ->
  (forall j, 0 <= j ->
             j * OSPFS_DIRENTRY_SIZE < oi_size (ospfs_inodes d dir_oi) ->
             direntry_matches (entry_addr dir_oi j d) name d = Done false d) ->
  forall (n : nat) (j : Z) (fuel : nat),
    0 <= j ->
    j * OSPFS_DIRENTRY_SIZE
    < oi_size (ospfs_inodes d dir_oi) + OSPFS_DIRENTRY_SIZE ->
    (Z.to_nat (oi_size (ospfs_inodes d dir_oi) - j * OSPFS_DIRENTRY_SIZE) <= n)%nat ->
    (n < fuel)%nat ->
    find_direntry_from fuel dir_oi name (j * OSPFS_DIRENTRY_SIZE) d
    = Done None d.
Proof.
  intros Hds Hsize Hmiss.
  induction n as [| n IH]; intros j fuel Hj Hlim Hn Hf;
    (destruct fuel as [| fuel]; [lia |]);
    cbn [find_direntry_from]; unfold bind at 1; unfold oi_get at 1, gets at 1;
    rewrite (u32_id (j * OSPFS_DIRENTRY_SIZE)) by nia;
    destruct (Z.ltb_spec (j * OSPFS_DIRENTRY_SIZE)
                (oi_size (ospfs_inodes d dir_oi))) as [Hlt | Hge];
    try reflexivity; try lia.
  unfold bind at 1. unfold gets at 1. unfold bind at 1.
  fold (entry_addr dir_oi j d). rewrite (Hmiss j) by lia.
  replace (j * OSPFS_DIRENTRY_SIZE + OSPFS_DIRENTRY_SIZE)
    with ((j + 1) * OSPFS_DIRENTRY_SIZE) by lia.
  apply IH; lia.
Qed.

(** The scan of [find_direntry] up to the first match. *)
Lemma find_direntry_from_finds (dir_oi : Z) (name : list Z) (k : Z) (d : disk) :
  0 < OSPFS_DIRENTRY_SIZE ->
  oi_size (ospfs_inodes d dir_oi) < 2 ^ 32 ->
  first_match dir_oi name k d ->
  forall (n : nat) (j : Z) (fuel : nat),
    0 <= j -> j + Z.of_nat n = k -> (n < fuel)%nat ->
    find_direntry_from fuel dir_oi name (j * OSPFS_DIRENTRY_SIZE) d
    = Done (Some (entry_addr dir_oi k d)) d.
Proof.
  intros Hds Hsize (Hk & Hin & Hhit & Hmiss).
  induction n as [| n IH]; intros j fuel Hj Hjk Hf;
    (destruct fuel as [| fuel]; [lia |]);
    cbn [find_direntry_from]; unfold bind at 1; unfold oi_get at 1, gets at 1.
  - assert (j = k) by lia. subst j.
    rewrite (u32_id (k * OSPFS_DIRENTRY_SIZE)) by nia.
    destruct (Z.ltb_spec (k * OSPFS_DIRENTRY_SIZE)
                (oi_size (ospfs_inodes d dir_oi))); [| lia].
    unfold bind at 1. unfold gets at 1. unfold bind at 1.
    fold (entry_addr dir_oi k d). rewrite Hhit. reflexivity.
  - assert (Hlt : j * OSPFS_DIRENTRY_SIZE < k * OSPFS_DIRENTRY_SIZE) by nia.
    rewrite (u32_id (j * OSPFS_DIRENTRY_SIZE)) by nia.
    destruct (Z.ltb_spec (j * OSPFS_DIRENTRY_SIZE)
                (oi_size (ospfs_inodes d dir_oi))); [| lia].
    unfold bind at 1. unfold gets at 1. unfold bind at 1.
    fold (entry_addr dir_oi j d). rewrite (Hmiss j) by lia.
    replace (j * OSPFS_DIRENTRY_SIZE + OSPFS_DIRENTRY_SIZE)
      with ((j + 1) * OSPFS_DIRENTRY_SIZE) by lia.
    apply IH; lia.
Qed.

Lemma find_direntry_finds (dir_oi : Z) (name : list Z) (k : Z) (d : disk) :
  0 < OSPFS_DIRENTRY_SIZE ->
  oi_size (ospfs_inodes d dir_oi) < 2 ^ 32 ->
  first_match dir_oi name k d ->
  find_direntry dir_oi name d = Done (Some (entry_addr dir_oi k d)) d.
Proof.
  intros Hds Hsize Hm. unfold find_direntry.
  unfold bind at 1. unfold oi_get at 1, gets at 1.
  change 0 with (0 * OSPFS_DIRENTRY_SIZE) at 1.
  destruct Hm as (Hk & Hin & Hrest).
  apply (find_direntry_from_finds dir_oi name k d Hds Hsize
           (conj Hk (conj Hin Hrest)) (Z.to_nat k) 0); nia.
Qed.

Lemma find_direntry_absent (dir_oi : Z) (name : list Z) (d : disk) :
  0 < OSPFS_DIRENTRY_SIZE ->
  oi_size (ospfs_inodes d dir_oi) + OSPFS_DIRENTRY_SIZE <= 2 ^ 32 ->
  0 <= oi_size (ospfs_inodes d dir_oi) ->
  (forall j, 0 <= j ->
             j * OSPFS_DIRENTRY_SIZE < oi_size (ospfs_inodes d dir_oi) ->
             direntry_matches (entry_addr dir_oi j d) name d = Done false d) ->
  find_direntry dir_oi name d = Done None d.
Proof.
  intros Hds Hsize H0 Hmiss. unfold find_direntry.
  unfold bind at 1. unfold oi_get at 1, gets at 1.
  change 0 with (0 * OSPFS_DIRENTRY_SIZE) at 1.
  apply (find_direntry_from_none dir_oi name d Hds Hsize Hmiss
           (Z.to_nat (oi_size (ospfs_inodes d dir_oi))) 0); lia.
Qed.

(** X13.  [find_direntry] returns the first entry of the directory that
    matches the name, and NULL when no entry of the directory matches; it
    leaves the image as it is. *)
Theorem find_direntry_first_match (dir_oi : Z) (name : list Z) (d : disk) :
  0 < OSPFS_DIRENTRY_SIZE ->
  0 <= oi_size (ospfs_inodes d dir_oi) ->
  oi_size (ospfs_inodes d dir_oi) + OSPFS_DIRENTRY_SIZE <= 2 ^ 32 ->
  (forall k, first_match dir_oi name k d ->
             find_direntry dir_oi name d
             = Done (Some (entry_addr dir_oi k d)) d)
  /\ ((forall j, 0 <= j ->
                 j * OSPFS_DIRENTRY_SIZE < oi_size (ospfs_inodes d dir_oi) ->
                 direntry_matches (entry_addr dir_oi j d) name d = Done false d) ->
      find_direntry dir_oi name d = Done None d).
Proof.
  intros Hds H0 Hsize. split.
  - intros k Hm. apply find_direntry_finds; [exact Hds | lia | exact Hm].
  - intros Hmiss. apply find_direntry_absent; assumption.
Qed.

(** The two scans visit the same entries with the same test. *)
Lemma lookup_scan_agrees (ok : bool) (dir_oi : Z) (name : list Z)
    (fuel : nat) :
  forall off d r d',
    find_direntry_from fuel dir_oi name off d = Done r d' ->
    lookup_scan fuel ok dir_oi name off d
    = match r with
      | None => Done (inr None) d
      | Some od =>
          match ospfs_mk_linux_inode ok (od_ino od d) d with
          | Done true _ => Done (inr (Some (od_ino od d))) d
          | Done false _ => Done (inl (- EINVAL)) d
          | Oops => Oops
          | Fuel => Fuel
          end
      end.
Proof.
  induction fuel as [| fuel IH]; intros off d r d' H;
    cbn [find_direntry_from] in H; [discriminate H |].
  cbn [lookup_scan].
  unfold bind at 1 in H. unfold oi_get at 1, gets at 1 in H.
  unfold bind at 1. unfold oi_get at 1, gets at 1.
  destruct (u32 off <? oi_size (ospfs_inodes d dir_oi)).
  - unfold bind at 1 in H. unfold gets at 1 in H.
    unfold bind at 1. unfold gets at 1.
    apply bind_Done_inv in H. destruct H as (hit & d1 & E & H).
    assert (d1 = d).
    { apply (keeps_direntry_matches (fun a b => b = a) _ _
               ltac:(split; [intros x; reflexivity
                            | intros x y z Hxy Hyz; congruence]) _ _ _ E). }
    subst d1. unfold bind at 1. rewrite E.
    destruct hit.
    + inversion H; subst r d'. unfold bind at 1. unfold gets at 1.
      unfold bind.
      destruct (ospfs_mk_linux_inode ok
                  (od_ino (ospfs_inode_data dir_oi (u32 off) d) d) d)
        as [[|] d2 | |] eqn:Em; try reflexivity;
        apply ospfs_mk_linux_inode_reads in Em; subst d2; reflexivity.
    + eapply IH. exact H.
  - inversion H; subst r d'. reflexivity.
Qed.

(** X14.  [ospfs_dir_lookup] refuses a name longer than
    [OSPFS_MAXNAMELEN] with [-ENAMETOOLONG]; otherwise it attaches the
    inode of the entry that [find_direntry] finds for the name, returns a
    negative dentry when [find_direntry] finds none, and returns [-EINVAL]
    when no Linux inode can be made for the entry found. *)
Theorem lookup_agrees_with_find_direntry (ok : bool) (dir_ino : Z)
    (name : list Z) (r : option Z) (d d' : disk) :
  dir_ino < os_ninodes (ospfs_super d) ->
  find_direntry dir_ino name d = Done r d' ->
  ospfs_dir_lookup ok dir_ino name d
  = if OSPFS_MAXNAMELEN <? strlen name then Done (inl (- ENAMETOOLONG)) d
    else match r with
         | None => Done (inr None) d
         | Some od =>
             match ospfs_mk_linux_inode ok (od_ino od d) d with
             | Done true _ => Done (inr (Some (od_ino od d))) d
             | Done false _ => Done (inl (- EINVAL)) d
             | Oops => Oops
             | Fuel => Fuel
             end
         end.
Proof.
  intros Hdir H. unfold ospfs_dir_lookup.
  unfold bind at 1. unfold gets at 1. unfold ospfs_inode.
  destruct (Z.leb_spec (os_ninodes (ospfs_super d)) dir_ino); [lia |].
  destruct (OSPFS_MAXNAMELEN <? strlen name); [reflexivity |].
  unfold deref. unfold bind at 1. unfold ret at 1.
  unfold bind at 1. unfold oi_get at 1, gets at 1.
  unfold find_direntry in H.
  unfold bind at 1 in H. unfold oi_get at 1, gets at 1 in H.
  eapply lookup_scan_agrees. exact H.
Qed.

(** The scan of [ospfs_unlink] when no entry matches. *)
Lemma unlink_scan_none (dir_oi : Z) (name : list Z) (d : disk) :
  0 < OSPFS_DIRENTRY_SIZE ->
  oi_size (ospfs_inodes d dir_oi) + OSPFS_DIRENTRY_SIZE <= 2 ^ 32 ->
  (forall j, 0 <= j ->
             j * OSPFS_DIRENTRY_SIZE < oi_size (ospfs_inodes d dir_oi) ->
             direntry_matches (entry_addr dir_oi j d) name d = Done false d) ->
  forall (n : nat) (j m : Z) (fuel : nat) (od : option Z),
    0 <= j <= m ->
    oi_size (ospfs_inodes d dir_oi) = m * OSPFS_DIRENTRY_SIZE ->
    (Z.to_nat (m - j) <= n)%nat ->
    (n < fuel)%nat ->
    exists od',
      unlink_scan fuel dir_oi name (j * OSPFS_DIRENTRY_SIZE) od d
      = Done (m * OSPFS_DIRENTRY_SIZE, od') d.
Proof.
  intros Hds Hsize Hmiss.
  induction n as [| n IH]; intros j m fuel od Hj Hm Hn Hf;
    (destruct fuel as [| fuel]; [lia |]);
    cbn [unlink_scan]; unfold bind at 1; unfold oi_get at 1, gets at 1;
    rewrite (u32_id (j * OSPFS_DIRENTRY_SIZE)) by nia;
    destruct (Z.ltb_spec (j * OSPFS_DIRENTRY_SIZE)
                (oi_size (ospfs_inodes d dir_oi))) as [Hlt | Hge].
  - exfalso. assert (j = m) by lia. subst j. lia.
  - assert (j = m) by nia. subst j. exists od. reflexivity.
  - unfold bind at 1. unfold gets at 1. unfold bind at 1.
    fold (entry_addr dir_oi j d). rewrite (Hmiss j) by lia.
    replace (j * OSPFS_DIRENTRY_SIZE + OSPFS_DIRENTRY_SIZE)
      with ((j + 1) * OSPFS_DIRENTRY_SIZE) by lia.
    apply IH; nia.
  - assert (j = m) by nia. subst j. exists od. reflexivity.
Qed.

(** X15.  [ospfs_unlink] on a name that no entry of the directory carries
    (the directory size being a whole number of entries): it returns
    [-ENOENT] and leaves the image, link counts included, as it is. *)
Theorem ospfs_unlink_enoent (ino dir_ino m : Z) (name : list Z) (d : disk) :
  0 < OSPFS_DIRENTRY_SIZE ->
  dir_ino < os_ninodes (ospfs_super d) ->
  0 <= m ->
  oi_size (ospfs_inodes d dir_ino) = m * OSPFS_DIRENTRY_SIZE ->
  oi_size (ospfs_inodes d dir_ino) + OSPFS_DIRENTRY_SIZE <= 2 ^ 32 ->
  (forall j, 0 <= j ->
             j * OSPFS_DIRENTRY_SIZE < oi_size (ospfs_inodes d dir_ino) ->
             direntry_matches (entry_addr dir_ino j d) name d = Done false d) ->
  ospfs_unlink ino dir_ino name d = Done (- ENOENT) d.
Proof.
  intros Hds Hdir Hm Hsz Hsize Hmiss. unfold ospfs_unlink.
  unfold bind at 1. unfold gets at 1.
  unfold bind at 1. unfold gets at 1.
  unfold ospfs_inode.
  destruct (Z.leb_spec (os_ninodes (ospfs_super d)) dir_ino); [lia |].
  unfold deref. unfold bind at 1. unfold ret at 1.
  unfold bind at 1. unfold oi_get at 1, gets at 1.
  destruct (unlink_scan_none dir_ino name d Hds Hsize Hmiss
              (Z.to_nat m) 0 m
              (S (Z.to_nat (oi_size (ospfs_inodes d dir_ino)))) None
              ltac:(lia) Hsz ltac:(lia) ltac:(nia)) as (od' & E).
  change (0 * OSPFS_DIRENTRY_SIZE) with 0 in E.
  unfold bind at 1. rewrite E.
  unfold bind at 1. unfold oi_get at 1, gets at 1.
  rewrite u32_id by nia. rewrite Hsz, Z.eqb_refl. reflexivity.
Qed.

(** The scan of [create_blank_direntry] up to the first blank entry. *)
Lemma blank_scan_finds (dir_oi k : Z) (d : disk) :
  0 < OSPFS_DIRENTRY_SIZE ->
  oi_size (ospfs_inodes d dir_oi) < 2 ^ 32 ->
  0 <= k ->
  k * OSPFS_DIRENTRY_SIZE < oi_size (ospfs_inodes d dir_oi) ->
  od_ino (entry_addr dir_oi k d) d = 0 ->
  (forall j, 0 <= j < k -> od_ino (entry_addr dir_oi j d) d <> 0) ->
  forall (n : nat) (j : Z) (fuel : nat),
    0 <= j -> j + Z.of_nat n = k -> (n < fuel)%nat ->
    blank_scan fuel dir_oi (j * OSPFS_DIRENTRY_SIZE) d
    = Done (inr (entry_addr dir_oi k d)) d.
Proof.
  intros Hds Hsize Hk Hin Hblank Hused.
  induction n as [| n IH]; intros j fuel Hj Hjk Hf;
    (destruct fuel as [| fuel]; [lia |]);
    cbn [blank_scan]; unfold bind at 1; unfold oi_get at 1, gets at 1.
  - assert (j = k) by lia. subst j.
    rewrite (u32_id (k * OSPFS_DIRENTRY_SIZE)) by nia.
    destruct (Z.ltb_spec (k * OSPFS_DIRENTRY_SIZE)
                (oi_size (ospfs_inodes d dir_oi))); [| lia].
    unfold bind at 1. unfold gets at 1. unfold bind at 1. unfold gets at 1.
    fold (entry_addr dir_oi k d). rewrite Hblank. reflexivity.
  - assert (Hlt : j * OSPFS_DIRENTRY_SIZE < k * OSPFS_DIRENTRY_SIZE) by nia.
    rewrite (u32_id (j * OSPFS_DIRENTRY_SIZE)) by nia.
    destruct (Z.ltb_spec (j * OSPFS_DIRENTRY_SIZE)
                (oi_size (ospfs_inodes d dir_oi))); [| lia].
    unfold bind at 1. unfold gets at 1. unfold bind at 1. unfold gets at 1.
    fold (entry_addr dir_oi j d).
    destruct (Z.eqb_spec (od_ino (entry_addr dir_oi j d) d) 0) as [E | E];
      [exfalso; apply (Hused j); [lia | exact E] |].
    replace (j * OSPFS_DIRENTRY_SIZE + OSPFS_DIRENTRY_SIZE)
      with ((j + 1) * OSPFS_DIRENTRY_SIZE) by lia.
    apply IH; lia.
Qed.

Lemma create_blank_direntry_finds (dir_oi k : Z) (d : disk) :
  0 < OSPFS_DIRENTRY_SIZE ->
  oi_size (ospfs_inodes d dir_oi) < 2 ^ 32 ->
  oi_ftype (ospfs_inodes d dir_oi) = OSPFS_FTYPE_DIR ->
  0 <= k ->
  k * OSPFS_DIRENTRY_SIZE < oi_size (ospfs_inodes d dir_oi) ->
  od_ino (entry_addr dir_oi k d) d = 0 ->
  (forall j, 0 <= j < k -> od_ino (entry_addr dir_oi j d) d <> 0) ->
  create_blank_direntry dir_oi d = Done (inr (entry_addr dir_oi k d)) d.
Proof.
  intros Hds Hsize Hdir Hk Hin Hblank Hused. unfold create_blank_direntry.
  unfold bind at 1. unfold oi_get at 1, gets at 1.
  rewrite Hdir, Z.eqb_refl. cbn [negb].
  unfold bind at 1. unfold oi_get at 1, gets at 1.
  unfold bind at 1.
  change 0 with (0 * OSPFS_DIRENTRY_SIZE) at 1.
  rewrite (blank_scan_finds dir_oi k d Hds Hsize Hk Hin Hblank Hused
             (Z.to_nat k) 0) by nia.
  reflexivity.
Qed.

(** X16.  [create_blank_direntry] refuses an inode that is not a directory
    with [-EIO]; in a directory that has an unused entry it returns the
    first unused entry; in both cases the image stays as it is (no block
    is allocated). *)
Theorem create_blank_direntry_reuses (dir_oi : Z) (d : disk) :
  0 < OSPFS_DIRENTRY_SIZE ->
  oi_size (ospfs_inodes d dir_oi) < 2 ^ 32 ->
  (oi_ftype (ospfs_inodes d dir_oi) <> OSPFS_FTYPE_DIR ->
   create_blank_direntry dir_oi d = Done (inl (- EIO)) d)
  /\ (oi_ftype (ospfs_inodes d dir_oi) = OSPFS_FTYPE_DIR ->
      forall k,
        0 <= k ->
        k * OSPFS_DIRENTRY_SIZE < oi_size (ospfs_inodes d dir_oi) ->
        od_ino (entry_addr dir_oi k d) d = 0 ->
        (forall j, 0 <= j < k -> od_ino (entry_addr dir_oi j d) d <> 0) ->
        create_blank_direntry dir_oi d = Done (inr (entry_addr dir_oi k d)) d).
Proof.
  intros Hds Hsize. split.
  - intros Hdir. unfold create_blank_direntry.
    unfold bind at 1. unfold oi_get at 1, gets at 1.
    destruct (Z.eqb_spec (oi_ftype (ospfs_inodes d dir_oi)) OSPFS_FTYPE_DIR);
      [contradiction | reflexivity].
  - intros Hdir k Hk Hin Hblank Hused.
    apply create_blank_direntry_finds; assumption.
Qed.

End Scan.

(** ** Reading a file *)

Lemma no_overflow_test (dm : data_model) (f_pos count : Z) :
  0 <= f_pos < 2 ^ 63 ->
  0 <= count <= size_max dm ->
  ~ addition_overflows dm f_pos count ->
  to_sum_type dm f_pos = f_pos
  /\ pos_plus_count dm f_pos count = Some (f_pos + count).
Proof.
  intros Hpos Hcount Hov.
  unfold addition_overflows, pos_plus_count in *.
  destruct dm; cbn [to_sum_type sum_type_max size_max] in *.
  - rewrite (s64_id f_pos) in * by lia. split; [reflexivity |].
    cbv zeta.
    destruct (Z.leb_spec (- 2 ^ 63) (f_pos + count)); [| lia].
    destruct (Z.leb_spec (f_pos + count) (2 ^ 63 - 1)); [| lia].
    reflexivity.
  - unfold u64 in *. rewrite (Z.mod_small f_pos) in * by lia.
    split; [reflexivity |]. f_equal. apply Z.mod_small. lia.
Qed.

Lemma size_t_id (dm : data_model) (x : Z) : 0 <= x < 2 ^ 32 -> size_t dm x = x.
Proof.
  intros H. destruct dm; cbn [size_t]; [apply u32_id; lia |].
  unfold u64. apply Z.mod_small. lia.
Qed.

Lemma load_bytes_map (m : Z -> Z) (n : nat) :
  forall a, load_bytes m a n
            = map (fun k => load8 m (a + Z.of_nat k)) (seq 0 n).
Proof.
  induction n as [| n IH]; intros a; cbn [load_bytes seq map]; [reflexivity |].
  rewrite Z.add_0_r. f_equal. rewrite IH, <- (seq_shift n 0), map_map.
  apply map_ext. intros k. f_equal. lia.
Qed.

Lemma seq_from (n m : nat) : seq n m = map (Nat.add n) (seq 0 m).
Proof.
  revert n. induction m as [| m IH]; intros n; cbn [seq map]; [reflexivity |].
  rewrite Nat.add_0_r. f_equal.
  rewrite <- (seq_shift m 0), map_map, (IH (S n)).
  apply map_ext. intros k. lia.
Qed.

Section Read.
Context {hdr : ospfs_h}.

(** Offsets of one block below the size share their block number. *)
Lemma blockno_same_block (oi off off' : Z) (d : disk) :
  off / OSPFS_BLKSIZE = off' / OSPFS_BLKSIZE ->
  off < oi_size (ospfs_inodes d oi) ->
  off' < oi_size (ospfs_inodes d oi) ->
  ospfs_inode_blockno oi off d = ospfs_inode_blockno oi off' d.
Proof.
  intros E H H'. unfold ospfs_inode_blockno. cbv zeta. rewrite E.
  destruct (Z.leb_spec (oi_size (ospfs_inodes d oi)) off); [lia |].
  destruct (Z.leb_spec (oi_size (ospfs_inodes d oi)) off'); [lia |].
  reflexivity.
Qed.

Lemma file_bytes_app (oi pos : Z) (n m : nat) (d : disk) :
  file_bytes oi pos (n + m) d
  = file_bytes oi pos n d ++ file_bytes oi (pos + Z.of_nat n) m d.
Proof.
  unfold file_bytes. rewrite seq_app, map_app. f_equal.
  cbn [Nat.add]. rewrite (seq_from n m), map_map.
  apply map_ext. intros k. do 2 f_equal. lia.
Qed.

(** The bytes of one chunk are the bytes of the file. *)
Lemma chunk_is_file_bytes (oi pos : Z) (n : nat) (d : disk) :
  0 <= pos ->
  pos + Z.of_nat n <= oi_size (ospfs_inodes d oi) ->
  pos mod OSPFS_BLKSIZE + Z.of_nat n <= OSPFS_BLKSIZE ->
  load_bytes (ospfs_data d)
    (ospfs_block (ospfs_inode_blockno oi pos d) + pos mod OSPFS_BLKSIZE) n
  = file_bytes oi pos n d.
Proof.
  intros Hpos Hsize Hblk. rewrite load_bytes_map. unfold file_bytes.
  apply map_ext_in. intros k Hk. apply in_seq in Hk. f_equal.
  unfold ospfs_inode_data. cbv zeta.
  unfold OSPFS_BLKSIZE in *.
  pose proof (Z.div_mod pos 1024 ltac:(lia)) as Hdm.
  pose proof (Z.mod_pos_bound pos 1024 ltac:(lia)) as Hm.
  assert (Eq : (pos + Z.of_nat k) / 1024 = pos / 1024).
  { symmetry. apply Z.div_unique with (r := pos mod 1024 + Z.of_nat k); lia. }
  assert (Er : (pos + Z.of_nat k) mod 1024 = pos mod 1024 + Z.of_nat k).
  { symmetry. apply Z.mod_unique with (q := pos / 1024); lia. }
  rewrite Er.
  rewrite (blockno_same_block oi (pos + Z.of_nat k) pos d);
    [lia | exact Eq | lia | lia].
Qed.

(** The copy loop of [ospfs_read] over a range whose blocks are present. *)
Lemma read_loop_spec (dm : data_model) (user_ok : Z -> Z -> bool)
    (oi f_pos n : Z) (d : disk) :
  (forall a k, user_ok a k = true) ->
  0 <= f_pos ->
  0 <= n ->
  f_pos + n <= oi_size (ospfs_inodes d oi) ->
  oi_size (ospfs_inodes d oi) < 2 ^ 32 ->
  (forall off, f_pos <= off < f_pos + n -> ospfs_inode_blockno oi off d <> 0) ->
  forall (fuel : nat) (amount : Z) (out : list Z),
    0 <= amount <= n ->
    (Z.to_nat (n - amount) < fuel)%nat ->
    read_loop dm user_ok fuel oi n amount (f_pos + amount) out d
    = Done (n, f_pos + n,
            out ++ file_bytes oi (f_pos + amount) (Z.to_nat (n - amount)) d) d.
Proof.
  intros Hok Hpos Hn Hsize H32 Hblk.
  induction fuel as [| fuel IH]; intros amount out Ha Hf; [lia |].
  cbn [read_loop].
  destruct (Z.ltb_spec amount n) as [Hlt | Hge].
  2:{ assert (amount = n) by lia. subst amount.
      rewrite Z.sub_diag. cbn [Z.to_nat file_bytes seq map].
      unfold file_bytes. cbn [seq map]. rewrite app_nil_r. reflexivity. }
  set (pos := f_pos + amount) in *.
  unfold bind at 1. unfold gets at 1. cbv zeta.
  rewrite (u32_id pos) by lia.
  destruct (Z.eqb_spec (ospfs_inode_blockno oi pos d) 0) as [E | _];
    [exfalso; apply (Hblk pos); [lia | exact E] |].
  rewrite Z.rem_mod_nonneg by (unfold OSPFS_BLKSIZE; lia).
  pose proof (Z.mod_pos_bound pos OSPFS_BLKSIZE ltac:(reflexivity)) as Hm.
  unfold OSPFS_BLKSIZE in Hm.
  rewrite (u32_id (pos mod OSPFS_BLKSIZE)) by (unfold OSPFS_BLKSIZE; lia).
  rewrite (u32_id (OSPFS_BLKSIZE - pos mod OSPFS_BLKSIZE))
    by (unfold OSPFS_BLKSIZE; lia).
  rewrite (u32_id (n - amount)) by lia.
  set (step := if n - amount <? OSPFS_BLKSIZE - pos mod OSPFS_BLKSIZE
               then n - amount else OSPFS_BLKSIZE - pos mod OSPFS_BLKSIZE).
  assert (Hstep : 0 < step <= n - amount
                  /\ pos mod OSPFS_BLKSIZE + step <= OSPFS_BLKSIZE).
  { subst step. unfold OSPFS_BLKSIZE.
    destruct (Z.ltb_spec (n - amount) (1024 - pos mod 1024)); lia. }
  rewrite Hok. cbn [negb].
  unfold bind at 1. unfold gets at 1.
  rewrite (chunk_is_file_bytes oi pos (Z.to_nat step) d)
    by (rewrite ?Z2Nat.id; lia).
  rewrite (size_t_id dm (amount + step)) by lia.
  rewrite (s64_id (pos + step)) by lia.
  replace (pos + step) with (f_pos + (amount + step)) by (subst pos; lia).
  rewrite IH by lia.
  rewrite <- app_assoc. do 3 f_equal.
  replace (Z.to_nat (n - amount))
    with (Z.to_nat step + Z.to_nat (n - (amount + step)))%nat by lia.
  rewrite file_bytes_app. f_equal. f_equal. subst pos. lia.
Qed.


(** X18.  [ospfs_read] at or beyond the end of the file reads nothing: it
    returns 0 and leaves the file position, the user buffer and the image
    as they are. *)
Theorem ospfs_read_at_eof (dm : data_model) (user_ok : Z -> Z -> bool)
    (fuel : nat) (ino count f_pos : Z) (d : disk) :
  ino < os_ninodes (ospfs_super d) ->
  0 <= f_pos < 2 ^ 63 ->
  oi_size (ospfs_inodes d ino) <= f_pos ->
  0 <= count <= size_max dm ->
  ~ addition_overflows dm f_pos count ->
  ospfs_read dm user_ok (S fuel) ino count f_pos d = Done (0, f_pos, []) d.
Proof.
  intros Hino Hpos Heof Hcount Hov.
  destruct (no_overflow_test dm f_pos count Hpos Hcount Hov) as [E1 E2].
  unfold ospfs_read. unfold bind at 1. unfold gets at 1.
  rewrite E2. cbn [defined]. unfold bind at 1. unfold ret at 1.
  rewrite E1.
  destruct (Z.ltb_spec (f_pos + count) f_pos); [lia |].
  unfold ospfs_inode.
  destruct (Z.leb_spec (os_ninodes (ospfs_super d)) ino); [lia |].
  unfold deref. unfold bind at 1. unfold ret at 1.
  unfold bind at 1. unfold oi_get at 1, gets at 1.
  destruct (Z.leb_spec (oi_size (ospfs_inodes d ino)) f_pos); [| lia].
  reflexivity.
Qed.

End Read.

(** ** Writing a file *)

Lemma load8_store_bytes (bs : list Z) :
  forall (m : Z -> Z) (a x : Z),
    load8 (store_bytes m a bs) x
    = if (a <=? x) && (x <? a + Z.of_nat (length bs))
      then nth (Z.to_nat (x - a)) bs 0 mod 256
      else load8 m x.
Proof.
  induction bs as [| b bs IH]; intros m a x; cbn [store_bytes length].
  - destruct (Z.leb_spec a x), (Z.ltb_spec x (a + Z.of_nat 0));
      cbn [andb]; try reflexivity; lia.
  - rewrite IH, load8_store8.
    destruct (decide (a = x)) as [-> | Hne].
    + destruct (Z.leb_spec (x + 1) x); [lia |]. cbn [andb].
      destruct (Z.leb_spec x x); [| lia].
      destruct (Z.ltb_spec x (x + Z.of_nat (S (length bs)))); [| lia].
      cbn [andb]. rewrite Z.sub_diag. reflexivity.
    + destruct (Z.leb_spec (a + 1) x),
        (Z.ltb_spec x (a + 1 + Z.of_nat (length bs))),
        (Z.leb_spec a x),
        (Z.ltb_spec x (a + Z.of_nat (S (length bs))));
        cbn [andb]; try lia; try reflexivity.
      replace (Z.to_nat (x - a)) with (S (Z.to_nat (x - (a + 1)))) by lia.
      reflexivity.
Qed.

Lemma load8_mod (m : Z -> Z) (a : Z) : load8 m a mod 256 = load8 m a.
Proof. unfold load8. apply Z.mod_mod. lia. Qed.

Lemma nth_load_bytes (m : Z -> Z) (n : nat) :
  forall (a : Z) (k : nat),
    (k < n)%nat -> nth k (load_bytes m a n) 0 = load8 m (a + Z.of_nat k).
Proof.
  induction n as [| n IH]; intros a k Hk; [lia |].
  cbn [load_bytes]. destruct k as [| k]; cbn [nth].
  - rewrite Z.add_0_r. reflexivity.
  - rewrite IH by lia. f_equal. lia.
Qed.

Lemma length_load_bytes (m : Z -> Z) (n : nat) :
  forall a, length (load_bytes m a n) = n.
Proof. induction n as [| n IH]; intros a; cbn; [reflexivity | rewrite IH; reflexivity]. Qed.

Section Write.
Context {hdr : ospfs_h}.
Context (dm : data_model) (user_ok : Z -> Z -> bool).
Context (ino : Z) (d : disk).

(** The address of the byte at offset [o] of a file whose blocks are all
    direct. *)
Let address (o : Z) : Z :=
  oi_direct (ospfs_inodes d ino) (o / OSPFS_BLKSIZE) * OSPFS_BLKSIZE
  + o mod OSPFS_BLKSIZE.

Hypothesis Hok : forall a k, user_ok a k = true.
Hypothesis Hino : ino < os_ninodes (ospfs_super d).
Hypothesis Hreg : oi_ftype (ospfs_inodes d ino) <> OSPFS_FTYPE_SYMLINK.
Hypothesis Hsmall :
  oi_size (ospfs_inodes d ino) <= OSPFS_NDIRECT * OSPFS_BLKSIZE.
Hypothesis Hblocks :
  forall b, 0 <= b -> b * OSPFS_BLKSIZE < oi_size (ospfs_inodes d ino) ->
            0 < oi_direct (ospfs_inodes d ino) b < 2 ^ 22.
Hypothesis Hdistinct :
  forall b b', 0 <= b < b' ->
               b' * OSPFS_BLKSIZE < oi_size (ospfs_inodes d ino) ->
               oi_direct (ospfs_inodes d ino) b
               <> oi_direct (ospfs_inodes d ino) b'.

Lemma direct_lookup (o : Z) (d1 : disk) :
  ospfs_inodes d1 = ospfs_inodes d ->
  0 <= o < oi_size (ospfs_inodes d ino) ->
  ospfs_inode_blockno ino o d1
  = oi_direct (ospfs_inodes d ino) (o / OSPFS_BLKSIZE)
  /\ ospfs_inode_data ino o d1 = address o.
Proof.
  intros Hi Ho.
  assert (Hb : 0 <= o / OSPFS_BLKSIZE < OSPFS_NDIRECT).
  { unfold OSPFS_BLKSIZE, OSPFS_NDIRECT in *.
    split; [apply Z.div_pos; lia | apply Z.div_lt_upper_bound; lia]. }
  assert (E : ospfs_inode_blockno ino o d1
              = oi_direct (ospfs_inodes d ino) (o / OSPFS_BLKSIZE)).
  { unfold ospfs_inode_blockno. cbv zeta. rewrite Hi.
    destruct (Z.leb_spec (oi_size (ospfs_inodes d ino)) o); [lia |].
    destruct (Z.eqb_spec (oi_ftype (ospfs_inodes d ino)) OSPFS_FTYPE_SYMLINK);
      [contradiction |].
    cbn [orb].
    destruct (Z.leb_spec (OSPFS_NDIRECT + OSPFS_NINDIRECT) (o / OSPFS_BLKSIZE));
      [unfold OSPFS_NINDIRECT in *; lia |].
    destruct (Z.leb_spec OSPFS_NDIRECT (o / OSPFS_BLKSIZE)); [lia |].
    reflexivity. }
  split; [exact E |].
  unfold ospfs_inode_data, address. cbv zeta. rewrite E. f_equal.
  unfold ospfs_block. apply u32_id.
  pose proof (Hblocks (o / OSPFS_BLKSIZE) ltac:(lia)) as Hblk.
  unfold OSPFS_BLKSIZE in *.
  pose proof (Z.div_mod o 1024 ltac:(lia)).
  pose proof (Z.mod_pos_bound o 1024 ltac:(lia)).
  lia.
Qed.

Lemma address_block (o : Z) :
  0 <= o < oi_size (ospfs_inodes d ino) ->
  address o / OSPFS_BLKSIZE
  = oi_direct (ospfs_inodes d ino) (o / OSPFS_BLKSIZE)
  /\ address o mod OSPFS_BLKSIZE = o mod OSPFS_BLKSIZE.
Proof.
  intros Ho. unfold address, OSPFS_BLKSIZE.
  pose proof (Z.mod_pos_bound o 1024 ltac:(lia)) as Hm.
  split.
  - symmetry. apply Z.div_unique with (r := o mod 1024); lia.
  - symmetry.
    apply Z.mod_unique
      with (q := oi_direct (ospfs_inodes d ino) (o / 1024)); lia.
Qed.

Lemma address_injective (o o' : Z) :
  0 <= o < oi_size (ospfs_inodes d ino) ->
  0 <= o' < oi_size (ospfs_inodes d ino) ->
  o <> o' -> address o <> address o'.
Proof.
  intros Ho Ho' Hne E.
  destruct (address_block o Ho) as [Eb Em].
  destruct (address_block o' Ho') as [Eb' Em'].
  rewrite E in Eb, Em. rewrite Eb' in Eb. rewrite Em' in Em.
  unfold OSPFS_BLKSIZE in *.
  pose proof (Z.div_mod o 1024 ltac:(lia)).
  pose proof (Z.div_mod o' 1024 ltac:(lia)).
  pose proof (Z.mod_pos_bound o 1024 ltac:(lia)).
  pose proof (Z.mod_pos_bound o' 1024 ltac:(lia)).
  assert (Hq : 0 <= o / 1024 /\ 0 <= o' / 1024)
    by (split; apply Z.div_pos; lia).
  destruct (Z.lt_trichotomy (o / 1024) (o' / 1024)) as [Hlt | [Heq | Hgt]].
  - apply (Hdistinct (o / 1024) (o' / 1024)); [lia | lia | congruence].
  - lia.
  - apply (Hdistinct (o' / 1024) (o / 1024)); [lia | lia | congruence].
Qed.

(** The copy loop of [ospfs_write] on a range inside the file. *)
Lemma write_loop_spec (buffer : Z -> Z) (f_pos count : Z) :
  0 <= f_pos ->
  f_pos + count <= oi_size (ospfs_inodes d ino) ->
  forall (fuel : nat) (amount : Z) (d1 : disk),
    ospfs_inodes d1 = ospfs_inodes d ->
    0 <= amount <= count ->
    (Z.to_nat (count - amount) < fuel)%nat ->
    exists d2,
      write_loop dm user_ok fuel ino count amount (f_pos + amount) buffer d1
      = Done (count, f_pos + count) d2
      /\ ospfs_inodes d2 = ospfs_inodes d
      /\ ospfs_super d2 = ospfs_super d1
      /\ (forall o, f_pos + amount <= o < f_pos + count ->
                    load8 (ospfs_data d2) (address o)
                    = load8 buffer (o - f_pos))
      /\ (forall x, (forall o, f_pos + amount <= o < f_pos + count ->
                               x <> address o) ->
                    load8 (ospfs_data d2) x = load8 (ospfs_data d1) x).
Proof.
  intros Hpos Hend.
  induction fuel as [| fuel IH]; intros amount d1 Hi Ha Hf; [lia |].
  cbn [write_loop].
  destruct (Z.ltb_spec amount count) as [Hlt | Hge].
  2:{ assert (amount = count) by lia. subst amount.
      exists d1. split; [reflexivity |]. split; [exact Hi |].
      split; [reflexivity |]. split; [intros o Ho; lia | reflexivity]. }
  set (pos := f_pos + amount) in *.
  assert (H32 : oi_size (ospfs_inodes d ino) < 2 ^ 32)
    by (unfold OSPFS_NDIRECT, OSPFS_BLKSIZE in *; lia).
  cbv zeta. unfold bind at 1. unfold gets at 1.
  rewrite (u32_id pos) by lia.
  destruct (direct_lookup pos d1 Hi ltac:(lia)) as [Eb _].
  pose proof (Hblocks (pos / OSPFS_BLKSIZE)
                ltac:(unfold OSPFS_BLKSIZE; apply Z.div_pos; lia)
                ltac:(unfold OSPFS_BLKSIZE in *;
                      pose proof (Z.div_mod pos 1024 ltac:(lia));
                      pose proof (Z.mod_pos_bound pos 1024 ltac:(lia)); lia))
    as Hblk.
  rewrite Eb.
  destruct (Z.eqb_spec (oi_direct (ospfs_inodes d ino) (pos / OSPFS_BLKSIZE)) 0);
    [lia |].
  rewrite Z.rem_mod_nonneg by (unfold OSPFS_BLKSIZE; lia).
  pose proof (Z.mod_pos_bound pos OSPFS_BLKSIZE ltac:(reflexivity)) as Hm.
  unfold OSPFS_BLKSIZE in Hm.
  rewrite (u32_id (pos mod OSPFS_BLKSIZE)) by (unfold OSPFS_BLKSIZE; lia).
  rewrite (u32_id (OSPFS_BLKSIZE - pos mod OSPFS_BLKSIZE))
    by (unfold OSPFS_BLKSIZE; lia).
  rewrite (u32_id (count - amount)) by lia.
  set (step := if count - amount <? OSPFS_BLKSIZE - pos mod OSPFS_BLKSIZE
               then count - amount else OSPFS_BLKSIZE - pos mod OSPFS_BLKSIZE).
  assert (Hstep : 0 < step <= count - amount
                  /\ pos mod OSPFS_BLKSIZE + step <= OSPFS_BLKSIZE).
  { subst step. unfold OSPFS_BLKSIZE.
    destruct (Z.ltb_spec (count - amount) (1024 - pos mod 1024)); lia. }
  rewrite Hok. cbn [negb].
  assert (Ea : ospfs_block (oi_direct (ospfs_inodes d ino) (pos / OSPFS_BLKSIZE))
               + pos mod OSPFS_BLKSIZE = address pos).
  { unfold address. f_equal. unfold ospfs_block. apply u32_id.
    unfold OSPFS_BLKSIZE in *. lia. }
  rewrite Ea.
  unfold bind at 1.
  rewrite (size_t_id dm (amount + step)) by lia.
  rewrite (s64_id (pos + step)) by lia.
  replace (pos + step) with (f_pos + (amount + step)) by (subst pos; lia).
  set (d1' := set_data
                (store_bytes (ospfs_data d1) (address pos)
                   (load_bytes buffer amount (Z.to_nat step))) d1).
  destruct (IH (amount + step) d1' Hi ltac:(lia) ltac:(lia))
    as (d2 & E & Hi2 & Hs2 & Hin & Hout).
  exists d2. split; [exact E |]. split; [exact Hi2 |].
  split; [exact Hs2 |].
  assert (Hchunk : forall o, pos <= o < pos + step ->
                             address o = address pos + (o - pos)).
  { intros o Ho. unfold address, OSPFS_BLKSIZE in *.
    pose proof (Z.div_mod pos 1024 ltac:(lia)).
    assert (Eq : o / 1024 = pos / 1024).
    { symmetry. apply Z.div_unique with (r := pos mod 1024 + (o - pos)); lia. }
    assert (Er : o mod 1024 = pos mod 1024 + (o - pos)).
    { symmetry. apply Z.mod_unique with (q := pos / 1024); lia. }
    rewrite Eq, Er. lia. }
  assert (Hstore : forall x,
             load8 (ospfs_data d1') x
             = if (address pos <=? x) && (x <? address pos + step)
               then load8 buffer (amount + (x - address pos))
               else load8 (ospfs_data d1) x).
  { intros x. subst d1'. cbn [ospfs_data set_data].
    rewrite load8_store_bytes, length_load_bytes, Z2Nat.id by lia.
    destruct (Z.leb_spec (address pos) x), (Z.ltb_spec x (address pos + step));
      cbn [andb]; try reflexivity.
    rewrite nth_load_bytes by lia. rewrite load8_mod.
    f_equal. lia. }
  split.
  - intros o Ho.
    destruct (Z.lt_ge_cases o (pos + step)) as [Hin1 | Hin2].
    + rewrite Hout.
      * rewrite Hstore, (Hchunk o) by lia.
        destruct (Z.leb_spec (address pos) (address pos + (o - pos)));
          [| lia].
        destruct (Z.ltb_spec (address pos + (o - pos)) (address pos + step));
          [| lia].
        cbn [andb]. f_equal. subst pos. lia.
      * intros o' Ho'. apply address_injective; lia.
    + apply Hin. lia.
  - intros x Hx. rewrite Hout.
    + rewrite Hstore.
      destruct (Z.leb_spec (address pos) x), (Z.ltb_spec x (address pos + step));
        cbn [andb]; try reflexivity.
      exfalso. apply (Hx (pos + (x - address pos))); [lia |].
      rewrite Hchunk by lia. lia.
    + intros o Ho. apply Hx. lia.
Qed.


End Write.

(** ** Attribute changes *)

Section NotifyChange.
Context {hdr : ospfs_h}.

(** X20.  [ospfs_notify_change]: a size change on a directory is refused
    with [-EPERM] before anything is done; a size change that
    [change_size] fails is returned as it is, and the mode is then not
    stored; a mode change alone stores the mode in the inode before the
    kernel's [inode_change_ok] has been asked, so the new mode stays
    even when that check refuses the change. *)
Theorem ospfs_notify_change_cases (ino : Z) (attr_mode : bool)
    (ia_size ia_mode change_ok setattr : Z) (d : disk) :
  ino < os_ninodes (ospfs_super d) ->
  (oi_ftype (ospfs_inodes d ino) = OSPFS_FTYPE_DIR ->
   ospfs_notify_change ino true attr_mode ia_size ia_mode change_ok setattr d
   = Done (- EPERM) d)
  /\ (oi_ftype (ospfs_inodes d ino) <> OSPFS_FTYPE_DIR ->
      forall e d1,
        change_size ino (u32 ia_size) d = Done e d1 -> e < 0 ->
        ospfs_notify_change ino true attr_mode ia_size ia_mode change_ok
          setattr d
        = Done e d1)
  /\ ospfs_notify_change ino false true ia_size ia_mode change_ok setattr d
     = Done (if change_ok <? 0 then change_ok else setattr)
         {| ospfs_super := ospfs_super d;
            ospfs_inodes :=
              <[ino := with_mode (u32 ia_mode) (ospfs_inodes d ino)]>
                (ospfs_inodes d);
            ospfs_data := ospfs_data d |}.
Proof.
  intros Hino.
  cbv [ospfs_notify_change bind gets ret deref oi_get oi_set ospfs_inode].
  destruct (Z.leb_spec (os_ninodes (ospfs_super d)) ino); [lia |].
  cbv beta iota.
  split; [| split].
  - intros Hdir. rewrite Hdir, Z.eqb_refl. reflexivity.
  - intros Hdir e d1 E He.
    destruct (Z.eqb_spec (oi_ftype (ospfs_inodes d ino)) OSPFS_FTYPE_DIR);
      [contradiction |].
    rewrite E.
    destruct (Z.ltb_spec e 0); [| lia].
    reflexivity.
  - destruct (change_ok <? 0); reflexivity.
Qed.

End NotifyChange.

(** ** Operations that only read *)

Lemma unchanged_preorder : PreOrder unchanged.
Proof.
  split.
  - intros d. reflexivity.
  - intros a b c H1 H2. unfold unchanged in *. congruence.
Qed.

Section ReadOnly.
Context {hdr : ospfs_h}.

#[local] Hint Resolve unchanged_preorder : keeps.

Lemma unchanged_symlink_string (oi k : Z) :
  keeps unchanged (symlink_string oi k).
Proof.
  intros d a d' H. unfold symlink_string in H.
  destruct (cstring _ _ _); inversion H; subst. reflexivity.
Qed.

Lemma unchanged_mk_linux_inode (ok : bool) (ino : Z) :
  keeps unchanged (ospfs_mk_linux_inode ok ino).
Proof. intros d a d' H. apply ospfs_mk_linux_inode_reads in H. exact H. Qed.

Lemma unchanged_direntry_matches (od : Z) (name : list Z) :
  keeps unchanged (direntry_matches od name).
Proof. apply keeps_direntry_matches, unchanged_preorder. Qed.

#[local] Hint Resolve unchanged_symlink_string unchanged_mk_linux_inode
  unchanged_direntry_matches : keeps.

Lemma unchanged_od_name_string (od : Z) : keeps unchanged (od_name_string od).
Proof. apply keeps_od_name_string, unchanged_preorder. Qed.

#[local] Hint Resolve unchanged_od_name_string : keeps.

Lemma unchanged_read_loop (dm : data_model) (user_ok : Z -> Z -> bool)
    (oi count : Z) (fuel : nat) :
  forall amount f_pos out,
    keeps unchanged (read_loop dm user_ok fuel oi count amount f_pos out).
Proof.
  induction fuel as [| fuel IH]; intros amount f_pos out; cbn [read_loop];
    keeps_auto.
Qed.

Lemma unchanged_lookup_scan (ok : bool) (dir_oi : Z) (name : list Z)
    (fuel : nat) :
  forall off, keeps unchanged (lookup_scan fuel ok dir_oi name off).
Proof.
  induction fuel as [| fuel IH]; intros off; cbn [lookup_scan]; keeps_auto.
Qed.

Lemma unchanged_readdir_loop {C : Type} (filldir : C -> emitted -> Z * C)
    (dir_oi : Z) (fuel : nat) :
  forall r ok f_pos c,
    keeps unchanged (readdir_loop filldir fuel dir_oi r ok f_pos c).
Proof.
  induction fuel as [| fuel IH]; intros r ok f_pos c; cbn [readdir_loop];
    keeps_auto.
Qed.

#[local] Hint Resolve unchanged_read_loop unchanged_lookup_scan
  unchanged_readdir_loop : keeps.

(** X21.  The operations that only look at the file system leave the
    image as it is on every return: [ospfs_read], [ospfs_dir_readdir],
    [ospfs_dir_lookup], [find_direntry] and [ospfs_follow_link]. *)
Theorem read_only_operations :
  (forall dm user_ok fuel ino count f_pos,
      keeps unchanged (ospfs_read dm user_ok fuel ino count f_pos))
  /\ (forall (C : Type) (filldir : C -> emitted -> Z * C) fuel dir_ino
             parent_ino pos c,
         keeps unchanged
           (ospfs_dir_readdir filldir fuel dir_ino parent_ino pos c))
  /\ (forall ok dir_ino name,
         keeps unchanged (ospfs_dir_lookup ok dir_ino name))
  /\ (forall dir_oi name, keeps unchanged (find_direntry dir_oi name))
  /\ (forall ino uid, keeps unchanged (ospfs_follow_link ino uid)).
Proof.
  split; [| split; [| split; [| split]]].
  - intros. unfold ospfs_read. keeps_auto.
  - intros. unfold ospfs_dir_readdir. keeps_auto.
  - intros. unfold ospfs_dir_lookup. keeps_auto.
  - intros. apply keeps_find_direntry, unchanged_preorder.
  - intros. unfold ospfs_follow_link. keeps_auto.
Qed.

End ReadOnly.

(** ** Plain symbolic links *)

Lemma strpbrk_absent (s : list Z) (c : Z) : ~ In c s -> strpbrk s c = None.
Proof.
  induction s as [| x s IH]; intros H; cbn [strpbrk]; [reflexivity |].
  destruct (Z.eqb_spec x c) as [-> | Hne]; [exfalso; apply H; left; reflexivity |].
  rewrite IH; [reflexivity |]. intros Hin. apply H. right. exact Hin.
Qed.

Lemma keeps_target_preorder (ino : Z) : PreOrder (keeps_target ino).
Proof.
  split.
  - intros d. unfold keeps_target. auto.
  - intros a b c (H1 & H2 & H3) (H4 & H5 & H6). unfold keeps_target.
    repeat split; congruence.
Qed.

Section PlainSymlink.
Context {hdr : ospfs_h}.

Lemma keeps_target_oi_set (ino oi : Z) (f : ospfs_inode_t -> ospfs_inode_t) :
  (forall i, oi_size (f i) = oi_size i /\ oi_symlink (f i) = oi_symlink i) ->
  keeps (keeps_target ino) (oi_set f oi).
Proof.
  intros Hf d x d' H. unfold oi_set in H. inversion H; subst; clear H.
  unfold keeps_target. cbn [ospfs_super ospfs_inodes].
  split; [reflexivity |].
  destruct (decide (oi = ino)) as [-> | Hne].
  - rewrite fn_lookup_insert. apply Hf.
  - rewrite fn_lookup_insert_ne by exact Hne. auto.
Qed.

Lemma keeps_target_data (ino : Z) (f : disk -> Z -> Z) :
  keeps (keeps_target ino) (fun d => Done tt (set_data (f d) d)).
Proof.
  intros d x d' H. inversion H; subst. unfold keeps_target. cbn. auto.
Qed.

Lemma keeps_target_with_ftype (ino oi v : Z) :
  keeps (keeps_target ino) (oi_set (with_ftype v) oi).
Proof. apply keeps_target_oi_set. intros i. cbn. auto. Qed.

Lemma keeps_target_with_nlink (ino oi v : Z) :
  keeps (keeps_target ino) (oi_set (with_nlink v) oi).
Proof. apply keeps_target_oi_set. intros i. cbn. auto. Qed.

Lemma keeps_target_wr8 (ino a v : Z) : keeps (keeps_target ino) (wr8 a v).
Proof. apply (keeps_target_data ino (fun d => store8 (ospfs_data d) a v)). Qed.

Lemma keeps_target_wr32 (ino a v : Z) : keeps (keeps_target ino) (wr32 a v).
Proof. apply (keeps_target_data ino (fun d => store32 (ospfs_data d) a v)). Qed.

Lemma keeps_target_store_bytes (ino a : Z) (bs : list Z) :
  keeps (keeps_target ino)
    (fun d => Done tt (set_data (store_bytes (ospfs_data d) a bs) d)).
Proof.
  apply (keeps_target_data ino (fun d => store_bytes (ospfs_data d) a bs)).
Qed.

Lemma keeps_target_mk_linux_inode (ino : Z) (ok : bool) (i : Z) :
  keeps (keeps_target ino) (ospfs_mk_linux_inode ok i).
Proof.
  intros d x d' H. apply ospfs_mk_linux_inode_reads in H. subst d'.
  apply keeps_target_preorder.
Qed.

#[local] Hint Resolve keeps_target_preorder keeps_target_with_ftype
  keeps_target_with_nlink keeps_target_wr8 keeps_target_wr32
  keeps_target_store_bytes keeps_target_mk_linux_inode : keeps.

(** What [symlink_encode] stores for a target without ['?']. *)
Lemma symlink_encode_plain (oi : Z) (target : list Z) (d d' : disk) :
  OSPFS_MAXSYMLINKLEN + 1 < 2 ^ 32 ->
  ~ In QMARK target ->
  Forall is_char target ->
  symlink_encode oi target d = Done false d' ->
  ospfs_super d' = ospfs_super d
  /\ strlen target <= OSPFS_MAXSYMLINKLEN
  /\ (forall i, (i < length target)%nat ->
                oi_symlink (ospfs_inodes d' oi) (Z.of_nat i) = nth i target 0)
  /\ oi_symlink (ospfs_inodes d' oi) (strlen target) = 0.
Proof.
  intros Hmax Hq Hchars H. unfold symlink_encode, conditional_form in H.
  rewrite (strpbrk_absent target QMARK Hq) in H.
  assert (Hl : 0 <= strlen target) by (unfold strlen; lia).
  destruct (Z.ltb_spec OSPFS_MAXSYMLINKLEN (strlen target)) as [Hlong | Hfit];
    [inversion H |].
  rewrite (u32_id (strlen target)) in H by lia.
  rewrite strncpy_bytes_all in H.
  apply bind_Done_inv in H. destruct H as ([] & d1 & E1 & H).
  apply bind_Done_inv in H. destruct H as ([] & d2 & E2 & H).
  apply bind_Done_inv in H. destruct H as ([] & d3 & E3 & H).
  inversion H; subst d3; clear H.
  unfold oi_set in E1. inversion E1; subst d1; clear E1.
  apply symlink_puts_spec in E2; [| lia | lia].
  destruct E2 as (S2 & _ & A2).
  assert (E3' : symlink_puts oi (strlen target) [0] d2 = Done tt d').
  { cbn [symlink_puts]. unfold bind. rewrite E3. reflexivity. }
  apply symlink_puts_spec in E3';
    [| lia | unfold strlen in *; cbn [length]; lia].
  destruct E3' as (S3 & _ & A3).
  cbn [ospfs_super] in S2.
  split; [congruence |]. split; [exact Hfit |].
  unfold strlen in *. cbn [length] in A3. change (Z.of_nat 1) with 1 in A3.
  split.
  - intros i Hi. rewrite A3, A2.
    destruct (Z.leb_spec (Z.of_nat (length target)) (Z.of_nat i)); [lia |].
    cbn [andb].
    destruct (Z.leb_spec 0 (Z.of_nat i)); [| lia].
    destruct (Z.ltb_spec (Z.of_nat i) (0 + Z.of_nat (length target))); [| lia].
    cbn [andb]. rewrite Z.sub_0_r, Nat2Z.id.
    apply nth_char; assumption.
  - rewrite A3.
    destruct (Z.leb_spec (Z.of_nat (length target)) (Z.of_nat (length target)));
      [| lia].
    destruct (Z.ltb_spec (Z.of_nat (length target))
                (Z.of_nat (length target) + 1)); [| lia].
    cbn [andb]. rewrite Z.sub_diag. reflexivity.
Qed.

(** The part of [ospfs_symlink] after [symlink_encode]. *)
Lemma ospfs_symlink_stores (ok : bool) (dir_ino : Z) (name target : list Z)
    (ino : Z) (d d' : disk) :
  ospfs_symlink ok dir_ino name target d = Done (0, Some ino) d' ->
  exists d1 d2,
    ino < os_ninodes (ospfs_super d1)
    /\ symlink_encode ino target d1 = Done false d2
    /\ keeps_target ino d2 d'.
Proof.
  intros H. unfold ospfs_symlink in H.
  apply bind_Done_inv in H. destruct H as (dirp & d0 & E0 & H).
  inversion E0; subst dirp d0; clear E0.
  apply bind_Done_inv in H. destruct H as (dir_oi & d0 & E0 & H).
  assert (d0 = d) by (destruct (ospfs_inode dir_ino d); inversion E0; auto).
  subst d0. clear E0.
  unfold bind at 1 in H. unfold oi_get at 1, gets at 1 in H.
  destruct (negb (oi_ftype (ospfs_inodes d dir_oi) =? OSPFS_FTYPE_DIR));
    [inversion H |].
  destruct (OSPFS_MAXNAMELEN <? strlen name); [inversion H |].
  apply bind_Done_inv in H. destruct H as (existing & d0 & E0 & H).
  destruct existing; [inversion H |].
  unfold bind at 1 in H. unfold gets at 1 in H.
  unfold bind at 1 in H. unfold gets at 1 in H.
  destruct (find_free_inode d0 =? 0); [inversion H |].
  unfold ospfs_inode in H.
  destruct (Z.leb_spec (os_ninodes (ospfs_super d0)) (find_free_inode d0))
    as [Hbig | Hino]; [inversion H |].
  apply bind_Done_inv in H. destruct H as (e & d1 & E1 & H).
  destruct e as [err | od]; [inversion H; lia |].
  apply frame_create_blank_direntry, inode_frame_super in E1.
  apply bind_Done_inv in H. destruct H as (len_err & d2 & E2 & H).
  destruct len_err; [inversion H |].
  assert (K : keeps (keeps_target (find_free_inode d0))
                (let* _ := oi_set (with_ftype OSPFS_FTYPE_SYMLINK)
                             (find_free_inode d0) in
                 let* _ := oi_set (with_nlink 1) (find_free_inode d0) in
                 let* _ := (fun d => Done tt
                              (set_data
                                 (store_bytes (ospfs_data d) (od_name od)
                                    (strncpy_bytes name (strlen name))) d)) in
                 let* _ := wr8 (od_name od + strlen name) 0 in
                 let* _ := wr32 od (find_free_inode d0) in
                 let* dir_nlink := oi_get oi_nlink dir_oi in
                 let* _ := oi_set (with_nlink (u32 (dir_nlink + 1))) dir_oi in
                 let* i := ospfs_mk_linux_inode ok (find_free_inode d0) in
                 if i then ret (0, Some (find_free_inode d0))
                 else ret (- ENOMEM, None))).
  { keeps_auto. }
  pose proof (K _ _ _ H) as Hk.
  assert (ino = find_free_inode d0).
  { clear - H.
    repeat (apply bind_Done_inv in H; destruct H as (? & ? & _ & H)).
    match type of H with
    | (if ?b then _ else _) _ = _ => destruct b
    end; inversion H; reflexivity. }
  subst ino.
  exists d1, d2. split; [| split; [exact E2 | exact Hk]].
  unfold same_super in E1. rewrite E1. exact Hino.
Qed.

(** X22.  A symbolic link whose target contains no ['?'] is stored as it
    is: when [ospfs_symlink] accepts the target, [ospfs_follow_link] on
    the new inode yields the target, for every uid. *)
Theorem plain_symlink_follows (ok : bool) (dir_ino : Z)
    (name target : list Z) (ino uid : Z) (d d' : disk) :
  OSPFS_MAXSYMLINKLEN + 1 < 2 ^ 32 ->
  ~ In QMARK target ->
  Forall is_char target ->
  ospfs_symlink ok dir_ino name target d = Done (0, Some ino) d' ->
  ospfs_follow_link ino uid d' = Done (inr target) d'.
Proof.
  intros Hmax Hq Hchars H.
  destruct (ospfs_symlink_stores ok dir_ino name target ino d d' H)
    as (d1 & d2 & Hino & E & (Ks & _ & Ka)).
  destruct (symlink_encode_plain ino target d1 d2 Hmax Hq Hchars E)
    as (S2 & Hfit & Hbytes & Hnul).
  assert (Hfirst : oi_symlink (ospfs_inodes d' ino) 0 mod 256 <> QMARK).
  { rewrite Ka. destruct target as [| c target'].
    - change (strlen []) with 0 in Hnul. rewrite Hnul. discriminate.
    - specialize (Hbytes 0%nat ltac:(cbn [length]; lia)).
      change (Z.of_nat 0) with 0 in Hbytes. cbn [nth] in Hbytes.
      rewrite Hbytes.
      pose proof (Forall_inv Hchars) as Hc. unfold is_char in Hc.
      rewrite Z.mod_small by lia.
      intros E0. apply Hq. left. exact E0. }
  unfold ospfs_follow_link. unfold bind at 1. unfold gets at 1.
  unfold ospfs_inode. rewrite Ks, S2.
  destruct (Z.leb_spec (os_ninodes (ospfs_super d1)) ino); [lia |].
  unfold deref. unfold bind at 1. unfold ret at 1.
  unfold bind at 1. unfold oi_get at 1, gets at 1. unfold load8 at 1.
  destruct (Z.eqb_spec (oi_symlink (ospfs_inodes d' ino) 0 mod 256) QMARK);
    [contradiction |].
  unfold bind.
  rewrite (symlink_string_read ino 0 target d' Hchars).
  - reflexivity.
  - lia.
  - lia.
  - intros i Hi. rewrite Ka. rewrite Z.add_0_l. apply Hbytes. exact Hi.
  - rewrite Ka. rewrite Z.add_0_l. exact Hnul.
Qed.

End PlainSymlink.

(** ** New directory entries *)

Lemma load32_ext (m m' : Z -> Z) (a : Z) :
  (forall i, 0 <= i < 4 -> load8 m' (a + i) = load8 m (a + i)) ->
  load32 m' a = load32 m a.
Proof.
  intros H. unfold load32.
  rewrite <- (Z.add_0_r a) at 1 5.
  rewrite !H by lia. reflexivity.
Qed.

Lemma cstring_ext (m m' : Z -> Z) (k : nat) :
  forall a,
    (forall i, 0 <= i < Z.of_nat k -> load8 m' (a + i) = load8 m (a + i)) ->
    cstring k m' a = cstring k m a.
Proof.
  induction k as [| k IH]; intros a H; cbn [cstring]; [reflexivity |].
  pose proof (H 0 ltac:(lia)) as H0. rewrite Z.add_0_r in H0. rewrite H0.
  rewrite (IH (a + 1)); [reflexivity |].
  intros i Hi. replace (a + 1 + i) with (a + (1 + i)) by lia. apply H. lia.
Qed.

Lemma memcmp_eq_ext (m m' : Z -> Z) (name : list Z) :
  forall a,
    (forall i, 0 <= i < Z.of_nat (length name) ->
               load8 m' (a + i) = load8 m (a + i)) ->
    memcmp_eq m' a name = memcmp_eq m a name.
Proof.
  induction name as [| c name IH]; intros a H; cbn [memcmp_eq]; [reflexivity |].
  cbn [length] in H.
  pose proof (H 0 ltac:(lia)) as H0. rewrite Z.add_0_r in H0. rewrite H0.
  rewrite (IH (a + 1)); [reflexivity |].
  intros i Hi. replace (a + 1 + i) with (a + (1 + i)) by lia. apply H. lia.
Qed.

Section NewEntry.
Context {hdr : ospfs_h}.

(** The test of the scans reads only the bytes of the entry. *)
Lemma direntry_matches_ext (od : Z) (name : list Z) (b : bool)
    (d d' : disk) :
  0 <= OSPFS_MAXNAMELEN ->
  (forall x, od <= x < od + OSPFS_MAXNAMELEN + 5 ->
             load8 (ospfs_data d') x = load8 (ospfs_data d) x) ->
  direntry_matches od name d = Done b d ->
  direntry_matches od name d' = Done b d'.
Proof.
  intros Hmax Hx H.
  unfold direntry_matches, bind, gets, ret, od_name_string, od_ino in *.
  rewrite (load32_ext (ospfs_data d) (ospfs_data d') od)
    by (intros i Hi; apply Hx; lia).
  destruct (load32 (ospfs_data d) od =? 0); [inversion H; reflexivity |].
  unfold od_name in *.
  rewrite (cstring_ext (ospfs_data d) (ospfs_data d'))
    by (intros i Hi; apply Hx; lia).
  destruct (cstring (Z.to_nat (OSPFS_MAXNAMELEN + 1)) (ospfs_data d) (od + 4))
    as [s |] eqn:Es; [| discriminate H].
  destruct (cstring_inv _ _ _ _ Es) as (Hl & _ & _).
  destruct (Z.eqb_spec (strlen s) (strlen name)) as [El | El];
    [| inversion H; reflexivity].
  unfold strlen in El.
  rewrite (memcmp_eq_ext (ospfs_data d) (ospfs_data d'))
    by (intros i Hi; apply Hx; lia).
  inversion H. reflexivity.
Qed.

Lemma direntry_matches_hit (od : Z) (name : list Z) (d : disk) :
  Forall is_char name ->
  od_ino od d <> 0 ->
  cstring (Z.to_nat (OSPFS_MAXNAMELEN + 1)) (ospfs_data d) (od_name od)
  = Some name ->
  direntry_matches od name d = Done true d.
Proof.
  intros Hname Hino Hs.
  unfold direntry_matches, bind, gets, ret, od_name_string.
  destruct (Z.eqb_spec (od_ino od d) 0); [contradiction |].
  rewrite Hs, Z.eqb_refl. do 2 f_equal.
  destruct (cstring_inv _ _ _ _ Hs) as (_ & Hc & _).
  apply memcmp_eq_true. intros i Hi.
  destruct (Hc i Hi) as [-> _]. symmetry.
  apply is_char_byte; assumption.
Qed.

(** What the three stores of [write_direntry] leave in the image. *)
Lemma write_direntry_spec (od ino : Z) (name : list Z) (d : disk) :
  exists d',
    write_direntry od ino name d = Done tt d'
    /\ ospfs_super d' = ospfs_super d
    /\ ospfs_inodes d' = ospfs_inodes d
    /\ (forall x, x < od \/ od + 4 + strlen name + 1 <= x ->
                  load8 (ospfs_data d') x = load8 (ospfs_data d) x)
    /\ od_ino od d' = u32 ino
    /\ (forall i, (i < length name)%nat ->
                  load8 (ospfs_data d') (od_name od + Z.of_nat i)
                  = nth i name 0 mod 256)
    /\ load8 (ospfs_data d') (od_name od + strlen name) = 0.
Proof.
  unfold write_direntry, bind, wr32, memcpy, wr8, od_ino, od_name, strlen.
  cbn [ospfs_data set_data].
  eexists. split; [reflexivity |].
  cbn [ospfs_super ospfs_inodes ospfs_data set_data].
  split; [reflexivity |]. split; [reflexivity |].
  assert (Hb : forall x,
             load8 (store8 (store_bytes (store32 (ospfs_data d) od ino)
                              (od + 4) name)
                      (od + 4 + Z.of_nat (length name)) 0) x
             = if decide (od + 4 + Z.of_nat (length name) = x) then 0
               else if (od + 4 <=? x) && (x <? od + 4 + Z.of_nat (length name))
                    then nth (Z.to_nat (x - (od + 4))) name 0 mod 256
                    else load8 (store32 (ospfs_data d) od ino) x).
  { intros x. rewrite load8_store8, load8_store_bytes. reflexivity. }
  split; [| split; [| split]].
  - intros x Hx. rewrite Hb.
    destruct (decide (od + 4 + Z.of_nat (length name) = x)); [lia |].
    destruct (Z.leb_spec (od + 4) x), (Z.ltb_spec x (od + 4 + Z.of_nat (length name)));
      cbn [andb]; try lia; apply load8_store32_other; lia.
  - rewrite <- (load32_store32 (ospfs_data d) od ino).
    apply load32_ext. intros i Hi. rewrite Hb.
    destruct (decide (od + 4 + Z.of_nat (length name) = od + i)); [lia |].
    destruct (Z.leb_spec (od + 4) (od + i)); [lia |]. reflexivity.
  - intros i Hi. rewrite Hb.
    destruct (decide (od + 4 + Z.of_nat (length name) = od + 4 + Z.of_nat i));
      [lia |].
    destruct (Z.leb_spec (od + 4) (od + 4 + Z.of_nat i)); [| lia].
    destruct (Z.ltb_spec (od + 4 + Z.of_nat i) (od + 4 + Z.of_nat (length name)));
      [| lia].
    cbn [andb]. do 2 f_equal. lia.
  - rewrite Hb.
    destruct (decide (od + 4 + Z.of_nat (length name)
                      = od + 4 + Z.of_nat (length name))); [reflexivity | lia].
Qed.

(** In the direct blocks the address of a file offset depends on the
    inode only. *)
Lemma direct_data_stable (oi off : Z) (d d' : disk) :
  ospfs_inodes d' oi = ospfs_inodes d oi ->
  off / OSPFS_BLKSIZE < OSPFS_NDIRECT ->
  ospfs_inode_data oi off d' = ospfs_inode_data oi off d.
Proof.
  intros Hi Hoff. unfold ospfs_inode_data, ospfs_inode_blockno. cbv zeta.
  rewrite Hi.
  destruct ((oi_size (ospfs_inodes d oi) <=? off)
            || (oi_ftype (ospfs_inodes d oi) =? OSPFS_FTYPE_SYMLINK));
    [reflexivity |].
  destruct (Z.leb_spec (OSPFS_NDIRECT + OSPFS_NINDIRECT) (off / OSPFS_BLKSIZE));
    [unfold OSPFS_NINDIRECT in *; lia |].
  destruct (Z.leb_spec OSPFS_NDIRECT (off / OSPFS_BLKSIZE)); [lia |].
  reflexivity.
Qed.

Lemma entry_addr_stable (dir_oi j : Z) (d d' : disk) :
  ospfs_inodes d' dir_oi = ospfs_inodes d dir_oi ->
  0 < OSPFS_DIRENTRY_SIZE ->
  oi_size (ospfs_inodes d dir_oi) <= OSPFS_NDIRECT * OSPFS_BLKSIZE ->
  j * OSPFS_DIRENTRY_SIZE < oi_size (ospfs_inodes d dir_oi) ->
  entry_addr dir_oi j d' = entry_addr dir_oi j d.
Proof.
  intros Hi Hds Hsmall Hj. unfold entry_addr.
  apply direct_data_stable; [exact Hi |].
  unfold OSPFS_BLKSIZE, OSPFS_NDIRECT in *.
  apply Z.div_lt_upper_bound; lia.
Qed.

Section Written.
Context (dir_oi k ino : Z) (name : list Z) (d d' : disk).
Hypothesis Hds : 0 < OSPFS_DIRENTRY_SIZE.
Hypothesis Hmax : 0 <= OSPFS_MAXNAMELEN.
Hypothesis Hfit : OSPFS_MAXNAMELEN + 5 <= OSPFS_DIRENTRY_SIZE.
Hypothesis Hsmall :
  oi_size (ospfs_inodes d dir_oi) <= OSPFS_NDIRECT * OSPFS_BLKSIZE.
Hypothesis Hname : Forall is_char name.
Hypothesis Hlen : strlen name <= OSPFS_MAXNAMELEN.
Hypothesis Hino : 0 < ino < 2 ^ 32.
Hypothesis Habsent : name_absent dir_oi name d.
Hypothesis Hk : 0 <= k.
Hypothesis Hin : k * OSPFS_DIRENTRY_SIZE < oi_size (ospfs_inodes d dir_oi).
Hypothesis Hapart : entry_apart dir_oi k d.
Hypothesis Hdir : ospfs_inodes d' dir_oi = ospfs_inodes d dir_oi.
Hypothesis Hout :
  forall x, x < entry_addr dir_oi k d
            \/ entry_addr dir_oi k d + 4 + strlen name + 1 <= x ->
            load8 (ospfs_data d') x = load8 (ospfs_data d) x.
Hypothesis Hod : od_ino (entry_addr dir_oi k d) d' = u32 ino.
Hypothesis Hbytes :
  forall i, (i < length name)%nat ->
            load8 (ospfs_data d') (od_name (entry_addr dir_oi k d) + Z.of_nat i)
            = nth i name 0 mod 256.
Hypothesis Hnul :
  load8 (ospfs_data d') (od_name (entry_addr dir_oi k d) + strlen name) = 0.

(** After the entry [k] has been filled with [ino] and [name], it is the
    first entry that matches [name]. *)
Lemma written_entry_first_match : first_match dir_oi name k d'.
Proof.
  unfold first_match. rewrite Hdir.
  split; [exact Hk |]. split; [exact Hin |].
  rewrite (entry_addr_stable dir_oi k d d' Hdir Hds Hsmall Hin).
  split.
  - apply direntry_matches_hit; [exact Hname | rewrite Hod, u32_id; lia |].
    apply cstring_read.
    + unfold strlen in Hlen. lia.
    + intros i Hi. rewrite Hbytes by exact Hi.
      rewrite is_char_byte by assumption.
      split; [reflexivity | apply (nth_char name i Hname Hi)].
    + exact Hnul.
  - intros j Hj.
    assert (Hjin : j * OSPFS_DIRENTRY_SIZE < oi_size (ospfs_inodes d dir_oi))
      by nia.
    rewrite (entry_addr_stable dir_oi j d d' Hdir Hds Hsmall Hjin).
    apply (direntry_matches_ext _ _ _ d d' Hmax); [| apply Habsent; lia].
    intros x Hx. apply Hout.
    pose proof (Hapart j ltac:(lia) Hjin ltac:(lia)) as Ha.
    unfold strlen in *. lia.
Qed.

End Written.

(** A disk with the same bytes and the same directory inode shows the
    same directory. *)
Lemma name_absent_same_view (dir_oi : Z) (name : list Z) (d d' : disk) :
  0 < OSPFS_DIRENTRY_SIZE ->
  0 <= OSPFS_MAXNAMELEN ->
  oi_size (ospfs_inodes d dir_oi) <= OSPFS_NDIRECT * OSPFS_BLKSIZE ->
  ospfs_inodes d' dir_oi = ospfs_inodes d dir_oi ->
  ospfs_data d' = ospfs_data d ->
  name_absent dir_oi name d -> name_absent dir_oi name d'.
Proof.
  intros Hds Hmax Hsmall Hi Hd Ha j Hj Hjin. rewrite Hi in Hjin.
  rewrite (entry_addr_stable dir_oi j d d' Hi Hds Hsmall Hjin).
  apply (direntry_matches_ext _ _ _ d d' Hmax); [| apply Ha; assumption].
  intros x _. rewrite Hd. reflexivity.
Qed.

Lemma first_blank_same_view (dir_oi k : Z) (d d' : disk) :
  0 < OSPFS_DIRENTRY_SIZE ->
  oi_size (ospfs_inodes d dir_oi) <= OSPFS_NDIRECT * OSPFS_BLKSIZE ->
  ospfs_inodes d' dir_oi = ospfs_inodes d dir_oi ->
  ospfs_data d' = ospfs_data d ->
  first_blank dir_oi k d -> first_blank dir_oi k d'.
Proof.
  intros Hds Hsmall Hi Hd (Hk & Hin & Hb & Hu). unfold first_blank.
  rewrite Hi. split; [exact Hk |]. split; [exact Hin |].
  rewrite (entry_addr_stable dir_oi k d d' Hi Hds Hsmall Hin).
  unfold od_ino in *. rewrite Hd. split; [exact Hb |].
  intros j Hj.
  rewrite (entry_addr_stable dir_oi j d d' Hi Hds Hsmall ltac:(nia)).
  apply Hu. exact Hj.
Qed.

(** [ospfs_dir_lookup] on a directory whose first match is known. *)
Lemma lookup_first_match (dir_ino k : Z) (name : list Z) (d : disk) :
  0 < OSPFS_DIRENTRY_SIZE ->
  dir_ino < os_ninodes (ospfs_super d) ->
  oi_size (ospfs_inodes d dir_ino) < 2 ^ 32 ->
  strlen name <= OSPFS_MAXNAMELEN ->
  first_match dir_ino name k d ->
  let ino := od_ino (entry_addr dir_ino k d) d in
  ino < os_ninodes (ospfs_super d) ->
  dt_of_ftype (oi_ftype (ospfs_inodes d ino)) <> None ->
  ospfs_dir_lookup true dir_ino name d = Done (inr (Some ino)) d.
Proof.
  intros Hds Hdir H32 Hlen Hm ino Hino Hty.
  pose proof (find_direntry_finds dir_ino name k d Hds H32 Hm) as Hf.
  unfold ospfs_dir_lookup.
  unfold bind at 1. unfold gets at 1. unfold ospfs_inode.
  destruct (Z.leb_spec (os_ninodes (ospfs_super d)) dir_ino); [lia |].
  destruct (Z.ltb_spec OSPFS_MAXNAMELEN (strlen name)); [lia |].
  unfold deref. unfold bind at 1. unfold ret at 1.
  unfold bind at 1. unfold oi_get at 1, gets at 1.
  unfold find_direntry in Hf.
  unfold bind at 1 in Hf. unfold oi_get at 1, gets at 1 in Hf.
  rewrite (lookup_scan_agrees true dir_ino name _ _ _ _ _ Hf).
  fold ino.
  cbv [ospfs_mk_linux_inode bind gets ret oi_get ospfs_inode negb].
  destruct (Z.leb_spec (os_ninodes (ospfs_super d)) ino); [lia |].
  destruct (dt_of_ftype (oi_ftype (ospfs_inodes d ino)));
    [reflexivity | contradiction].
Qed.



End NewEntry.

(** ** Failing calls *)

Section Failures.
Context {hdr : ospfs_h}.

Lemma find_direntry_unchanged (dir_oi : Z) (name : list Z) (r : option Z)
    (d d' : disk) :
  find_direntry dir_oi name d = Done r d' -> d' = d.
Proof.
  intros H.
  apply (keeps_find_direntry unchanged dir_oi name unchanged_preorder _ _ _ H).
Qed.

Lemma inode_frame_nlink (oi : Z) (d d' : disk) :
  inode_frame oi d d' ->
  forall j, oi_nlink (ospfs_inodes d' j) = oi_nlink (ospfs_inodes d j).
Proof.
  intros (_ & Ho & Hn & _) j.
  destruct (Z.eq_dec j oi) as [-> | Hne]; [exact Hn |].
  rewrite Ho by exact Hne. reflexivity.
Qed.



End Failures.

(** ** Removing a block *)

Section Shrink.
Context {hdr : ospfs_h}.


End Shrink.

(** ** Names that are refused *)

Section RefusedNames.
Context {hdr : ospfs_h}.

(** X29.  The three calls that add a name to a directory check the name
    in the same way: a name longer than [OSPFS_MAXNAMELEN] is refused
    with [-ENAMETOOLONG], a name that an entry of the directory already
    carries with [-EEXIST], and in both cases the image is left as it
    is. *)
Theorem new_name_checks (ok : bool) (src_ino dir_ino mode : Z)
    (name target : list Z) (d : disk) :
  0 < OSPFS_DIRENTRY_SIZE ->
  dir_ino < os_ninodes (ospfs_super d) ->
  src_ino < os_ninodes (ospfs_super d) ->
  oi_ftype (ospfs_inodes d dir_ino) = OSPFS_FTYPE_DIR ->
  oi_size (ospfs_inodes d dir_ino) < 2 ^ 32 ->
  u32 (oi_nlink (ospfs_inodes d src_ino) + 1) <> 0 ->
  (OSPFS_MAXNAMELEN < strlen name ->
   ospfs_link src_ino dir_ino name d = Done (- ENAMETOOLONG) d
   /\ ospfs_create ok dir_ino name mode d = Done (- ENAMETOOLONG, None) d
   /\ ospfs_symlink ok dir_ino name target d
      = Done (- ENAMETOOLONG, None) d)
  /\ (strlen name <= OSPFS_MAXNAMELEN ->
      forall k, first_match dir_ino name k d ->
                ospfs_link src_ino dir_ino name d = Done (- EEXIST) d
                /\ ospfs_create ok dir_ino name mode d
                   = Done (- EEXIST, None) d
                /\ ospfs_symlink ok dir_ino name target d
                   = Done (- EEXIST, None) d).
Proof.
  intros Hds Hdir Hsrc Hft Hsize Hnl.
  unfold ospfs_link, ospfs_create, ospfs_symlink.
  cbv [bind gets ret deref oi_get ospfs_inode].
  destruct (Z.leb_spec (os_ninodes (ospfs_super d)) dir_ino); [lia |].
  destruct (Z.leb_spec (os_ninodes (ospfs_super d)) src_ino); [lia |].
  cbv beta iota. rewrite Hft, Z.eqb_refl. cbn [negb].
  destruct (Z.eqb_spec (u32 (oi_nlink (ospfs_inodes d src_ino) + 1)) 0);
    [contradiction |].
  split.
  - intros Hlong.
    destruct (Z.ltb_spec OSPFS_MAXNAMELEN (strlen name)); [| lia].
    auto.
  - intros Hshort k Hm.
    destruct (Z.ltb_spec OSPFS_MAXNAMELEN (strlen name)); [lia |].
    rewrite (find_direntry_finds dir_ino name k d Hds Hsize Hm).
    auto.
Qed.

End RefusedNames.

(** ** Appending *)

Section Append.
Context {hdr : ospfs_h}.
Context (dm : data_model) (user_ok : Z -> Z -> bool).
Context (ino : Z) (d : disk).

Let size : Z := oi_size (ospfs_inodes d ino).


End Append.

(** ** The properties above on the concrete images *)

Section LabBlocks.
#[local] Existing Instance lab_header.

(** In an image without free bits no block is free. *)
Lemma zero_mem_no_free_block (d : disk) (j : Z) :
  ospfs_data d = zero_mem -> block_is_free d j = false.
Proof.
  intros E. unfold block_is_free, bitvector_test, load32, load8.
  rewrite E. reflexivity.
Qed.

(** X1 on [ten_block_image], whose only free block is block 25. *)
Lemma allocate_block_lowest_free_witness :
  os_nblocks (ospfs_super ten_block_image) <= 2 ^ 31
  /\ exists b d',
       allocate_block ten_block_image = Done b d'
       /\ ospfs_super d' = ospfs_super ten_block_image
       /\ ospfs_inodes d' = ospfs_inodes ten_block_image
       /\ ((b = 0 /\ d' = ten_block_image
            /\ forall j, 2 <= j < os_nblocks (ospfs_super ten_block_image) ->
                         block_is_free ten_block_image j = false)
           \/ (2 <= b < os_nblocks (ospfs_super ten_block_image)
               /\ block_is_free ten_block_image b = true
               /\ (forall j, 2 <= j < b ->
                             block_is_free ten_block_image j = false)
               /\ (forall j, 0 <= j ->
                             block_is_free d' j
                             = if j =? b then false
                               else block_is_free ten_block_image j)
               /\ (forall x,
                      x < ospfs_block OSPFS_FREEMAP_BLK + 4 * (b / 32)
                      \/ ospfs_block OSPFS_FREEMAP_BLK + 4 * (b / 32) + 4 <= x ->
                      load8 (ospfs_data d') x
                      = load8 (ospfs_data ten_block_image) x))).
Proof.
  assert (H1 : os_nblocks (ospfs_super ten_block_image) <= 2 ^ 31)
    by (vm_compute; discriminate).
  exact (conj H1 (allocate_block_lowest_free ten_block_image H1)).
Defined.

(** X2 on [full_image] and block 25. *)
Lemma free_block_marks_free_witness :
  os_ninodes (ospfs_super full_image) <= 2 ^ 31
  /\ exists d',
       free_block 25 full_image = Done tt d'
       /\ ospfs_super d' = ospfs_super full_image
       /\ ospfs_inodes d' = ospfs_inodes full_image
       /\ (u32 (os_firstinob (ospfs_super full_image) + OSPFS_BLKINODES) < 25
           < os_ninodes (ospfs_super full_image) ->
           forall j, 0 <= j ->
                     block_is_free d' j
                     = if j =? 25 then true else block_is_free full_image j)
       /\ (25 <= u32 (os_firstinob (ospfs_super full_image) + OSPFS_BLKINODES)
           \/ os_ninodes (ospfs_super full_image) <= 25 ->
           d' = full_image).
Proof.
  assert (H1 : os_ninodes (ospfs_super full_image) <= 2 ^ 31)
    by (vm_compute; discriminate).
  exact (conj H1 (free_block_marks_free 25 full_image H1)).
Defined.

(** X3 on [full_image] and block 25. *)
Lemma free_then_allocate_same_block_witness :
  (os_nblocks (ospfs_super full_image) <= 2 ^ 31
   /\ os_ninodes (ospfs_super full_image) <= 2 ^ 31
   /\ u32 (os_firstinob (ospfs_super full_image) + OSPFS_BLKINODES) < 25
      < os_ninodes (ospfs_super full_image)
   /\ 2 <= 25 < os_nblocks (ospfs_super full_image)
   /\ (forall j, 2 <= j < 25 -> block_is_free full_image j = false))
  /\ exists d1 d2,
       free_block 25 full_image = Done tt d1
       /\ allocate_block d1 = Done 25 d2
       /\ forall j, 0 <= j ->
                    block_is_free d2 j
                    = if j =? 25 then false else block_is_free full_image j.
Proof.
  assert (H1 : os_nblocks (ospfs_super full_image) <= 2 ^ 31)
    by (vm_compute; discriminate).
  assert (H2 : os_ninodes (ospfs_super full_image) <= 2 ^ 31)
    by (vm_compute; discriminate).
  assert (H3 : u32 (os_firstinob (ospfs_super full_image) + OSPFS_BLKINODES)
               < 25 < os_ninodes (ospfs_super full_image))
    by (vm_compute; split; reflexivity).
  assert (H4 : 2 <= 25 < os_nblocks (ospfs_super full_image))
    by (vm_compute; split; [discriminate | reflexivity]).
  assert (H5 : forall j, 2 <= j < 25 -> block_is_free full_image j = false)
    by (intros j _; apply zero_mem_no_free_block; reflexivity).
  exact (conj (conj H1 (conj H2 (conj H3 (conj H4 H5))))
           (free_then_allocate_same_block 25 full_image H1 H2 H3 H4 H5)).
Defined.

(** X4 on a size one byte above a block, and on the largest size. *)
Lemma ospfs_size2nblocks_rounds_up_witness :
  (0 <= 1025 < 2 ^ 32 /\ 0 <= 2 ^ 32 - 1 < 2 ^ 32)
  /\ (ospfs_size2nblocks 1025 - 1) * OSPFS_BLKSIZE < 1025
     <= ospfs_size2nblocks 1025 * OSPFS_BLKSIZE
  /\ ospfs_size2nblocks (2 ^ 32 - 1) = 0.
Proof.
  assert (H1 : 0 <= 1025 < 2 ^ 32)
    by (vm_compute; split; [discriminate | reflexivity]).
  assert (H2 : 0 <= 2 ^ 32 - 1 < 2 ^ 32)
    by (vm_compute; split; [discriminate | reflexivity]).
  assert (H3 : 1025 <= 2 ^ 32 - OSPFS_BLKSIZE) by (vm_compute; discriminate).
  assert (H4 : 2 ^ 32 - OSPFS_BLKSIZE < 2 ^ 32 - 1)
    by (vm_compute; reflexivity).
  exact (conj (conj H1 H2)
           (conj (proj1 (ospfs_size2nblocks_rounds_up 1025 H1) H3)
              (proj2 (ospfs_size2nblocks_rounds_up (2 ^ 32 - 1) H2) H4))).
Defined.

(** X5 on block 300, the 35th block below the doubly-indirect block. *)
Lemma block_index_decomposition_witness :
  0 <= 300 < 2 ^ 31
  /\ indir2_index 300 = 0
  /\ 0 <= indir_index 300
  /\ 0 <= direct_index 300 < OSPFS_NINDIRECT
  /\ 300 = OSPFS_NDIRECT + OSPFS_NINDIRECT
           + OSPFS_NINDIRECT * indir_index 300 + direct_index 300.
Proof.
  assert (H1 : 0 <= 300 < 2 ^ 31)
    by (vm_compute; split; [discriminate | reflexivity]).
  assert (H2 : OSPFS_NDIRECT + OSPFS_NINDIRECT <= 300)
    by (vm_compute; discriminate).
  exact (conj H1 (proj2 (proj2 (block_index_decomposition 300 H1)) H2)).
Defined.

(** X6 at offset 6200 of the file of [ten_block_image]. *)
Lemma lookup_follows_index_functions_witness :
  (0 <= 6200 < oi_size (ospfs_inodes ten_block_image 2)
   /\ 6200 < 2 ^ 32
   /\ oi_ftype (ospfs_inodes ten_block_image 2) <> OSPFS_FTYPE_SYMLINK)
  /\ ospfs_inode_blockno 2 6200 ten_block_image
     = if indir_index (6200 / OSPFS_BLKSIZE) =? -1
       then oi_direct (ospfs_inodes ten_block_image 2)
              (direct_index (6200 / OSPFS_BLKSIZE))
       else if indir2_index (6200 / OSPFS_BLKSIZE) =? -1
            then slot ten_block_image
                   (oi_indirect (ospfs_inodes ten_block_image 2))
                   (direct_index (6200 / OSPFS_BLKSIZE))
            else slot ten_block_image
                   (slot ten_block_image
                      (oi_indirect2 (ospfs_inodes ten_block_image 2))
                      (indir_index (6200 / OSPFS_BLKSIZE)))
                   (direct_index (6200 / OSPFS_BLKSIZE)).
Proof.
  assert (H1 : 0 <= 6200 < oi_size (ospfs_inodes ten_block_image 2))
    by (vm_compute; split; [discriminate | reflexivity]).
  assert (H2 : 6200 < 2 ^ 32) by (vm_compute; reflexivity).
  assert (H3 : oi_ftype (ospfs_inodes ten_block_image 2)
               <> OSPFS_FTYPE_SYMLINK) by (vm_compute; discriminate).
  exact (conj (conj H1 (conj H2 H3))
           (lookup_follows_index_functions 2 6200 ten_block_image H1 H2 H3)).
Defined.


(** X9 on the file of 266 blocks of [doubly_indirect_image]. *)
Lemma add_block_existing_indirect_faults_witness :
  (ospfs_size2nblocks (oi_size (ospfs_inodes doubly_indirect_image 2)) = 266
   /\ 266 <> OSPFS_MAXFILEBLKS
   /\ OSPFS_NDIRECT + OSPFS_NINDIRECT <= 266
   /\ oi_indirect2 (ospfs_inodes doubly_indirect_image 2) <> 0
   /\ slot doubly_indirect_image
        (oi_indirect2 (ospfs_inodes doubly_indirect_image 2))
        (indir_index 266) <> 0)
  /\ add_block 2 doubly_indirect_image = Oops.
Proof.
  assert (H1 : ospfs_size2nblocks
                 (oi_size (ospfs_inodes doubly_indirect_image 2)) = 266)
    by (vm_compute; reflexivity).
  assert (H2 : 266 <> OSPFS_MAXFILEBLKS) by (vm_compute; discriminate).
  assert (H3 : OSPFS_NDIRECT + OSPFS_NINDIRECT <= 266)
    by (vm_compute; discriminate).
  assert (H4 : oi_indirect2 (ospfs_inodes doubly_indirect_image 2) <> 0)
    by (vm_compute; discriminate).
  assert (H5 : slot doubly_indirect_image
                 (oi_indirect2 (ospfs_inodes doubly_indirect_image 2))
                 (indir_index 266) <> 0)
    by (vm_compute; discriminate).
  exact (conj (conj H1 (conj H2 (conj H3 (conj H4 H5))))
           (add_block_existing_indirect_faults 2 266 doubly_indirect_image
              H1 H2 H3 H4 H5)).
Defined.

(** X10 on the file of [ten_block_image], cut from 10240 to 10000
    bytes. *)
Lemma change_size_same_blocks_witness :
  ospfs_size2nblocks 10000
  = ospfs_size2nblocks (oi_size (ospfs_inodes ten_block_image 2))
  /\ change_size 2 10000 ten_block_image
     = Done 0
         {| ospfs_super := ospfs_super ten_block_image;
            ospfs_inodes :=
              <[2 := with_size 10000 (ospfs_inodes ten_block_image 2)]>
                (ospfs_inodes ten_block_image);
            ospfs_data := ospfs_data ten_block_image |}.
Proof.
  assert (H1 : ospfs_size2nblocks 10000
               = ospfs_size2nblocks
                   (oi_size (ospfs_inodes ten_block_image 2)))
    by (vm_compute; reflexivity).
  exact (conj H1 (change_size_same_blocks 2 10000 ten_block_image H1)).
Defined.

(** X11 on the file of [dir_image], grown to two blocks. *)
Lemma change_size_results_witness :
  change_size 2 2048 dir_image = Done 0 grown_image
  /\ ((0 = 0 /\ oi_size (ospfs_inodes grown_image 2) = 2048)
      \/ (0 = - ENOSPC
          /\ oi_size (ospfs_inodes grown_image 2)
             = oi_size (ospfs_inodes dir_image 2))
      \/ 0 = - EIO).
Proof.
  assert (H1 : change_size 2 2048 dir_image = Done 0 grown_image)
    by (vm_compute; reflexivity).
  exact (conj H1 (change_size_results 2 2048 0 dir_image grown_image H1)).
Defined.


End LabBlocks.

Section LabFiles.
#[local] Existing Instance lab_header.

(** The entries of the root directory of [dir_image] are the entries 0
    to 7. *)
Lemma dir_image_entries (j : Z) :
  0 <= j ->
  j * OSPFS_DIRENTRY_SIZE < oi_size (ospfs_inodes dir_image 1) ->
  j = 0 \/ j = 1 \/ j = 2 \/ j = 3 \/ j = 4 \/ j = 5 \/ j = 6 \/ j = 7.
Proof.
  intros Hj Hlt.
  replace (oi_size (ospfs_inodes dir_image 1)) with 1024 in Hlt
    by (vm_compute; reflexivity).
  change OSPFS_DIRENTRY_SIZE with 128 in Hlt.
  lia.
Qed.

(** No entry of that directory carries a name other than ["a"] and
    ["b"]. *)
Ltac no_such_entry :=
  let j := fresh "j" in
  let Hj := fresh "Hj" in
  let Hlt := fresh "Hlt" in
  intros j Hj Hlt;
  destruct (dir_image_entries j Hj Hlt)
    as [-> | [-> | [-> | [-> | [-> | [-> | [-> | ->]]]]]]];
  vm_compute; reflexivity.

(** X12 on the first entry of [dir_image] and the name ["a"]. *)
Lemma direntry_matches_name_witness :
  Forall is_char (bytes "a")
  /\ (direntry_matches (entry_addr 1 0 dir_image) (bytes "a") dir_image
      = Done true dir_image
      <-> od_ino (entry_addr 1 0 dir_image) dir_image <> 0
          /\ cstring (Z.to_nat (OSPFS_MAXNAMELEN + 1)) (ospfs_data dir_image)
               (od_name (entry_addr 1 0 dir_image))
             = Some (bytes "a")).
Proof.
  assert (H1 : Forall is_char (bytes "a"))
    by (repeat constructor; vm_compute; discriminate).
  exact (conj H1
           (direntry_matches_name (entry_addr 1 0 dir_image) (bytes "a")
              dir_image H1)).
Defined.

(** X13 on [dir_image]: the name ["b"] is found in entry 1, the name
    ["zz"] nowhere. *)
Lemma find_direntry_first_match_witness :
  (0 < OSPFS_DIRENTRY_SIZE
   /\ 0 <= oi_size (ospfs_inodes dir_image 1)
   /\ oi_size (ospfs_inodes dir_image 1) + OSPFS_DIRENTRY_SIZE <= 2 ^ 32
   /\ first_match 1 (bytes "b") 1 dir_image)
  /\ find_direntry 1 (bytes "b") dir_image
     = Done (Some (entry_addr 1 1 dir_image)) dir_image
  /\ find_direntry 1 (bytes "zz") dir_image = Done None dir_image.
Proof.
  assert (H1 : 0 < OSPFS_DIRENTRY_SIZE) by (vm_compute; reflexivity).
  assert (H2 : 0 <= oi_size (ospfs_inodes dir_image 1))
    by (vm_compute; discriminate).
  assert (H3 : oi_size (ospfs_inodes dir_image 1) + OSPFS_DIRENTRY_SIZE
               <= 2 ^ 32) by (vm_compute; discriminate).
  assert (H4 : first_match 1 (bytes "b") 1 dir_image).
  { split; [lia |].
    split; [vm_compute; reflexivity |].
    split; [vm_compute; reflexivity |].
    intros j Hj. assert (j = 0) as -> by lia. vm_compute; reflexivity. }
  assert (H5 : forall j, 0 <= j ->
                 j * OSPFS_DIRENTRY_SIZE < oi_size (ospfs_inodes dir_image 1) ->
                 direntry_matches (entry_addr 1 j dir_image) (bytes "zz")
                   dir_image = Done false dir_image)
    by no_such_entry.
  exact (conj (conj H1 (conj H2 (conj H3 H4)))
           (conj
              (proj1 (find_direntry_first_match 1 (bytes "b") dir_image
                        H1 H2 H3) 1 H4)
              (proj2 (find_direntry_first_match 1 (bytes "zz") dir_image
                        H1 H2 H3) H5))).
Defined.

(** X14 on [dir_image] and the name ["b"]. *)
Lemma lookup_agrees_with_find_direntry_witness :
  (1 < os_ninodes (ospfs_super dir_image)
   /\ find_direntry 1 (bytes "b") dir_image
      = Done (Some (entry_addr 1 1 dir_image)) dir_image)
  /\ ospfs_dir_lookup true 1 (bytes "b") dir_image
     = if OSPFS_MAXNAMELEN <? strlen (bytes "b")
       then Done (inl (- ENAMETOOLONG)) dir_image
       else match ospfs_mk_linux_inode true
                    (od_ino (entry_addr 1 1 dir_image) dir_image)
                    dir_image with
            | Done true _ =>
                Done (inr (Some (od_ino (entry_addr 1 1 dir_image) dir_image)))
                  dir_image
            | Done false _ => Done (inl (- EINVAL)) dir_image
            | Oops => Oops
            | Fuel => Fuel
            end.
Proof.
  assert (H1 : 1 < os_ninodes (ospfs_super dir_image))
    by (vm_compute; reflexivity).
  assert (H2 : find_direntry 1 (bytes "b") dir_image
               = Done (Some (entry_addr 1 1 dir_image)) dir_image)
    by (vm_compute; reflexivity).
  exact (conj (conj H1 H2)
           (lookup_agrees_with_find_direntry true 1 (bytes "b")
              (Some (entry_addr 1 1 dir_image)) dir_image dir_image H1 H2)).
Defined.

(** X15 on [dir_image] and the name ["zz"]. *)
Lemma ospfs_unlink_enoent_witness :
  (0 < OSPFS_DIRENTRY_SIZE
   /\ 1 < os_ninodes (ospfs_super dir_image)
   /\ 0 <= 8
   /\ oi_size (ospfs_inodes dir_image 1) = 8 * OSPFS_DIRENTRY_SIZE
   /\ oi_size (ospfs_inodes dir_image 1) + OSPFS_DIRENTRY_SIZE <= 2 ^ 32
   /\ (forall j, 0 <= j ->
                 j * OSPFS_DIRENTRY_SIZE < oi_size (ospfs_inodes dir_image 1) ->
                 direntry_matches (entry_addr 1 j dir_image) (bytes "zz")
                   dir_image = Done false dir_image))
  /\ ospfs_unlink 2 1 (bytes "zz") dir_image = Done (- ENOENT) dir_image.
Proof.
  assert (H1 : 0 < OSPFS_DIRENTRY_SIZE) by (vm_compute; reflexivity).
  assert (H2 : 1 < os_ninodes (ospfs_super dir_image))
    by (vm_compute; reflexivity).
  assert (H3 : 0 <= 8) by (vm_compute; discriminate).
  assert (H4 : oi_size (ospfs_inodes dir_image 1) = 8 * OSPFS_DIRENTRY_SIZE)
    by (vm_compute; reflexivity).
  assert (H5 : oi_size (ospfs_inodes dir_image 1) + OSPFS_DIRENTRY_SIZE
               <= 2 ^ 32) by (vm_compute; discriminate).
  assert (H6 : forall j, 0 <= j ->
                 j * OSPFS_DIRENTRY_SIZE < oi_size (ospfs_inodes dir_image 1) ->
                 direntry_matches (entry_addr 1 j dir_image) (bytes "zz")
                   dir_image = Done false dir_image)
    by no_such_entry.
  exact (conj (conj H1 (conj H2 (conj H3 (conj H4 (conj H5 H6)))))
           (ospfs_unlink_enoent 2 1 8 (bytes "zz") dir_image
              H1 H2 H3 H4 H5 H6)).
Defined.

(** Entry 2 is the first unused entry of [dir_image]. *)
Lemma dir_image_first_blank : first_blank 1 2 dir_image.
Proof.
  split; [lia |].
  split; [vm_compute; reflexivity |].
  split; [vm_compute; reflexivity |].
  intros j Hj.
  assert (Hc : j = 0 \/ j = 1) by lia.
  destruct Hc as [-> | ->]; vm_compute; discriminate.
Qed.

(** X16 on [dir_image]: the entry handed out is entry 2; and on the
    regular file of inode 2. *)
Lemma create_blank_direntry_reuses_witness :
  (0 < OSPFS_DIRENTRY_SIZE
   /\ oi_size (ospfs_inodes dir_image 1) < 2 ^ 32
   /\ oi_size (ospfs_inodes dir_image 2) < 2 ^ 32)
  /\ create_blank_direntry 1 dir_image
     = Done (inr (entry_addr 1 2 dir_image)) dir_image
  /\ create_blank_direntry 2 dir_image = Done (inl (- EIO)) dir_image.
Proof.
  assert (H1 : 0 < OSPFS_DIRENTRY_SIZE) by (vm_compute; reflexivity).
  assert (H2 : oi_size (ospfs_inodes dir_image 1) < 2 ^ 32)
    by (vm_compute; reflexivity).
  assert (H3 : oi_size (ospfs_inodes dir_image 2) < 2 ^ 32)
    by (vm_compute; reflexivity).
  assert (H4 : oi_ftype (ospfs_inodes dir_image 1) = OSPFS_FTYPE_DIR)
    by (vm_compute; reflexivity).
  assert (H5 : oi_ftype (ospfs_inodes dir_image 2) <> OSPFS_FTYPE_DIR)
    by (vm_compute; discriminate).
  destruct dir_image_first_blank as (B1 & B2 & B3 & B4).
  exact (conj (conj H1 (conj H2 H3))
           (conj
              (proj2 (create_blank_direntry_reuses 1 dir_image H1 H2)
                 H4 2 B1 B2 B3 B4)
              (proj1 (create_blank_direntry_reuses 2 dir_image H1 H3) H5))).
Defined.

(** The ten blocks of the file of [ten_block_image]. *)
Lemma ten_block_direct (b : Z) :
  0 <= b -> b * OSPFS_BLKSIZE < oi_size (ospfs_inodes ten_block_image 2) ->
  oi_direct (ospfs_inodes ten_block_image 2) b = 5 + b.
Proof.
  intros Hb Hlt.
  replace (oi_size (ospfs_inodes ten_block_image 2)) with 10240 in Hlt
    by (vm_compute; reflexivity).
  unfold OSPFS_BLKSIZE in Hlt.
  change (oi_direct (ospfs_inodes ten_block_image 2) b)
    with (if (0 <=? b) && (b <? 10) then 5 + b else 0).
  decide_range. reflexivity.
Qed.


(** X18 on the empty file of [full_image]. *)
Lemma ospfs_read_at_eof_witness :
  (2 < os_ninodes (ospfs_super full_image)
   /\ 0 <= 0 < 2 ^ 63
   /\ oi_size (ospfs_inodes full_image 2) <= 0
   /\ 0 <= 4 <= size_max ILP32
   /\ ~ addition_overflows ILP32 0 4)
  /\ ospfs_read ILP32 (fun _ _ => true) 1 2 4 0 full_image
     = Done (0, 0, []) full_image.
Proof.
  assert (H1 : 2 < os_ninodes (ospfs_super full_image))
    by (vm_compute; reflexivity).
  assert (H2 : 0 <= 0 < 2 ^ 63)
    by (vm_compute; split; [discriminate | reflexivity]).
  assert (H3 : oi_size (ospfs_inodes full_image 2) <= 0)
    by (vm_compute; discriminate).
  assert (H4 : 0 <= 4 <= size_max ILP32)
    by (vm_compute; split; discriminate).
  assert (H5 : ~ addition_overflows ILP32 0 4)
    by (vm_compute; intros H; discriminate H).
  exact (conj (conj H1 (conj H2 (conj H3 (conj H4 H5))))
           (ospfs_read_at_eof ILP32 (fun _ _ => true) 0 2 4 0 full_image
              H1 H2 H3 H4 H5)).
Defined.


(** X20 on [dir_image]: a size change on the root directory, and a mode
    change on the file of inode 2 that [inode_change_ok] refuses. *)
Lemma ospfs_notify_change_cases_witness :
  (1 < os_ninodes (ospfs_super dir_image)
   /\ 2 < os_ninodes (ospfs_super dir_image)
   /\ oi_ftype (ospfs_inodes dir_image 1) = OSPFS_FTYPE_DIR)
  /\ ospfs_notify_change 1 true false 0 0 0 0 dir_image
     = Done (- EPERM) dir_image
  /\ ospfs_notify_change 2 false true 0 448 (- EPERM) 0 dir_image
     = Done (if - EPERM <? 0 then - EPERM else 0)
         {| ospfs_super := ospfs_super dir_image;
            ospfs_inodes :=
              <[2 := with_mode (u32 448) (ospfs_inodes dir_image 2)]>
                (ospfs_inodes dir_image);
            ospfs_data := ospfs_data dir_image |}.
Proof.
  assert (H1 : 1 < os_ninodes (ospfs_super dir_image))
    by (vm_compute; reflexivity).
  assert (H2 : 2 < os_ninodes (ospfs_super dir_image))
    by (vm_compute; reflexivity).
  assert (H3 : oi_ftype (ospfs_inodes dir_image 1) = OSPFS_FTYPE_DIR)
    by (vm_compute; reflexivity).
  exact (conj (conj H1 (conj H2 H3))
           (conj
              (proj1 (ospfs_notify_change_cases 1 false 0 0 0 0 dir_image H1)
                 H3)
              (proj2 (proj2 (ospfs_notify_change_cases 2 true 0 448 (- EPERM)
                               0 dir_image H2))))).
Defined.

(** X22 on [dir_image] after [symlink(root, "p", "/etc")]. *)
Lemma plain_symlink_follows_witness :
  (OSPFS_MAXSYMLINKLEN + 1 < 2 ^ 32
   /\ ~ In QMARK (bytes "/etc")
   /\ Forall is_char (bytes "/etc")
   /\ ospfs_symlink true 1 (bytes "p") (bytes "/etc") dir_image
      = Done (0, Some 3) plain_symlinked_image)
  /\ ospfs_follow_link 3 1000 plain_symlinked_image
     = Done (inr (bytes "/etc")) plain_symlinked_image.
Proof.
  assert (H1 : OSPFS_MAXSYMLINKLEN + 1 < 2 ^ 32) by (vm_compute; reflexivity).
  assert (H2 : ~ In QMARK (bytes "/etc"))
    by (vm_compute; intuition discriminate).
  assert (H3 : Forall is_char (bytes "/etc"))
    by (repeat constructor; vm_compute; discriminate).
  assert (H4 : ospfs_symlink true 1 (bytes "p") (bytes "/etc") dir_image
               = Done (0, Some 3) plain_symlinked_image)
    by (vm_compute; reflexivity).
  exact (conj (conj H1 (conj H2 (conj H3 H4)))
           (plain_symlink_follows true 1 (bytes "p") (bytes "/etc") 3 1000
              dir_image plain_symlinked_image H1 H2 H3 H4)).
Defined.

End LabFiles.

Section LabNames.
#[local] Existing Instance lab_header.

Lemma dir_image_small : small_directory 1 dir_image.
Proof.
  split; [vm_compute; reflexivity |].
  vm_compute. split; discriminate.
Qed.

Lemma dir_image_lacks_c : name_absent 1 (bytes "c") dir_image.
Proof.
  intros j Hj Hlt.
  destruct (dir_image_entries j Hj Hlt)
    as [-> | [-> | [-> | [-> | [-> | [-> | [-> | ->]]]]]]];
    vm_compute; reflexivity.
Qed.

Lemma dir_image_entry_apart : entry_apart 1 2 dir_image.
Proof.
  intros j Hj Hlt Hne.
  destruct (dir_image_entries j Hj Hlt)
    as [-> | [-> | [-> | [-> | [-> | [-> | [-> | ->]]]]]]];
    first [ contradiction
          | left; vm_compute; discriminate
          | right; vm_compute; discriminate ].
Qed.





End LabNames.

Section LabAppend.
#[local] Existing Instance lab_header.

(** X29 on [dir_image], where the name ["a"] is taken. *)
Lemma new_name_checks_witness :
  (0 < OSPFS_DIRENTRY_SIZE
   /\ 1 < os_ninodes (ospfs_super dir_image)
   /\ 2 < os_ninodes (ospfs_super dir_image)
   /\ oi_ftype (ospfs_inodes dir_image 1) = OSPFS_FTYPE_DIR
   /\ oi_size (ospfs_inodes dir_image 1) < 2 ^ 32
   /\ u32 (oi_nlink (ospfs_inodes dir_image 2) + 1) <> 0
   /\ strlen (bytes "a") <= OSPFS_MAXNAMELEN
   /\ first_match 1 (bytes "a") 0 dir_image)
  /\ ospfs_link 2 1 (bytes "a") dir_image = Done (- EEXIST) dir_image
  /\ ospfs_create true 1 (bytes "a") 420 dir_image
     = Done (- EEXIST, None) dir_image
  /\ ospfs_symlink true 1 (bytes "a") (bytes "/t") dir_image
     = Done (- EEXIST, None) dir_image.
Proof.
  assert (H1 : 0 < OSPFS_DIRENTRY_SIZE) by (vm_compute; reflexivity).
  assert (H2 : 1 < os_ninodes (ospfs_super dir_image))
    by (vm_compute; reflexivity).
  assert (H3 : 2 < os_ninodes (ospfs_super dir_image))
    by (vm_compute; reflexivity).
  assert (H4 : oi_ftype (ospfs_inodes dir_image 1) = OSPFS_FTYPE_DIR)
    by (vm_compute; reflexivity).
  assert (H5 : oi_size (ospfs_inodes dir_image 1) < 2 ^ 32)
    by (vm_compute; reflexivity).
  assert (H6 : u32 (oi_nlink (ospfs_inodes dir_image 2) + 1) <> 0)
    by (vm_compute; discriminate).
  assert (H7 : strlen (bytes "a") <= OSPFS_MAXNAMELEN)
    by (vm_compute; discriminate).
  assert (H8 : first_match 1 (bytes "a") 0 dir_image).
  { split; [lia |].
    split; [vm_compute; reflexivity |].
    split; [vm_compute; reflexivity |].
    intros j Hj. lia. }
  exact (conj (conj H1 (conj H2 (conj H3 (conj H4 (conj H5 (conj H6
                 (conj H7 H8)))))))
           (proj2 (new_name_checks true 2 1 420 (bytes "a") (bytes "/t")
                     dir_image H1 H2 H3 H4 H5 H6) H7 0 H8)).
Defined.


End LabAppend.
